(** * Shape and type inference of the matmul-family contrib operators

    A shallow embedding of [FusedMatMulShapeInference],
    [sparseCompatibleMatmulShapeInference] and of the inference lambdas
    registered for [FusedMatMul], [MatMulInteger16] and
    [SparseToDenseMatMul] in
    [onnxruntime/core/graph/contrib_ops/contrib_defs.cc], followed by the
    inference of [FusedGemm], [Tokenizer], [MurmurHash3], [GatherND],
    [ExpandDims], [Pad], [Inverse], [Attention], [DecoderAttention] and
    [BeamSearch] from the same file.

    The C++ functions mutate the output type held by an
    [InferenceContext] and leave either by [return] or by throwing an
    inference error.  Here a call maps a context to the context it leaves
    behind together with the way it ended. *)

From Stdlib Require Import ZArith List String Bool Lia Permutation DecimalString.
Import ListNotations.
Open Scope string_scope.
Open Scope list_scope.
Open Scope Z_scope.

(** ** The protobuf data the inference works on *)

(** [TensorShapeProto_Dimension]: a oneof of [dim_value] (an int64) and
    [dim_param] (a symbolic name), or neither. *)
Inductive Dimension : Type :=
| dim_value (v : Z)
| dim_param (p : string)
| dim_unset.

Definition has_dim_value (d : Dimension) : bool :=
  match d with dim_value _ => true | _ => false end.

(** The getter [d.dim_value()]: the protobuf default 0 when no value is set. *)
Definition get_dim_value (d : Dimension) : Z :=
  match d with dim_value v => v | _ => 0 end.

Definition TensorShapeProto : Type := list Dimension.

Definition dim_size (s : TensorShapeProto) : Z := Z.of_nat (List.length s).

(** [s.dim(i)].  An index outside the shape is a fault in protobuf; the
    model answers with an unset dimension there. *)
Definition dim (s : TensorShapeProto) (i : Z) : Dimension :=
  if i <? 0 then dim_unset else nth (Z.to_nat i) s dim_unset.

(** The indices visited by [for (int i = start; i < end; ++i)]. *)
Definition for_range (start end_ : Z) : list Z :=
  map (fun k => start + Z.of_nat k) (seq 0 (Z.to_nat (end_ - start))).

Inductive ValueCase : Type := kTensorType | kSparseTensorType | VALUE_NOT_SET.


(** A [TypeProto] restricted to what the matmul inference reads and
    writes: which tensor kind it is, the element type (a
    [TensorProto_DataType] number) and the shape, if one is declared. *)
Record TypeProto : Type := mkTypeProto {
  value_case : ValueCase;
  elem_type : Z;
  shape : option TensorShapeProto
}.

(** [TensorProto::INT32]. *)
Definition TensorProto_INT32 : Z := 6.

(** The two errors raised by [fail_shape_inference] and
    [fail_type_inference], with the message passed to the macro. *)
Inductive InferenceError : Type :=
| ShapeInferenceError (msg : string)
| TypeInferenceError (msg : string).

(** The operators below are declared with two inputs and one output; the
    context holds their types and the node's integer attributes. *)
Record InferenceContext : Type := mkInferenceContext {
  attributes : list (string * Z);
  input0 : TypeProto;
  input1 : TypeProto;
  output0 : TypeProto
}.

(** How a call of a [void] inference function ends. *)
Inductive Completion : Type :=
| Returned
| Thrown (e : InferenceError).

Definition Run : Type := (InferenceContext * Completion)%type.

Definition andThen (r : Run) (k : InferenceContext -> Run) : Run :=
  match r with
  | (ctx, Returned) => k ctx
  | (ctx, Thrown e) => (ctx, Thrown e)
  end.

Definition set_output0 (ctx : InferenceContext) (t : TypeProto) : InferenceContext :=
  mkInferenceContext (attributes ctx) (input0 ctx) (input1 ctx) t.

(** [ctx.getAttribute(name)] followed by [->i()]. *)
Fixpoint getAttribute_list (l : list (string * Z)) (name : string) : option Z :=
  match l with
  | [] => None
  | (n, v) :: rest => if String.eqb n name then Some v else getAttribute_list rest name
  end.

Definition getAttribute (ctx : InferenceContext) (name : string) : option Z :=
  getAttribute_list (attributes ctx) name.

(** [static_cast<int>] of an int64: the low 32 bits, read as signed. *)
Definition static_cast_int (v : Z) : Z :=
  (v + 2147483648) mod 4294967296 - 2147483648.

(** [attr ? static_cast<int>(attr->i()) != 0 : false]. *)
Definition attributeFlag (ctx : InferenceContext) (name : string) : bool :=
  match getAttribute ctx name with
  | Some i => negb (static_cast_int i =? 0)
  | None => false
  end.

(** [ctx.getInputType(n)]: a null pointer outside the declared inputs. *)
Definition getInputType (ctx : InferenceContext) (n : Z) : option TypeProto :=
  if n =? 0 then Some (input0 ctx)
  else if n =? 1 then Some (input1 ctx)
  else None.

(** ** Helpers of the ONNX shape-inference library *)

(** Modelled from the spec: [hasInputShape] and [getInputShape] are defined
    in onnx/defs/shape_inference.h, which is not among the sources.  The
    declared shape of input [n], absent when the input has no tensor type
    or no shape. *)
Definition getInputShape (ctx : InferenceContext) (n : Z) : option TensorShapeProto :=
  match getInputType ctx n with
  | Some t =>
      match value_case t with
      | VALUE_NOT_SET => None
      | _ => shape t
      end
  | None => None
  end.

Definition hasInputShape (ctx : InferenceContext) (n : Z) : bool :=
  match getInputShape ctx n with Some _ => true | None => false end.

(** Modelled from the spec: [propagateElemTypeFromInputToOutput] is defined
    in onnx/defs/shape_inference.h, which is not among the sources.  The
    element type of input [n] is copied verbatim to output 0; an output
    that has no tensor kind yet takes the input's. *)
Definition propagateElemTypeFromInputToOutput
    (ctx : InferenceContext) (inputIndex : Z) : Run :=
  match getInputType ctx inputIndex with
  | None => (ctx, Thrown (TypeInferenceError "Input type was null"))
  | Some t =>
      let out := output0 ctx in
      let vc := match value_case out with
                | VALUE_NOT_SET => value_case t
                | c => c
                end in
      (set_output0 ctx (mkTypeProto vc (elem_type t) (shape out)), Returned)
  end.

(** Modelled from the spec: [updateOutputShape] is defined in
    onnx/defs/shape_inference.h, which is not among the sources.  The shape
    of output 0 is replaced; an output that has no tensor kind yet becomes
    [default_type]. *)
Definition updateOutputShape
    (ctx : InferenceContext) (s : TensorShapeProto) (default_type : ValueCase)
    : InferenceContext :=
  let out := output0 ctx in
  let vc := match value_case out with
            | VALUE_NOT_SET => default_type
            | c => c
            end in
  set_output0 ctx (mkTypeProto vc (elem_type out) (Some s)).

Definition sum_bind {E A B : Type} (r : E + A) (k : A -> E + B) : E + B :=
  match r with
  | inl e => inl e
  | inr a => k a
  end.

(** Modelled from the spec: the broadcast of one aligned pair of
    dimensions.  Two known equal values give that value; a side that is
    statically 1 gives the other side; otherwise a single known value wins;
    two unknown sides give an unknown dimension; two known, unequal values,
    neither of them 1, are an error. *)
Definition broadcastDim (a b : Dimension) : InferenceError + Dimension :=
  match a, b with
  | dim_value x, dim_value y =>
      if x =? y then inr (dim_value x)
      else if x =? 1 then inr (dim_value y)
      else if y =? 1 then inr (dim_value x)
      else inl (ShapeInferenceError "Incompatible dimensions")
  | dim_value x, _ => if x =? 1 then inr b else inr (dim_value x)
  | _, dim_value y => if y =? 1 then inr a else inr (dim_value y)
  | _, _ => inr dim_unset
  end.

Fixpoint broadcastAligned (l r : TensorShapeProto) : InferenceError + TensorShapeProto :=
  match l, r with
  | a :: l', b :: r' =>
      sum_bind (broadcastDim a b) (fun d =>
      sum_bind (broadcastAligned l' r') (fun ds => inr (d :: ds)))
  | _, _ => inr []
  end.

(** Padding on the left with size-1 axes up to rank [n]. *)
Definition padLeft (n : nat) (s : TensorShapeProto) : TensorShapeProto :=
  repeat (dim_value 1) (n - List.length s) ++ s.

(** Modelled from the spec: [bidirectionalBroadcastShapeInference] is
    defined in onnx/defs/shape_inference.h, which is not among the sources.
    The shorter shape is padded on the left with size-1 axes, then each
    aligned pair is broadcast; the result is appended to [resultShape],
    which both callers pass empty. *)
Definition bidirectionalBroadcastShapeInference
    (shapeL shapeR : TensorShapeProto) : InferenceError + TensorShapeProto :=
  let n := Nat.max (List.length shapeL) (List.length shapeR) in
  broadcastAligned (padLeft n shapeL) (padLeft n shapeR).

(** ** The inference functions of contrib_defs.cc *)

(** Lines 310-323 for operand A and 325-337 for operand B of
    [FusedMatMulShapeInference]: the two blocks are the same text over
    ([shape0_raw], [transa], [trans_batch_a]) and
    ([shape1_raw], [transb], [trans_batch_b]). *)
Definition transposedView
    (shape_raw : TensorShapeProto) (trans trans_batch : bool) : TensorShapeProto :=
  let rank := dim_size shape_raw in
  if rank =? 1 then
    shape_raw
  else
    let start := if trans_batch then 1 else 0 in
    let end_ := if trans_batch then rank - 1 else rank - 2 in
    map (dim shape_raw) (for_range start end_)
      ++ [dim shape_raw (if trans then rank - 1 else (if trans_batch then 0 else rank - 2))]
      ++ [dim shape_raw (if trans then (if trans_batch then 0 else rank - 2) else rank - 1)].

(** Promotion of each operand to rank 2 at least (lines 343-356, and again
    lines 418-431). *)
Definition promoteL (shape0 : TensorShapeProto) : TensorShapeProto :=
  if dim_size shape0 =? 1 then [dim_value 1; dim shape0 0] else shape0.

Definition promoteR (shape1 : TensorShapeProto) : TensorShapeProto :=
  if dim_size shape1 =? 1 then [dim shape1 0; dim_value 1] else shape1.

(** The test of lines 360-363 (and 435-438) on the two contraction
    dimensions. *)
Definition contractionMismatch (shapeL shapeR : TensorShapeProto) : bool :=
  let dimL := dim shapeL (dim_size shapeL - 1) in
  let dimR := dim shapeR (dim_size shapeR - 2) in
  has_dim_value dimL && has_dim_value dimR
    && negb (get_dim_value dimL =? get_dim_value dimR).

(** Lines 339-392 of [FusedMatMulShapeInference], which are repeated
    word for word as lines 414-467 of
    [sparseCompatibleMatmulShapeInference]: promotion, the contraction
    check, the broadcast of the prefixes and the trailing dimensions. *)
Definition matmulResultShape
    (shape0 shape1 : TensorShapeProto) : InferenceError + TensorShapeProto :=
  let shapeL := promoteL shape0 in
  let shapeR := promoteR shape1 in
  if contractionMismatch shapeL shapeR then
    inl (ShapeInferenceError "Incompatible dimensions for matrix multiplication")
  else
    let prefixShapeL := map (dim shapeL) (for_range 0 (dim_size shapeL - 2)) in
    let prefixShapeR := map (dim shapeR) (for_range 0 (dim_size shapeR - 2)) in
    sum_bind (bidirectionalBroadcastShapeInference prefixShapeL prefixShapeR)
      (fun resultShape =>
         let resultShape :=
           if negb (dim_size shape0 =? 1)
           then resultShape ++ [dim shapeL (dim_size shapeL - 2)]
           else resultShape in
         let resultShape :=
           if negb (dim_size shape1 =? 1)
           then resultShape ++ [dim shapeR (dim_size shapeR - 1)]
           else resultShape in
         inr resultShape).

Definition FusedMatMulShapeInference (ctx : InferenceContext) : Run :=
  andThen (propagateElemTypeFromInputToOutput ctx 0) (fun ctx =>
  let transa := attributeFlag ctx "transA" in
  let transb := attributeFlag ctx "transB" in
  let trans_batch_a := attributeFlag ctx "transBatchA" in
  let trans_batch_b := attributeFlag ctx "transBatchB" in
  let input1Idx := 0 in
  let input2Idx := 1 in
  match getInputShape ctx input1Idx, getInputShape ctx input2Idx with
  | Some shape0_raw, Some shape1_raw =>
      if (dim_size shape0_raw =? 0) || (dim_size shape1_raw =? 0) then
        (ctx, Thrown (ShapeInferenceError "Input tensors of wrong rank (0)."))
      else
        (* numpy transpose on a vector does not change anything. *)
        let transa := if dim_size shape0_raw =? 1 then false else transa in
        let transb := if dim_size shape1_raw =? 1 then false else transb in
        let shape0 := transposedView shape0_raw transa trans_batch_a in
        let shape1 := transposedView shape1_raw transb trans_batch_b in
        match matmulResultShape shape0 shape1 with
        | inl e => (ctx, Thrown e)
        | inr resultShape => (updateOutputShape ctx resultShape kTensorType, Returned)
        end
  | _, _ => (ctx, Returned)
  end).

Definition sparseCompatibleMatmulShapeInference
    (ctx : InferenceContext) (input1Idx input2Idx : Z) : Run :=
  match getInputShape ctx input1Idx, getInputShape ctx input2Idx with
  | Some shape0, Some shape1 =>
      if (dim_size shape0 =? 0) || (dim_size shape1 =? 0) then
        (ctx, Thrown (ShapeInferenceError "Input tensors of wrong rank (0)."))
      else
        match matmulResultShape shape0 shape1 with
        | inl e => (ctx, Thrown e)
        | inr resultShape =>
            let default_tensor_type :=
              match getInputType ctx input2Idx with
              | Some t => value_case t
              | None => VALUE_NOT_SET
              end in
            (updateOutputShape ctx resultShape default_tensor_type, Returned)
        end
  | _, _ => (ctx, Returned)
  end.


(** [y_type->mutable_tensor_type()->set_elem_type(t)]: the output becomes a
    dense tensor type (a shape held under another kind is dropped) with
    element type [t]. *)
Definition set_tensor_elem_type (y_type : TypeProto) (t : Z) : TypeProto :=
  match value_case y_type with
  | kTensorType => mkTypeProto kTensorType t (shape y_type)
  | _ => mkTypeProto kTensorType t None
  end.



(** The lambda registered for [SparseToDenseMatMul] (lines 2200-2205). *)
Definition SparseToDenseMatMul_TypeAndShapeInference (ctx : InferenceContext) : Run :=
  (* 1- dense tensor to output *)
  andThen (propagateElemTypeFromInputToOutput ctx 1) (fun ctx =>
  sparseCompatibleMatmulShapeInference ctx 0 1).

(** ** The contract [infer] of the specification *)

(** The failure kinds of the specification.  The code tells failures apart
    by message only. *)
Inductive ErrorKind : Type := InvalidRank | IncompatibleDimensions | OtherFailure.

Definition error_kind (e : InferenceError) : ErrorKind :=
  match e with
  | ShapeInferenceError msg =>
      if String.eqb msg "Input tensors of wrong rank (0)." then InvalidRank
      else if String.eqb msg "Incompatible dimensions for matrix multiplication"
      then IncompatibleDimensions
      else if String.eqb msg "Incompatible dimensions" then IncompatibleDimensions
      else OtherFailure
  | TypeInferenceError _ => OtherFailure
  end.

Inductive InferenceResult : Type :=
| InferredShape (s : TensorShapeProto)
| NoResult
| Failure (e : InferenceError).

(** What a finished call says about the shape of output 0. *)
Definition result_of (r : Run) : InferenceResult :=
  match r with
  | (ctx, Thrown e) => Failure e
  | (ctx, Returned) =>
      match shape (output0 ctx) with
      | Some s => InferredShape s
      | None => NoResult
      end
  end.

Definition flag_attribute (b : bool) : Z := if b then 1 else 0.

(** A node with the given flags and input shapes: float inputs, and an
    output nothing is known about yet. *)
Definition node_context
    (shapeA shapeB : option TensorShapeProto)
    (transposeA transposeB transposeBatchA transposeBatchB : bool) : InferenceContext :=
  mkInferenceContext
    [("transA", flag_attribute transposeA); ("transB", flag_attribute transposeB);
     ("transBatchA", flag_attribute transposeBatchA);
     ("transBatchB", flag_attribute transposeBatchB)]
    (mkTypeProto kTensorType 1 shapeA)
    (mkTypeProto kTensorType 1 shapeB)
    (mkTypeProto VALUE_NOT_SET 0 None).

(** [infer(shapeA, shapeB, transposeA, transposeB, transposeBatchA,
    transposeBatchB)]: the fused-matmul inference run on such a node. *)
Definition infer
    (shapeA shapeB : option TensorShapeProto)
    (transposeA transposeB transposeBatchA transposeBatchB : bool) : InferenceResult :=
  result_of (FusedMatMulShapeInference
    (node_context shapeA shapeB transposeA transposeB transposeBatchA transposeBatchB)).

(** A shape whose dimensions are all known. *)
Definition known (l : list Z) : TensorShapeProto := map dim_value l.


Definition shapeless_node : InferenceContext :=
  mkInferenceContext [("transA", 1)]
    (mkTypeProto kTensorType 10 None)
    (mkTypeProto kTensorType 10 (Some (known [4; 6])))
    (mkTypeProto VALUE_NOT_SET 0 None).

Definition sparse_scalar_node : InferenceContext :=
  mkInferenceContext []
    (mkTypeProto kSparseTensorType 1 (Some []))
    (mkTypeProto kTensorType 1 (Some (known [4; 6])))
    (mkTypeProto VALUE_NOT_SET 0 None).

(** The result of [FusedMatMulShapeInference] read off the two declared
    shapes and the four flags; [FusedMatMulShapeInference_result] below
    proves that this is what the function computes. *)
Definition fusedOutcome
    (shapeA shapeB : option TensorShapeProto)
    (transa transb trans_batch_a trans_batch_b : bool) : InferenceResult :=
  match shapeA, shapeB with
  | Some shape0_raw, Some shape1_raw =>
      if (dim_size shape0_raw =? 0) || (dim_size shape1_raw =? 0) then
        Failure (ShapeInferenceError "Input tensors of wrong rank (0).")
      else
        match matmulResultShape
                (transposedView shape0_raw
                   (if dim_size shape0_raw =? 1 then false else transa) trans_batch_a)
                (transposedView shape1_raw
                   (if dim_size shape1_raw =? 1 then false else transb) trans_batch_b)
        with
        | inl e => Failure e
        | inr resultShape => InferredShape resultShape
        end
  | _, _ => NoResult
  end.

(** ** The statements of the specification, in its own words *)

(** The two contraction dimensions: the last axis of the promoted view of A
    and the second-to-last axis of the promoted view of B. *)
Definition contractionDimA (shapeA : TensorShapeProto) (transA transBatchA : bool) : Dimension :=
  let shapeL := promoteL (transposedView shapeA transA transBatchA) in
  dim shapeL (dim_size shapeL - 1).

Definition contractionDimB (shapeB : TensorShapeProto) (transB transBatchB : bool) : Dimension :=
  let shapeR := promoteR (transposedView shapeB transB transBatchB) in
  dim shapeR (dim_size shapeR - 2).

(** Both known, unequal, and neither is 1. *)
Definition incompatibleDims (a b : Dimension) : bool :=
  match a, b with
  | dim_value x, dim_value y => negb (x =? y) && negb (x =? 1) && negb (y =? 1)
  | _, _ => false
  end.

(** The broadcast of an aligned pair, case by case. *)
Inductive BroadcastsTo : Dimension -> Dimension -> Dimension -> Prop :=
| broadcast_equal (v : Z) :
    BroadcastsTo (dim_value v) (dim_value v) (dim_value v)
| broadcast_one_left (b : Dimension) :
    BroadcastsTo (dim_value 1) b b
| broadcast_one_right (a : Dimension) :
    BroadcastsTo a (dim_value 1) a
| broadcast_known_left (v : Z) (b : Dimension) :
    has_dim_value b = false -> v <> 1 ->
    BroadcastsTo (dim_value v) b (dim_value v)
| broadcast_known_right (a : Dimension) (v : Z) :
    has_dim_value a = false -> v <> 1 ->
    BroadcastsTo a (dim_value v) (dim_value v)
| broadcast_unknown (a b r : Dimension) :
    has_dim_value a = false -> has_dim_value b = false -> has_dim_value r = false ->
    BroadcastsTo a b r.

Inductive Forall3 {A B C : Type} (R : A -> B -> C -> Prop) :
    list A -> list B -> list C -> Prop :=
| Forall3_nil : Forall3 R [] [] []
| Forall3_cons (a : A) (b : B) (c : C) (la : list A) (lb : list B) (lc : list C) :
    R a b c -> Forall3 R la lb lc -> Forall3 R (a :: la) (b :: lb) (c :: lc).

Definition compatiblePrefixes (l r : TensorShapeProto) : Prop :=
  Forall (fun ab => incompatibleDims (fst ab) (snd ab) = false) (combine l r).

Definition clashingPrefixes (l r : TensorShapeProto) : Prop :=
  Exists (fun ab => incompatibleDims (fst ab) (snd ab) = true) (combine l r).

(** The reading of [transBatch] that the specification gives: axis 0 is a
    batch axis, placed just before the last two axes, which stay the matrix
    axes; the transpose flag then swaps those two. *)
Definition relocatedBatchView_spec (shape_raw : TensorShapeProto) (trans : bool)
    : TensorShapeProto :=
  match shape_raw with
  | [] => []
  | a :: rest =>
      let n := (List.length rest - 2)%nat in
      firstn n rest ++ [a]
        ++ (if trans then rev (skipn n rest) else skipn n rest)
  end.

Definition swapLastTwo (s : TensorShapeProto) : TensorShapeProto :=
  let n := (List.length s - 2)%nat in
  firstn n s ++ rev (skipn n s).

(** ** Further inference functions of contrib_defs.cc *)

(** [TensorProto::UINT32]. *)
Definition TensorProto_UINT32 : Z := 12.

(** An int64 value after an arithmetic step: the low 64 bits, read as
    signed. *)
Definition wrap_int64 (v : Z) : Z :=
  (v + 9223372036854775808) mod 18446744073709551616 - 9223372036854775808.

(** The text an integer takes when it is streamed into the message of
    [fail_shape_inference]. *)
Definition decimal (v : Z) : string := NilZero.string_of_int (Z.to_int v).

(** Modelled from the spec: [hasNInputShapes] is defined in
    onnx/defs/shape_inference.h, which is not among the sources.  The
    inputs 0 .. n-1 all have a declared shape. *)
Definition hasNInputShapes (ctx : InferenceContext) (n : Z) : bool :=
  forallb (hasInputShape ctx) (for_range 0 n).

(** [t.tensor_type().shape()]: the shape of the dense tensor type, and the
    empty default shape when the type is not a dense tensor or declares no
    shape. *)
Definition tensor_type_shape (t : TypeProto) : TensorShapeProto :=
  match value_case t, shape t with
  | kTensorType, Some s => s
  | _, _ => []
  end.

(** The shape an output type holds under its dense tensor kind. *)
Definition held_shape (y_type : TypeProto) : TensorShapeProto :=
  match shape y_type with Some s => s | None => [] end.

(** [y->mutable_tensor_type()->mutable_shape()->add_dim()] followed by the
    assignment of [d]: the output becomes a dense tensor type (whatever it
    held under another kind is dropped), gets an empty shape if it has
    none, and [d] is appended. *)
Definition add_output_dim (y_type : TypeProto) (d : Dimension) : TypeProto :=
  match value_case y_type with
  | kTensorType =>
      mkTypeProto kTensorType (elem_type y_type)
        (Some (match shape y_type with Some s => s | None => [] end ++ [d]))
  | _ => mkTypeProto kTensorType 0 (Some [d])
  end.

(** The lambda registered for [FusedGemm] (lines 1895-1916). *)
Definition FusedGemm_TypeAndShapeInference (ctx : InferenceContext) : Run :=
  andThen (propagateElemTypeFromInputToOutput ctx 0) (fun ctx =>
  if hasNInputShapes ctx 2 then
    let transA := attributeFlag ctx "transA" in
    let transB := attributeFlag ctx "transB" in
    match getInputShape ctx 0, getInputShape ctx 1 with
    | Some first_input_shape, Some second_input_shape =>
        if negb (dim_size first_input_shape =? 2) then
          (ctx, Thrown (ShapeInferenceError "First input does not have rank 2"))
        else if negb (dim_size second_input_shape =? 2) then
          (ctx, Thrown (ShapeInferenceError "Second input does not have rank 2"))
        else
          (updateOutputShape ctx
             [dim first_input_shape (if transA then 1 else 0);
              dim second_input_shape (if transB then 0 else 1)]
             kTensorType,
           Returned)
    | _, _ => (ctx, Returned)
    end
  else (ctx, Returned)).

(** The size computed by the loop of lines 2050-2055: the product of the
    known dimensions, in int64. *)
Definition known_size (dims : TensorShapeProto) : Z :=
  fold_left
    (fun size d => if has_dim_value d then wrap_int64 (size * get_dim_value d) else size)
    dims 1.

(** The lambda registered for [Tokenizer] (lines 2036-2071). *)
Definition Tokenizer_TypeAndShapeInference (ctx : InferenceContext) : Run :=
  andThen (propagateElemTypeFromInputToOutput ctx 0) (fun ctx =>
  match getInputShape ctx 0 with
  | None => (ctx, Returned)
  | Some input_shape =>
      let dims := input_shape in
      if (dim_size dims <? 1) || (dim_size dims >? 2) then
        (ctx, Thrown (ShapeInferenceError
          "Input dimensions are either [C] or [N][C] allowed"))
      else
        let size := known_size dims in
        let output_shape :=
          if size >? 0 then
            (* Add the last unknown dimension only if the input is not empty *)
            dims ++ [dim_unset]
          else if size =? 0 then
            (if dim_size dims =? 2 then [dim dims 0] else []) ++ [dim_value 0]
          else [] in
        (updateOutputShape ctx output_shape kTensorType, Returned)
  end).

(** The lambda registered for [MurmurHash3] (lines 2225-2243). *)
Definition MurmurHash3_TypeAndShapeInference (ctx : InferenceContext) : Run :=
  let is_positive :=
    match getAttribute ctx "positive" with
    | Some i => static_cast_int i =? 1
    | None => true (* default value if attribute not present *)
    end in
  let ctx :=
    set_output0 ctx
      (set_tensor_elem_type (output0 ctx)
         (if is_positive then TensorProto_UINT32 else TensorProto_INT32)) in
  match getInputShape ctx 0 with
  | None => (ctx, Returned)
  | Some input_shape => (updateOutputShape ctx input_shape kTensorType, Returned)
  end.

(** ** Accesses outside a repeated field

    [s.dim(i)], [s.mutable_dim(i)] and [t.int32_data()[i]] at an index the
    field does not have are faults of protobuf, after which the source has
    no defined behaviour.  The lambdas of [GatherND] and [ExpandDims] can
    reach such an access on inputs that pass their checks, so the accesses
    are checked here and the result of these two lambdas is an [option]:
    [None] is a call that makes such an access, [Some] the run of any
    other call. *)
Definition checked_dim (s : TensorShapeProto) (i : Z) : option Dimension :=
  if (0 <=? i) && (i <? dim_size s) then Some (dim s i) else None.

Definition andThenChecked (r : Run) (k : InferenceContext -> option Run) : option Run :=
  match r with
  | (ctx, Returned) => k ctx
  | (ctx, Thrown e) => Some (ctx, Thrown e)
  end.

(** One round of the loops of lines 2275-2286:
    [*...->mutable_shape()->add_dim() = src.dim(i)]. *)
Definition append_dim_of (src : TensorShapeProto) (y : option TypeProto) (i : Z)
    : option TypeProto :=
  match y, checked_dim src i with
  | Some y_type, Some d => Some (add_output_dim y_type d)
  | _, _ => None
  end.

(** The lambda registered for [GatherND] (lines 2259-2287).  Both loops
    append to the shape that output 0 already holds; the second starts at
    the last indices dimension cast to [int], whatever its sign. *)
Definition GatherND_TypeAndShapeInference (ctx : InferenceContext) : option Run :=
  andThenChecked (propagateElemTypeFromInputToOutput ctx 0) (fun ctx =>
  if negb (hasNInputShapes ctx 2) then Some (ctx, Returned)
  else
    let data_shape := tensor_type_shape (input0 ctx) in
    let indices_shape := tensor_type_shape (input1 ctx) in
    let data_rank := dim_size data_shape in
    let indices_rank := dim_size indices_shape in
    if (data_rank <? 1) || (indices_rank <? 1) then
      Some (ctx, Thrown (ShapeInferenceError
        "both data and indices tensor need to have rank larger than zero."))
    else
      match checked_dim indices_shape (indices_rank - 1) with
      | None => None
      | Some last =>
          let last_indice_dimension := get_dim_value last in
          if last_indice_dimension >? data_rank then
            Some (ctx, Thrown (ShapeInferenceError
              "last dimension of indices must not be larger and rank of data tensor"))
          else
            let y_type :=
              fold_left (append_dim_of indices_shape)
                (for_range 0 (indices_rank - 1)) (Some (output0 ctx)) in
            let y_type :=
              fold_left (append_dim_of data_shape)
                (for_range (static_cast_int last_indice_dimension) data_rank) y_type in
            match y_type with
            | None => None
            | Some y_type => Some (set_output0 ctx y_type, Returned)
            end
      end).

(** [TensorProto::INT64]. *)
Definition TensorProto_INT64 : Z := 7.

(** A [TensorProto] initializer, restricted to the fields the inference
    functions read. *)
Record TensorProto : Type := mkTensorProto {
  data_type : Z;
  dims : list Z;
  int32_data : list Z;
  int64_data : list Z;
  has_raw_data : bool
}.

(** A 1-D int32 initializer and a 1-D int64 initializer with typed data. *)
Definition int32_tensor (l : list Z) : TensorProto :=
  mkTensorProto TensorProto_INT32 [Z.of_nat (List.length l)] l [] false.

Definition int64_tensor (l : list Z) : TensorProto :=
  mkTensorProto TensorProto_INT64 [Z.of_nat (List.length l)] [] l false.

(** [s.add_dim()] and an assignment through [s.mutable_dim(i)].  An index
    outside the shape is a fault in protobuf; the model leaves the shape
    as it is there. *)
Definition add_dim (s : TensorShapeProto) : TensorShapeProto := s ++ [dim_unset].

Fixpoint set_nth (s : TensorShapeProto) (n : nat) (d : Dimension) : TensorShapeProto :=
  match s, n with
  | [], _ => []
  | _ :: rest, O => d :: rest
  | x :: rest, S n' => x :: set_nth rest n' d
  end.

Definition set_dim (s : TensorShapeProto) (i : Z) (d : Dimension) : TensorShapeProto :=
  if i <? 0 then s else set_nth s (Z.to_nat i) d.

(** An assignment through [s.mutable_dim(i)] with the index checked. *)
Definition checked_set_dim (s : TensorShapeProto) (i : Z) (d : Dimension)
    : option TensorShapeProto :=
  if (0 <=? i) && (i <? dim_size s) then Some (set_dim s i d) else None.

(** One round of the loops of lines 1947-1950 and 1953-1956:
    [s.add_dim(); *(s.mutable_dim(i)) = d], where [d] is itself read from
    a shape. *)
Definition add_and_assign (read : Z -> option Dimension)
    (s : option TensorShapeProto) (i : Z) : option TensorShapeProto :=
  match s, read i with
  | Some output_shape, Some d => checked_set_dim (add_dim output_shape) i d
  | _, _ => None
  end.

(** The lambda registered for [ExpandDims] (lines 1928-1958);
    [axis_initializer] is what [ctx.getInputData(1)] returns.  The axis is
    element 0 of [int32_data], which an initializer that keeps its data
    elsewhere does not have. *)
Definition ExpandDims_TypeAndShapeInference
    (ctx : InferenceContext) (axis_initializer : option TensorProto) : option Run :=
  andThenChecked (propagateElemTypeFromInputToOutput ctx 0) (fun ctx =>
  match getInputShape ctx 0 with
  | None => Some (ctx, Returned)
  | Some input_shape =>
      let rank := dim_size input_shape in
      match axis_initializer with
      | None => Some (ctx, Returned)
      | Some initializer =>
          match int32_data initializer with
          | [] => None
          | axis :: _ =>
              if (axis >? rank) || (axis <? - rank - 1) then
                Some (ctx, Thrown (ShapeInferenceError
                                     ("Input axis is invalid: " ++ decimal axis)))
              else
                let pos := if axis >=? 0 then axis else rank + axis - 1 in
                let output_shape :=
                  fold_left (add_and_assign (checked_dim input_shape))
                    (for_range 0 pos) (Some []) in
                let output_shape :=
                  match output_shape with
                  | None => None
                  | Some output_shape =>
                      checked_set_dim (add_dim output_shape) pos (dim_value 1)
                  end in
                let output_shape :=
                  fold_left (add_and_assign (fun i => checked_dim input_shape (i - 1)))
                    (for_range (pos + 1) (rank + 1)) output_shape in
                match output_shape with
                | None => None
                | Some output_shape =>
                    Some (updateOutputShape ctx output_shape kTensorType, Returned)
                end
          end
      end
  end).

(** [v.resize(n, 0)] on a vector of int64. *)
Definition resize (v : list Z) (n : nat) : list Z :=
  firstn n v ++ repeat 0 (n - List.length v).

(** [y->mutable_tensor_type()->mutable_shape()]: the output becomes a dense
    tensor type and gets an empty shape if it holds none. *)
Definition mutable_output_shape (y_type : TypeProto) : TypeProto :=
  match value_case y_type with
  | kTensorType => mkTypeProto kTensorType (elem_type y_type) (Some (held_shape y_type))
  | _ => mkTypeProto kTensorType 0 (Some [])
  end.

(** Modelled from the spec: [getOutputShape] is defined in
    onnx/defs/shape_inference.h, which is not among the sources.  The
    mutable shape of output 0 under the tensor kind it has, dense when it
    has none yet; [updateOutputShape] assigns through it. *)
Definition getOutputShape_mutable (y_type : TypeProto) : TypeProto :=
  mkTypeProto
    (match value_case y_type with VALUE_NOT_SET => kTensorType | c => c end)
    (elem_type y_type) (Some (held_shape y_type)).

(** The dimension the loop of lines 2417-2426 adds for one axis. *)
Definition pad_output_dim (input_dim : Dimension) (pad_begin pad_end : Z) : Dimension :=
  if has_dim_value input_dim then
    dim_value (wrap_int64 (wrap_int64 (get_dim_value input_dim + pad_begin) + pad_end))
  else if wrap_int64 (pad_begin + pad_end) =? 0 then input_dim
  else dim_unset.

(** The lambda registered for [Pad] (lines 2378-2436); [pads_initializer]
    is what [ctx.getInputData(1)] returns. *)
Definition Pad_TypeAndShapeInference
    (ctx : InferenceContext) (pads_initializer : option TensorProto) : Run :=
  andThen (propagateElemTypeFromInputToOutput ctx 0) (fun ctx =>
  if negb (hasNInputShapes ctx 1) then (ctx, Returned)
  else
    let input_shape := tensor_type_shape (input0 ctx) in
    let input_rank := dim_size input_shape in
    match pads_initializer with
    | Some initializer =>
        let pads_shape := tensor_type_shape (input1 ctx) in
        let dims_size := Z.of_nat (List.length (dims initializer)) in
        if (negb (dims_size =? 1) && negb (dims_size =? 2))
           || ((dims_size =? 2) && negb (get_dim_value (dim pads_shape 0) =? 1))
           || negb (data_type initializer =? TensorProto_INT64)
        then
          (ctx, Thrown (ShapeInferenceError
            ("'pads' input must be a 1D (shape: [input_rank]) "
             ++ "or 2D tensor (shape: [1, input_rank]) of type int64")))
        else if has_raw_data initializer then (ctx, Returned)
        else
          let pads_data := int64_data initializer in
          (* fill with zeros if needed to reach appropriate size *)
          let pads_data :=
            if negb (Z.of_nat (List.length pads_data) =? 2 * input_rank)
            then resize pads_data (Z.to_nat (2 * input_rank))
            else pads_data in
          let y_type := mutable_output_shape (output0 ctx) in
          let y_type :=
            fold_left
              (fun y i =>
                 add_output_dim y
                   (pad_output_dim (dim input_shape i)
                      (nth (Z.to_nat i) pads_data 0)
                      (nth (Z.to_nat (i + input_rank)) pads_data 0)))
              (for_range 0 input_rank) y_type in
          (set_output0 ctx y_type, Returned)
    | None =>
        (* Infer output shapes' rank in any case *)
        let y_type := getOutputShape_mutable (output0 ctx) in
        let y_type :=
          fold_left
            (fun y _ => mkTypeProto (value_case y) (elem_type y)
                          (Some (held_shape y ++ [dim_unset])))
            (for_range 0 input_rank) y_type in
        (set_output0 ctx y_type, Returned)
    end).

(** The lambda registered for [Inverse] (lines 3068-3098).  Its last step,
    [propagateShapeFromInputToOutput], belongs to the ONNX library and is
    not among the sources: it is a parameter here. *)
Definition Inverse_TypeAndShapeInference
    (propagateShapeFromInputToOutput : InferenceContext -> Z -> Z -> Run)
    (ctx : InferenceContext) : Run :=
  andThen (propagateElemTypeFromInputToOutput ctx 0) (fun ctx =>
  if hasInputShape ctx 0 then
    let input_shape := tensor_type_shape (input0 ctx) in
    let rank := dim_size input_shape in
    if rank <? 2 then
      (ctx, Thrown (ShapeInferenceError "Input rank must be >= 2."))
    else
      let mat_w := dim input_shape (rank - 1) in
      let mat_h := dim input_shape (rank - 2) in
      if has_dim_value mat_w && has_dim_value mat_h
         && negb (get_dim_value mat_w =? get_dim_value mat_h) then
        (ctx, Thrown (ShapeInferenceError
          ("The inner-most 2 dimensions must have the same size (mat_w:"
           ++ decimal (get_dim_value mat_w) ++ " != mat_h:"
           ++ decimal (get_dim_value mat_h) ++ ").")))
      else
        propagateShapeFromInputToOutput ctx 0 0
  else (ctx, Returned)).

(** The product of the known dimensions as a mathematical integer, to
    say when the int64 product of [known_size] does not overflow. *)
Definition known_product (dims : TensorShapeProto) : Z :=
  fold_left
    (fun size d => if has_dim_value d then size * get_dim_value d else size)
    dims 1.

(** A node with the given attributes and dense float inputs, and an output
    nothing is known about yet. *)
Definition dense_node
    (attrs : list (string * Z)) (shapeA shapeB : option TensorShapeProto)
    : InferenceContext :=
  mkInferenceContext attrs
    (mkTypeProto kTensorType 1 shapeA)
    (mkTypeProto kTensorType 1 shapeB)
    (mkTypeProto VALUE_NOT_SET 0 None).

(** The dimensions [Pad] adds for an input shape and the begin and end
    pads of its axes, axis by axis. *)
Definition pad_dims (input_shape : TensorShapeProto) (begins ends : list Z)
    : TensorShapeProto :=
  map (fun t => pad_output_dim (fst t) (fst (snd t)) (snd (snd t)))
      (combine input_shape (combine begins ends)).

(** ** Inference functions over several inputs and outputs *)

(** A node with any number of inputs and outputs: its INTS attributes, the
    types of its inputs (none for an optional input that is left out), the
    initializers behind its inputs, and the types of its outputs. *)
Record NodeContext : Type := mkNodeContext {
  node_ints : list (string * list Z);
  node_inputs : list (option TypeProto);
  node_input_data : list (option TensorProto);
  node_outputs : list TypeProto
}.

Definition NodeRun : Type := (NodeContext * Completion)%type.

Definition nodeThen (r : NodeRun) (k : NodeContext -> NodeRun) : NodeRun :=
  match r with
  | (ctx, Returned) => k ctx
  | (ctx, Thrown e) => (ctx, Thrown e)
  end.

Definition lookup {A : Type} (l : list A) (n : Z) : option A :=
  if n <? 0 then None else nth_error l (Z.to_nat n).

Fixpoint replace_nth {A : Type} (l : list A) (n : nat) (x : A) : list A :=
  match l, n with
  | [], _ => []
  | _ :: rest, O => x :: rest
  | y :: rest, S n' => y :: replace_nth rest n' x
  end.

(** [ctx.getNumOutputs()], [ctx.getInputType(n)], [ctx.getInputData(n)]
    and [ctx.getOutputType(n)]. *)
Definition getNumOutputs (ctx : NodeContext) : Z :=
  Z.of_nat (List.length (node_outputs ctx)).

Definition node_getInputType (ctx : NodeContext) (n : Z) : option TypeProto :=
  match lookup (node_inputs ctx) n with
  | Some (Some t) => Some t
  | _ => None
  end.

Definition node_getInputData (ctx : NodeContext) (n : Z) : option TensorProto :=
  match lookup (node_input_data ctx) n with
  | Some (Some t) => Some t
  | _ => None
  end.

Definition node_getOutputType (ctx : NodeContext) (n : Z) : option TypeProto :=
  lookup (node_outputs ctx) n.

Definition node_set_output (ctx : NodeContext) (n : Z) (t : TypeProto) : NodeContext :=
  mkNodeContext (node_ints ctx) (node_inputs ctx) (node_input_data ctx)
    (if n <? 0 then node_outputs ctx
     else replace_nth (node_outputs ctx) (Z.to_nat n) t).

(** Modelled from the spec: [hasInputShape] and [getInputShape] of
    onnx/defs/shape_inference.h, on a node with several inputs. *)
Definition node_getInputShape (ctx : NodeContext) (n : Z) : option TensorShapeProto :=
  match node_getInputType ctx n with
  | Some t =>
      match value_case t with
      | VALUE_NOT_SET => None
      | _ => shape t
      end
  | None => None
  end.

(** Modelled from the spec: [propagateElemTypeFromInputToOutput] of
    onnx/defs/shape_inference.h, on a node with several inputs and
    outputs: the element type of input [i] is copied to output [o]; a
    missing input or output type is a type error. *)
Definition node_propagateElemTypeFromInputToOutput
    (ctx : NodeContext) (inputIndex outputIndex : Z) : NodeRun :=
  match node_getInputType ctx inputIndex, node_getOutputType ctx outputIndex with
  | Some t, Some out =>
      let vc := match value_case out with
                | VALUE_NOT_SET => value_case t
                | c => c
                end in
      (node_set_output ctx outputIndex (mkTypeProto vc (elem_type t) (shape out)),
       Returned)
  | None, _ => (ctx, Thrown (TypeInferenceError "Input type was null"))
  | _, None => (ctx, Thrown (TypeInferenceError "Output type was null"))
  end.

(** Modelled from the spec: [updateOutputShape] of
    onnx/defs/shape_inference.h, on output [n]; a missing output type is a
    type error. *)
Definition node_updateOutputShape
    (ctx : NodeContext) (n : Z) (s : TensorShapeProto) : NodeRun :=
  match node_getOutputType ctx n with
  | Some out =>
      let vc := match value_case out with
                | VALUE_NOT_SET => kTensorType
                | c => c
                end in
      (node_set_output ctx n (mkTypeProto vc (elem_type out) (Some s)), Returned)
  | None => (ctx, Thrown (TypeInferenceError "Output type was null"))
  end.

(** Modelled from the spec: [getRepeatedAttribute] of
    onnx/defs/shape_inference.h: the values of an INTS attribute, if the
    node has it. *)
Fixpoint getRepeatedAttribute_list (l : list (string * list Z)) (name : string)
    : option (list Z) :=
  match l with
  | [] => None
  | (n, v) :: rest =>
      if String.eqb n name then Some v else getRepeatedAttribute_list rest name
  end.

Definition getRepeatedAttribute (ctx : NodeContext) (name : string) : option (list Z) :=
  getRepeatedAttribute_list (node_ints ctx) name.

(** [AttentionTypeAndShapeInference] (lines 475-540).  The division by 3
    is that of C++, rounding toward zero. *)
Definition AttentionTypeAndShapeInference
    (ctx : NodeContext) (past_input_index : Z) : NodeRun :=
  (* Type inference *)
  nodeThen (node_propagateElemTypeFromInputToOutput ctx 2 0) (fun ctx =>
  nodeThen (if getNumOutputs ctx >? 1
            then node_propagateElemTypeFromInputToOutput ctx 2 1
            else (ctx, Returned)) (fun ctx =>
  (* Shape inference *)
  match node_getInputShape ctx 0, node_getInputShape ctx 2 with
  | Some input_shape, Some bias_shape =>
      if negb (dim_size input_shape =? 3) then
        (ctx, Thrown (ShapeInferenceError "Inputs 0 shall be 3 dimensions"))
      else if negb (dim_size bias_shape =? 1) then
        (ctx, Thrown (ShapeInferenceError "Invalid bias shape"))
      else
        let qkv_hidden_sizes :=
          match getRepeatedAttribute ctx "qkv_hidden_sizes" with
          | Some v => v
          | None => []
          end in
        let size := Z.of_nat (List.length qkv_hidden_sizes) in
        if negb (size =? 0) && negb (size =? 3) then
          (ctx, Thrown (ShapeInferenceError "qkv_hidden_sizes should have 3 elements"))
        else
          let output_hidden_size :=
            if negb (size =? 0) then nth 2 qkv_hidden_sizes 0
            else Z.quot (get_dim_value (dim bias_shape 0)) 3 in
          let output_shape := set_dim input_shape 2 (dim_value output_hidden_size) in
          nodeThen (node_updateOutputShape ctx 0 output_shape) (fun ctx =>
          if getNumOutputs ctx >? 1 then
            match node_getInputShape ctx past_input_index with
            | Some past_shape =>
                if negb (dim_size past_shape =? 5) then
                  (ctx, Thrown (ShapeInferenceError "Inputs 4 shall be 5 dimensions"))
                else if has_dim_value (dim past_shape 3)
                        && has_dim_value (dim input_shape 1) then
                  let all_sequence_length :=
                    wrap_int64 (get_dim_value (dim past_shape 3)
                                + get_dim_value (dim input_shape 1)) in
                  let present_shape :=
                    set_dim past_shape 3 (dim_value all_sequence_length) in
                  node_updateOutputShape ctx 1 present_shape
                else (ctx, Returned)
            | None => (ctx, Returned)
            end
          else (ctx, Returned))
  | _, _ => (ctx, Returned)
  end)).

(** The lambdas registered for [Attention] and [QAttention] (lines 752-755
    and 832-836). *)
Definition Attention_TypeAndShapeInference (ctx : NodeContext) : NodeRun :=
  let past_input_index := 4 in
  AttentionTypeAndShapeInference ctx past_input_index.

Definition QAttention_TypeAndShapeInference (ctx : NodeContext) : NodeRun :=
  let past_input_index := 8 in
  AttentionTypeAndShapeInference ctx past_input_index.

(** [DecoderAttentionTypeAndShapeInference] (lines 542-578). *)
Definition DecoderAttentionTypeAndShapeInference (ctx : NodeContext) : NodeRun :=
  (* Type inference *)
  nodeThen (node_propagateElemTypeFromInputToOutput ctx 0 0) (fun ctx =>
  nodeThen (if getNumOutputs ctx >? 1
            then nodeThen (node_propagateElemTypeFromInputToOutput ctx 0 1)
                   (fun ctx => node_propagateElemTypeFromInputToOutput ctx 0 2)
            else (ctx, Returned)) (fun ctx =>
  (* Shape inference *)
  nodeThen (match node_getInputShape ctx 0 with
            | Some query_shape => node_updateOutputShape ctx 0 query_shape
            | None => (ctx, Returned)
            end) (fun ctx =>
  if getNumOutputs ctx >? 1 then
    match node_getInputShape ctx 6, node_getInputShape ctx 7 with
    | Some cache_shape, Some _ =>
        if negb (dim_size cache_shape =? 4) then
          (ctx, Thrown (ShapeInferenceError "key and value cache shall be 4 dimensions"))
        else if has_dim_value (dim cache_shape 0) && has_dim_value (dim cache_shape 1)
                && has_dim_value (dim cache_shape 2) && has_dim_value (dim cache_shape 3)
        then
          let new_cache_shape :=
            [dim cache_shape 0; dim cache_shape 1; dim_unset; dim cache_shape 3] in
          nodeThen (node_updateOutputShape ctx 1 new_cache_shape) (fun ctx =>
          node_updateOutputShape ctx 2 new_cache_shape)
        else (ctx, Returned)
    | _, _ => (ctx, Returned)
    end
  else (ctx, Returned)))).

(** [ParseScalar] (lines 580-593): the parsed value when the function
    returns true.  [ParseData] belongs to the ONNX library and is not among
    the sources: it is a parameter. *)
Definition ParseScalar
    (ParseData : TensorProto -> list Z) (initializer : TensorProto) : option Z :=
  if data_type initializer =? TensorProto_INT32 then
    let parsed_data := ParseData initializer in
    if Z.of_nat (List.length parsed_data) =? 1 then Some (nth 0 parsed_data 0)
    else None
  else None.

(** [!ParseScalar(t, value) || value <= 0], and the value otherwise. *)
Definition positive_scalar
    (ParseData : TensorProto -> list Z) (initializer : TensorProto) : option Z :=
  match ParseScalar ParseData initializer with
  | Some value => if value <=? 0 then None else Some value
  | None => None
  end.

(** [BeamSearchShapeInference] (lines 595-670). *)
Definition BeamSearchShapeInference
    (ParseData : TensorProto -> list Z) (ctx : NodeContext) : NodeRun :=
  (* Type inference *)
  nodeThen (node_propagateElemTypeFromInputToOutput ctx 0 0) (fun ctx =>
  nodeThen (if getNumOutputs ctx >? 1 then
              nodeThen (node_propagateElemTypeFromInputToOutput ctx 5 1) (fun ctx =>
              if getNumOutputs ctx >? 2
              then node_propagateElemTypeFromInputToOutput ctx 5 2
              else (ctx, Returned))
            else (ctx, Returned)) (fun ctx =>
  (* Shape inference *)
  match node_getInputShape ctx 0 with
  | None => (ctx, Returned)
  | Some input_ids_shape =>
      let input_ids_dims := input_ids_shape in
      if negb (dim_size input_ids_dims =? 2) then
        (ctx, Thrown (ShapeInferenceError "Inputs 0 shall be 2 dimensions"))
      else if negb (has_dim_value (dim input_ids_dims 0)
                    && has_dim_value (dim input_ids_dims 1)) then
        (ctx, Returned)
      else
        let batch_size := get_dim_value (dim input_ids_dims 0) in
        let sequence_length := get_dim_value (dim input_ids_dims 1) in
        match node_getInputData ctx 1, node_getInputData ctx 3, node_getInputData ctx 4 with
        | Some max_length, Some num_beams, Some num_return_sequences =>
            match positive_scalar ParseData max_length with
            | None =>
                (ctx, Thrown (ShapeInferenceError
                  "Failed to parse max_length or it is not positive integer scalar"))
            | Some max_length_value =>
            match positive_scalar ParseData num_beams with
            | None =>
                (ctx, Thrown (ShapeInferenceError
                  "Failed to parse num_beams or it is not positive integer scalar"))
            | Some num_beams_value =>
            match positive_scalar ParseData num_return_sequences with
            | None =>
                (ctx, Thrown (ShapeInferenceError
                  "Failed to parse num_return_sequences or it is not positive integer scalar"))
            | Some num_return_sequences_value =>
                let sequences_shape :=
                  [dim_value batch_size; dim_value num_return_sequences_value;
                   dim_value max_length_value] in
                nodeThen (node_updateOutputShape ctx 0 sequences_shape) (fun ctx =>
                if getNumOutputs ctx >? 1 then
                  (* the two dimensions added at lines 657-658 go to
                     sequences_shape, which was stored already *)
                  let sequences_scores_shape := [] in
                  nodeThen (node_updateOutputShape ctx 1 sequences_scores_shape) (fun ctx =>
                  if getNumOutputs ctx >? 2 then
                    let scores_shape :=
                      [dim_value (wrap_int64 (max_length_value - sequence_length));
                       dim_value batch_size; dim_value num_beams_value;
                       dim_unset (* vocab_size is unknown *)] in
                    node_updateOutputShape ctx 2 scores_shape
                  else (ctx, Returned))
                else (ctx, Returned))
            end end end
        | _, _, _ => (ctx, Returned)  (* not initializer *)
        end
  end)).

(** Nodes used as examples below. *)
Definition fresh_output : TypeProto := mkTypeProto VALUE_NOT_SET 0 None.

Definition float_input (s : TensorShapeProto) : option TypeProto :=
  Some (mkTypeProto kTensorType 1 (Some s)).

Definition attention_node (ints : list (string * list Z)) (outputs : list TypeProto)
    : NodeContext :=
  mkNodeContext ints
    [float_input [dim_param "B"; dim_value 5; dim_value 768];
     float_input (known [768; 2304]);
     float_input (known [2304]);
     None;
     float_input [dim_value 2; dim_param "B"; dim_value 12; dim_value 7; dim_value 64]]
    [] outputs.

Definition decoder_node : NodeContext :=
  mkNodeContext []
    [float_input [dim_param "S"; dim_param "B"; dim_value 768];
     float_input [dim_param "T"; dim_param "B"; dim_value 768];
     float_input (known [768; 768]);
     float_input (known [768; 1536]);
     float_input (known [2304]);
     None;
     float_input (known [2; 12; 7; 64]);
     float_input [dim_param "any"]]
    [] [fresh_output; fresh_output; fresh_output].

Definition beam_node : NodeContext :=
  mkNodeContext []
    [Some (mkTypeProto kTensorType 6 (Some (known [2; 5])));
     Some (mkTypeProto kTensorType 6 (Some (known [1])));
     None;
     Some (mkTypeProto kTensorType 6 (Some (known [1])));
     Some (mkTypeProto kTensorType 6 (Some (known [1])));
     float_input (known [1])]
    [None; Some (int32_tensor [20]); None; Some (int32_tensor [4]);
     Some (int32_tensor [3]); None]
    [fresh_output; fresh_output; fresh_output].

(** ** Lists and the indexed reads of the code *)

Section IndexedReads.

Lemma dim_of_nat (s : TensorShapeProto) (j : nat) :
  dim s (Z.of_nat j) = nth j s dim_unset.
Proof.
  unfold dim.
  destruct (Z.of_nat j <? 0) eqn:E.
  - apply Z.ltb_lt in E. lia.
  - now rewrite Nat2Z.id.
Qed.

Lemma dim_size_app (p q : TensorShapeProto) :
  dim_size (p ++ q) = dim_size p + dim_size q.
Proof. unfold dim_size. rewrite length_app. lia. Qed.

Lemma dim_size_nonneg (s : TensorShapeProto) : 0 <= dim_size s.
Proof. unfold dim_size. lia. Qed.

Lemma dim_app_r (p q : TensorShapeProto) (i : Z) :
  0 <= i -> dim (p ++ q) (dim_size p + i) = dim q i.
Proof.
  intros Hi. unfold dim_size.
  replace (Z.of_nat (List.length p) + i)
    with (Z.of_nat (List.length p + Z.to_nat i)) by lia.
  rewrite dim_of_nat, app_nth2_plus.
  replace i with (Z.of_nat (Z.to_nat i)) at 2 by lia.
  now rewrite dim_of_nat.
Qed.

Lemma nth_seq_middle (q p r : TensorShapeProto) :
  map (fun k => nth (List.length p + k) (p ++ q ++ r) dim_unset)
      (seq 0 (List.length q)) = q.
Proof.
  revert p. induction q as [|x q IH]; intros p; [reflexivity|].
  cbn [List.length seq map].
  rewrite app_nth2_plus. cbn [nth]. f_equal.
  rewrite <- seq_shift, map_map.
  rewrite <- (IH (p ++ [x])) at 2.
  apply map_ext. intros k.
  rewrite length_app. cbn [List.length].
  replace (List.length p + 1 + k)%nat with (List.length p + S k)%nat by lia.
  now rewrite <- app_assoc.
Qed.

(** A loop that copies the dimensions [start .. end-1] copies the
    middle segment of the shape. *)
Lemma copy_range (p q r : TensorShapeProto) :
  map (dim (p ++ q ++ r)) (for_range (dim_size p) (dim_size p + dim_size q)) = q.
Proof.
  unfold for_range, dim_size.
  replace (Z.of_nat (List.length p) + Z.of_nat (List.length q) - Z.of_nat (List.length p))
    with (Z.of_nat (List.length q)) by lia.
  rewrite Nat2Z.id, map_map.
  rewrite <- (nth_seq_middle q p r) at 2.
  apply map_ext. intros k.
  now rewrite <- Nat2Z.inj_add, dim_of_nat.
Qed.

Lemma copy_prefix (q r : TensorShapeProto) (n : Z) :
  n = dim_size q -> map (dim (q ++ r)) (for_range 0 n) = q.
Proof.
  intros ->. exact (copy_range [] q r).
Qed.

End IndexedReads.

(** ** The views of an operand *)

Section Views.

Lemma dim_size_matrix (b : TensorShapeProto) (m k : Dimension) :
  dim_size (b ++ [m; k]) = dim_size b + 2.
Proof. rewrite dim_size_app. reflexivity. Qed.

Lemma dim_matrix_row (b : TensorShapeProto) (m k : Dimension) :
  dim (b ++ [m; k]) (dim_size b + 2 - 2) = m.
Proof.
  replace (dim_size b + 2 - 2) with (dim_size b + 0) by lia.
  now rewrite dim_app_r.
Qed.

Lemma dim_matrix_col (b : TensorShapeProto) (m k : Dimension) :
  dim (b ++ [m; k]) (dim_size b + 2 - 1) = k.
Proof.
  replace (dim_size b + 2 - 1) with (dim_size b + 1) by lia.
  now rewrite dim_app_r.
Qed.

Lemma rank_matrix_not_1 (b : TensorShapeProto) : (dim_size b + 2 =? 1) = false.
Proof. pose proof (dim_size_nonneg b). apply Z.eqb_neq. lia. Qed.

(** Without [transBatch] the batch prefix is kept and the transpose flag
    swaps the last two axes. *)
Lemma transposedView_plain (b : TensorShapeProto) (m k : Dimension) (trans : bool) :
  transposedView (b ++ [m; k]) trans false
  = b ++ (if trans then [k; m] else [m; k]).
Proof.
  unfold transposedView.
  rewrite dim_size_matrix, rank_matrix_not_1.
  rewrite (copy_prefix b [m; k]) by lia.
  destruct trans; cbv iota; now rewrite dim_matrix_row, dim_matrix_col.
Qed.

(** With [transBatch] the axes 1 .. rank-2 are the batch prefix and axis 0
    is a matrix axis, next to the last axis. *)
Lemma transposedView_batch (a z : Dimension) (mid : TensorShapeProto) (trans : bool) :
  transposedView (a :: mid ++ [z]) trans true
  = mid ++ (if trans then [z; a] else [a; z]).
Proof.
  unfold transposedView.
  assert (Hsz : dim_size (a :: mid ++ [z]) = dim_size mid + 2).
  { unfold dim_size. cbn [List.length]. rewrite length_app. cbn [List.length]. lia. }
  rewrite Hsz, rank_matrix_not_1.
  replace (dim_size mid + 2 - 1) with (dim_size [a] + dim_size mid)
    by (unfold dim_size; cbn [List.length]; lia).
  change 1 with (dim_size [a]) at 1.
  change (a :: mid ++ [z]) with ([a] ++ mid ++ [z]).
  rewrite copy_range.
  assert (Hz : dim ([a] ++ mid ++ [z]) (dim_size [a] + dim_size mid) = z).
  { rewrite dim_app_r by apply dim_size_nonneg.
    replace (dim_size mid) with (dim_size mid + 0) by lia.
    now rewrite dim_app_r. }
  destruct trans; cbv iota; now rewrite Hz.
Qed.

Lemma transposedView_vector (a : Dimension) (trans trans_batch : bool) :
  transposedView [a] trans trans_batch = [a].
Proof. reflexivity. Qed.

(** For a matrix [transBatch] selects the same two axes. *)
Lemma transposedView_rank2 (a b : Dimension) (trans trans_batch : bool) :
  transposedView [a; b] trans trans_batch = if trans then [b; a] else [a; b].
Proof. now destruct trans, trans_batch. Qed.

Lemma dim_size_copy (s : TensorShapeProto) (start end_ : Z) :
  dim_size (map (dim s) (for_range start end_)) = Z.max 0 (end_ - start).
Proof.
  unfold dim_size, for_range. rewrite !length_map, length_seq. lia.
Qed.

Lemma transposedView_size (s : TensorShapeProto) (trans trans_batch : bool) :
  dim_size s <> 0 -> dim_size (transposedView s trans trans_batch) = dim_size s.
Proof.
  intros Hs. unfold transposedView.
  destruct (Z.eqb_spec (dim_size s) 1) as [|H1]; [reflexivity|].
  pose proof (dim_size_nonneg s).
  rewrite !dim_size_app, dim_size_copy.
  change (dim_size [?d]) with 1.
  destruct trans_batch; lia.
Qed.

End Views.

(** ** What a call of the fused inference depends on *)

Section FusedOutcome.

Lemma FusedMatMulShapeInference_result (ctx : InferenceContext) :
  shape (output0 ctx) = None ->
  result_of (FusedMatMulShapeInference ctx)
  = fusedOutcome (getInputShape ctx 0) (getInputShape ctx 1)
      (attributeFlag ctx "transA") (attributeFlag ctx "transB")
      (attributeFlag ctx "transBatchA") (attributeFlag ctx "transBatchB").
Proof.
  intros Hout.
  unfold FusedMatMulShapeInference, propagateElemTypeFromInputToOutput, fusedOutcome.
  cbn [getInputType Z.eqb andThen].
  set (ctx1 := set_output0 ctx _).
  change (getInputShape ctx1 0) with (getInputShape ctx 0).
  change (getInputShape ctx1 1) with (getInputShape ctx 1).
  change (attributeFlag ctx1) with (attributeFlag ctx).
  destruct (getInputShape ctx 0) as [shape0_raw|];
    [destruct (getInputShape ctx 1) as [shape1_raw|]|].
  - destruct ((dim_size shape0_raw =? 0) || (dim_size shape1_raw =? 0)); [reflexivity|].
    destruct (matmulResultShape _ _); reflexivity.
  - cbn. now rewrite Hout.
  - cbn. now rewrite Hout.
Qed.

Lemma node_context_flags (shapeA shapeB : option TensorShapeProto)
    (tA tB tbA tbB : bool) :
  let ctx := node_context shapeA shapeB tA tB tbA tbB in
  attributeFlag ctx "transA" = tA /\ attributeFlag ctx "transB" = tB /\
  attributeFlag ctx "transBatchA" = tbA /\ attributeFlag ctx "transBatchB" = tbB.
Proof. now destruct tA, tB, tbA, tbB. Qed.

Lemma infer_fusedOutcome (shapeA shapeB : option TensorShapeProto)
    (tA tB tbA tbB : bool) :
  infer shapeA shapeB tA tB tbA tbB = fusedOutcome shapeA shapeB tA tB tbA tbB.
Proof.
  unfold infer. rewrite FusedMatMulShapeInference_result by reflexivity.
  destruct (node_context_flags shapeA shapeB tA tB tbA tbB) as (-> & -> & -> & ->).
  reflexivity.
Qed.

(** [infer] is the fused inference of any node whose output has no shape
    yet: only the declared shapes and the flags matter. *)
Lemma FusedMatMulShapeInference_infer (ctx : InferenceContext) :
  shape (output0 ctx) = None ->
  result_of (FusedMatMulShapeInference ctx)
  = infer (getInputShape ctx 0) (getInputShape ctx 1)
      (attributeFlag ctx "transA") (attributeFlag ctx "transB")
      (attributeFlag ctx "transBatchA") (attributeFlag ctx "transBatchB").
Proof.
  intros Hout. rewrite infer_fusedOutcome.
  now apply FusedMatMulShapeInference_result.
Qed.

End FusedOutcome.

(** ** Broadcasting of the batch prefixes *)

Section Broadcast.

Lemma padLeft_length (n : nat) (s : TensorShapeProto) :
  (List.length s <= n)%nat -> List.length (padLeft n s) = n.
Proof.
  intros H. unfold padLeft. rewrite length_app, repeat_length. lia.
Qed.

Lemma padLeft_same_length (l r : TensorShapeProto) :
  let n := Nat.max (List.length l) (List.length r) in
  List.length (padLeft n l) = List.length (padLeft n r).
Proof.
  cbv zeta. rewrite !padLeft_length; lia.
Qed.

Lemma broadcastDim_compatible (a b : Dimension) :
  incompatibleDims a b = false ->
  exists d, broadcastDim a b = inr d /\ BroadcastsTo a b d.
Proof.
  destruct a as [x| |], b as [y| |]; cbn [incompatibleDims broadcastDim]; intros H;
    repeat match goal with
           | |- context [?u =? ?v] => destruct (Z.eqb_spec u v); subst
           end;
    try discriminate;
    eexists; (split; [reflexivity|]); now constructor.
Qed.

Lemma broadcastDim_incompatible (a b : Dimension) :
  incompatibleDims a b = true ->
  broadcastDim a b = inl (ShapeInferenceError "Incompatible dimensions").
Proof.
  destruct a as [x| |], b as [y| |]; cbn [incompatibleDims broadcastDim];
    try discriminate.
  intros H.
  apply andb_true_iff in H as [H Hy]. apply andb_true_iff in H as [Hxy Hx].
  apply negb_true_iff in Hxy, Hx, Hy. now rewrite Hxy, Hx, Hy.
Qed.

Lemma broadcastDim_error (a b : Dimension) (e : InferenceError) :
  broadcastDim a b = inl e -> e = ShapeInferenceError "Incompatible dimensions".
Proof.
  destruct a as [x| |], b as [y| |]; cbn [broadcastDim];
    repeat match goal with |- context [if ?c then _ else _] => destruct c end;
    congruence.
Qed.

Lemma broadcastAligned_error (l r : TensorShapeProto) (e : InferenceError) :
  broadcastAligned l r = inl e -> e = ShapeInferenceError "Incompatible dimensions".
Proof.
  revert r. induction l as [|a l IH]; intros [|b r]; cbn [broadcastAligned];
    try discriminate.
  destruct (broadcastDim a b) as [e'|d] eqn:Hd; cbn [sum_bind].
  - intros [= <-]. eauto using broadcastDim_error.
  - destruct (broadcastAligned l r) as [e'|ds] eqn:Hds; cbn [sum_bind];
      [|discriminate].
    intros [= <-]. eauto.
Qed.

Lemma broadcastAligned_compatible (l r : TensorShapeProto) :
  List.length l = List.length r ->
  compatiblePrefixes l r ->
  exists ds, broadcastAligned l r = inr ds /\ Forall3 BroadcastsTo l r ds.
Proof.
  unfold compatiblePrefixes.
  revert r. induction l as [|a l IH]; intros [|b r] Hlen Hall;
    try discriminate; cbn [broadcastAligned].
  - exists []. split; [reflexivity|constructor].
  - cbn [combine] in Hall. inversion Hall as [|ab rest Hab Hrest]; subst.
    cbn [fst snd] in Hab.
    destruct (broadcastDim_compatible a b Hab) as (d & -> & Hd).
    injection Hlen as Hlen.
    destruct (IH r Hlen Hrest) as (ds & -> & Hds).
    exists (d :: ds). split; [reflexivity|now constructor].
Qed.

Lemma broadcastAligned_clash (l r : TensorShapeProto) :
  clashingPrefixes l r ->
  broadcastAligned l r = inl (ShapeInferenceError "Incompatible dimensions").
Proof.
  unfold clashingPrefixes.
  revert r. induction l as [|a l IH]; intros [|b r] Hex; cbn [combine] in Hex;
    try (now inversion Hex).
  cbn [broadcastAligned].
  destruct (broadcastDim a b) as [e|d] eqn:Hd; cbn [sum_bind].
  - now rewrite (broadcastDim_error _ _ _ Hd).
  - inversion Hex as [ab rest Hab|ab rest Hrest]; subst.
    + cbn [fst snd] in Hab. rewrite (broadcastDim_incompatible _ _ Hab) in Hd.
      discriminate.
    + now rewrite (IH r Hrest).
Qed.

Lemma bidirectionalBroadcast_error (l r : TensorShapeProto) (e : InferenceError) :
  bidirectionalBroadcastShapeInference l r = inl e ->
  e = ShapeInferenceError "Incompatible dimensions".
Proof. apply broadcastAligned_error. Qed.

End Broadcast.

(** ** The common tail on operands of known form *)

Section ResultShape.

Lemma self_contraction (k : Dimension) :
  has_dim_value k && has_dim_value k && negb (get_dim_value k =? get_dim_value k)
  = false.
Proof. destruct k; cbn; try reflexivity. now rewrite Z.eqb_refl. Qed.

Lemma promoteL_matrix (b : TensorShapeProto) (m k : Dimension) :
  promoteL (b ++ [m; k]) = b ++ [m; k].
Proof. unfold promoteL. now rewrite dim_size_matrix, rank_matrix_not_1. Qed.

Lemma promoteR_matrix (b : TensorShapeProto) (m k : Dimension) :
  promoteR (b ++ [m; k]) = b ++ [m; k].
Proof. unfold promoteR. now rewrite dim_size_matrix, rank_matrix_not_1. Qed.

Lemma matmulResultShape_matrices (bA bB : TensorShapeProto) (m k k' n : Dimension) :
  matmulResultShape (bA ++ [m; k]) (bB ++ [k'; n])
  = if has_dim_value k && has_dim_value k'
       && negb (get_dim_value k =? get_dim_value k')
    then inl (ShapeInferenceError "Incompatible dimensions for matrix multiplication")
    else sum_bind (bidirectionalBroadcastShapeInference bA bB)
           (fun r => inr (r ++ [m; n])).
Proof.
  unfold matmulResultShape, contractionMismatch.
  rewrite promoteL_matrix, promoteR_matrix, !dim_size_matrix, !rank_matrix_not_1.
  rewrite !dim_matrix_col, !dim_matrix_row.
  destruct (has_dim_value k && has_dim_value k'
            && negb (get_dim_value k =? get_dim_value k')); [reflexivity|].
  rewrite (copy_prefix bA [m; k]), (copy_prefix bB [k'; n]) by lia.
  destruct (bidirectionalBroadcastShapeInference bA bB) as [e|r];
    cbn [sum_bind negb]; [reflexivity|].
  now rewrite <- app_assoc.
Qed.

Lemma transposedView_flag_of_vector (s : TensorShapeProto) (trans trans_batch : bool) :
  transposedView s (if dim_size s =? 1 then false else trans) trans_batch
  = transposedView s trans trans_batch.
Proof.
  unfold transposedView. now destruct (dim_size s =? 1).
Qed.

Lemma matmulResultShape_error (shape0 shape1 : TensorShapeProto) (e : InferenceError) :
  matmulResultShape shape0 shape1 = inl e ->
  (contractionMismatch (promoteL shape0) (promoteR shape1) = true /\
   e = ShapeInferenceError "Incompatible dimensions for matrix multiplication")
  \/ (contractionMismatch (promoteL shape0) (promoteR shape1) = false /\
      e = ShapeInferenceError "Incompatible dimensions").
Proof.
  unfold matmulResultShape.
  destruct (contractionMismatch (promoteL shape0) (promoteR shape1)).
  - intros [= <-]. now left.
  - destruct (bidirectionalBroadcastShapeInference _ _) as [e'|r] eqn:Hb;
      cbn [sum_bind]; [|discriminate].
    intros [= <-]. right. split; [reflexivity|].
    eauto using bidirectionalBroadcast_error.
Qed.

End ResultShape.

(** ** The properties of the specification *)

(** C1.  For known shapes A = batchA ++ [m; k] and B = batchB ++ [k; n]
    with all four transpose flags false: when the two batch prefixes,
    padded on the left with size-1 axes to equal length, are
    broadcast-compatible, [infer] succeeds with the broadcast prefix
    followed by [m; n], where every aligned pair broadcasts by
    [BroadcastsTo] (a common known value; the other side of a static 1;
    the single known value; unknown for two unknowns); when some aligned
    pair is known on both sides, unequal and without a 1, [infer] fails
    with IncompatibleDimensions.  A = [8,1,3,4] times B = [1,5,4,6] gives
    [8,5,3,6]. *)
Theorem C1_batch_broadcast_matmul :
  forall (batchA batchB : TensorShapeProto) (m k n : Dimension),
    let rank := Nat.max (List.length batchA) (List.length batchB) in
    let prefixA := padLeft rank batchA in
    let prefixB := padLeft rank batchB in
    let result := infer (Some (batchA ++ [m; k])) (Some (batchB ++ [k; n]))
                    false false false false in
    (compatiblePrefixes prefixA prefixB ->
     exists prefix,
       result = InferredShape (prefix ++ [m; n])
       /\ Forall3 BroadcastsTo prefixA prefixB prefix)
    /\ (clashingPrefixes prefixA prefixB ->
        exists e, result = Failure e /\ error_kind e = IncompatibleDimensions)
    /\ infer (Some (known [8; 1; 3; 4])) (Some (known [1; 5; 4; 6]))
         false false false false
       = InferredShape (known [8; 5; 3; 6]).
Proof.
  intros batchA batchB m k n rank prefixA prefixB result.
  assert (Hres : result
                 = match bidirectionalBroadcastShapeInference batchA batchB with
                   | inl e => Failure e
                   | inr r => InferredShape (r ++ [m; n])
                   end).
  { unfold result. rewrite infer_fusedOutcome. unfold fusedOutcome.
    rewrite !dim_size_matrix.
    pose proof (dim_size_nonneg batchA). pose proof (dim_size_nonneg batchB).
    destruct (Z.eqb_spec (dim_size batchA + 2) 0); [lia|].
    destruct (Z.eqb_spec (dim_size batchB + 2) 0); [lia|].
    cbn [orb]. rewrite !rank_matrix_not_1, !transposedView_plain.
    rewrite matmulResultShape_matrices, self_contraction.
    now destruct (bidirectionalBroadcastShapeInference batchA batchB). }
  split; [|split].
  - intros Hcompat.
    destruct (broadcastAligned_compatible prefixA prefixB
                (padLeft_same_length batchA batchB) Hcompat) as (ds & Hds & Hall).
    exists ds. split; [|exact Hall].
    rewrite Hres. unfold bidirectionalBroadcastShapeInference.
    fold rank. fold prefixA. fold prefixB. now rewrite Hds.
  - intros Hclash.
    exists (ShapeInferenceError "Incompatible dimensions"). split; [|reflexivity].
    rewrite Hres. unfold bidirectionalBroadcastShapeInference.
    fold rank. fold prefixA. fold prefixB.
    now rewrite (broadcastAligned_clash _ _ Hclash).
  - reflexivity.
Qed.

Lemma C1_batch_broadcast_matmul_witness :
  (exists prefix,
     infer (Some (known [8; 1] ++ [dim_value 3; dim_value 4]))
           (Some (known [1; 5] ++ [dim_value 4; dim_value 6]))
           false false false false
     = InferredShape (prefix ++ [dim_value 3; dim_value 6])
     /\ Forall3 BroadcastsTo (padLeft 2 (known [8; 1])) (padLeft 2 (known [1; 5])) prefix)
  /\ (exists e,
        infer (Some (known [2] ++ [dim_value 3; dim_value 4]))
              (Some (known [5] ++ [dim_value 4; dim_value 6]))
              false false false false
        = Failure e
        /\ error_kind e = IncompatibleDimensions).
Proof.
  split.
  - apply (proj1 (C1_batch_broadcast_matmul (known [8; 1]) (known [1; 5])
                    (dim_value 3) (dim_value 4) (dim_value 6))).
    repeat constructor.
  - apply (proj1 (proj2 (C1_batch_broadcast_matmul (known [2]) (known [5])
                           (dim_value 3) (dim_value 4) (dim_value 6)))).
    constructor. reflexivity.
Defined.

(** C2, as the code has it.  For an operand of rank at least 2 whose
    transposeBatch flag is set, axis 0 is a matrix axis: the axes
    1 .. rank-2 form the batch prefix and the view ends in (axis 0, last
    axis), which the operand's transpose flag swaps to (last axis, axis 0).
    So [infer] treats an operand [a, mid..., z] with transposeBatch set as
    the operand [mid..., a, z] without it.  For A = [3,4,5] with
    transposeBatchA the view is [4,3,5], and [4,5,3] with transposeA: the
    two differ by the swap of the last two axes. *)
Theorem C2_transposeBatch_view :
  forall (a z : Dimension) (mid : TensorShapeProto),
    (forall trans : bool,
       transposedView (a :: mid ++ [z]) trans true
       = mid ++ (if trans then [z; a] else [a; z]))
    /\ transposedView (a :: mid ++ [z]) true true
       = swapLastTwo (transposedView (a :: mid ++ [z]) false true)
    /\ (forall (shapeB : option TensorShapeProto) (tA tB tbB : bool),
          infer (Some (a :: mid ++ [z])) shapeB tA tB true tbB
          = infer (Some (mid ++ [a; z])) shapeB tA tB false tbB)
    /\ (forall (shapeA : option TensorShapeProto) (tA tB tbA : bool),
          infer shapeA (Some (a :: mid ++ [z])) tA tB tbA true
          = infer shapeA (Some (mid ++ [a; z])) tA tB tbA false)
    /\ transposedView (known [3; 4; 5]) false true = known [4; 3; 5]
    /\ transposedView (known [3; 4; 5]) true true = known [4; 5; 3].
Proof.
  intros a z mid.
  assert (Hsize : dim_size (a :: mid ++ [z]) = dim_size (mid ++ [a; z])).
  { unfold dim_size. cbn [List.length]. rewrite !length_app. cbn [List.length]. lia. }
  assert (Hview : forall trans,
             transposedView (a :: mid ++ [z]) trans true
             = transposedView (mid ++ [a; z]) trans false).
  { intros trans. rewrite transposedView_batch, transposedView_plain.
    now destruct trans. }
  split; [|split; [|split; [|split; [|split]]]].
  - apply transposedView_batch.
  - rewrite !transposedView_batch. unfold swapLastTwo.
    rewrite length_app. cbn [List.length].
    replace (List.length mid + 2 - 2)%nat with (List.length mid + 0)%nat by lia.
    rewrite firstn_app_2, skipn_app, skipn_all2 by lia.
    cbn [firstn List.length]. rewrite app_nil_r.
    replace (List.length mid + 0 - List.length mid)%nat with 0%nat by lia.
    reflexivity.
  - intros shapeB tA tB tbB. rewrite !infer_fusedOutcome. unfold fusedOutcome.
    destruct shapeB as [shapeB|]; [|reflexivity].
    now rewrite Hsize, !Hview.
  - intros shapeA tA tB tbA. rewrite !infer_fusedOutcome. unfold fusedOutcome.
    destruct shapeA as [shapeA|]; [|reflexivity].
    now rewrite Hsize, !Hview.
  - reflexivity.
  - reflexivity.
Qed.

(** C2, as the specification words it, fails on A = [3,4,5] with
    transposeBatchA set: the code does not keep axis 0 (size 3) among the
    batch axes in front of the matrix axes (4, 5); it makes axis 1 (size 4)
    the batch prefix and (3, 5) the matrix axes, and A times B = [5,6] has
    shape [4,3,6], not [3,4,6]. *)
Lemma C2_transposeBatch_counterexample :
  transposedView (known [3; 4; 5]) false true
    <> relocatedBatchView_spec (known [3; 4; 5]) false
  /\ relocatedBatchView_spec (known [3; 4; 5]) false = known [3; 4; 5]
  /\ infer (Some (known [3; 4; 5])) (Some (known [5; 6])) false false true false
     = InferredShape (known [4; 3; 6])
  /\ infer (Some (known [3; 4; 5])) (Some (known [5; 6])) false false true false
     <> infer (Some (relocatedBatchView_spec (known [3; 4; 5]) false))
              (Some (known [5; 6])) false false false false.
Proof.
  repeat split; try reflexivity; intros H; discriminate H.
Qed.

(** C3, as the code has it.  For operands of rank at least 1, [infer]
    fails at the contraction check, with the message "Incompatible
    dimensions for matrix multiplication", if and only if the last axis of
    the promoted A view and the second-to-last axis of the promoted B view
    are both known and unequal; that failure is an IncompatibleDimensions
    failure, and it does not occur when either of the two is unknown.  (A
    clash between the batch prefixes is an IncompatibleDimensions failure
    too, with another message.)  A = [3,4] times B = [5,6] fails so. *)
Theorem C3_contraction_check :
  forall (shapeA shapeB : TensorShapeProto) (tA tB tbA tbB : bool),
    dim_size shapeA <> 0 -> dim_size shapeB <> 0 ->
    let dimL := contractionDimA shapeA tA tbA in
    let dimR := contractionDimB shapeB tB tbB in
    let mismatch := ShapeInferenceError "Incompatible dimensions for matrix multiplication" in
    (infer (Some shapeA) (Some shapeB) tA tB tbA tbB = Failure mismatch
     <-> (has_dim_value dimL = true /\ has_dim_value dimR = true
          /\ get_dim_value dimL <> get_dim_value dimR))
    /\ (has_dim_value dimL = false \/ has_dim_value dimR = false ->
        infer (Some shapeA) (Some shapeB) tA tB tbA tbB <> Failure mismatch)
    /\ error_kind mismatch = IncompatibleDimensions
    /\ infer (Some (known [3; 4])) (Some (known [5; 6])) false false false false
       = Failure mismatch.
Proof.
  intros shapeA shapeB tA tB tbA tbB HA HB dimL dimR mismatch.
  assert (Hiff : infer (Some shapeA) (Some shapeB) tA tB tbA tbB = Failure mismatch
                 <-> (has_dim_value dimL = true /\ has_dim_value dimR = true
                      /\ get_dim_value dimL <> get_dim_value dimR)).
  { rewrite infer_fusedOutcome. unfold fusedOutcome.
    destruct (Z.eqb_spec (dim_size shapeA) 0); [contradiction|].
    destruct (Z.eqb_spec (dim_size shapeB) 0); [contradiction|].
    cbn [orb]. rewrite !transposedView_flag_of_vector.
    assert (Hcheck : contractionMismatch (promoteL (transposedView shapeA tA tbA))
                       (promoteR (transposedView shapeB tB tbB)) = true
                     <-> (has_dim_value dimL = true /\ has_dim_value dimR = true
                          /\ get_dim_value dimL <> get_dim_value dimR)).
    { unfold contractionMismatch. fold (contractionDimA shapeA tA tbA).
      fold (contractionDimB shapeB tB tbB). fold dimL. fold dimR.
      rewrite !andb_true_iff, negb_true_iff, Z.eqb_neq. tauto. }
    rewrite <- Hcheck.
    destruct (matmulResultShape _ _) as [e|r] eqn:Hm.
    - apply matmulResultShape_error in Hm as [[Hc ->]|[Hc ->]].
      + now rewrite Hc.
      + rewrite Hc. split; intros H; discriminate H.
    - split; [intros H; discriminate H|].
      intros Hc. unfold matmulResultShape in Hm. rewrite Hc in Hm. discriminate Hm. }
  split; [exact Hiff|split; [|split; reflexivity]].
  intros Hunknown Hfail. apply Hiff in Hfail as (HL & HR & _).
  destruct Hunknown as [H|H]; congruence.
Qed.

Lemma C3_contraction_check_witness :
  infer (Some (known [3; 4])) (Some (known [5; 6])) false false false false
  = Failure (ShapeInferenceError "Incompatible dimensions for matrix multiplication")
  <-> (has_dim_value (contractionDimA (known [3; 4]) false false) = true
       /\ has_dim_value (contractionDimB (known [5; 6]) false false) = true
       /\ get_dim_value (contractionDimA (known [3; 4]) false false)
          <> get_dim_value (contractionDimB (known [5; 6]) false false)).
Proof.
  apply (C3_contraction_check (known [3; 4]) (known [5; 6]) false false false false).
  - vm_compute. discriminate.
  - vm_compute. discriminate.
Defined.

(** C3, as the specification words it, fails on A = [2,3,4] times
    B = [5,4,6]: the two contraction dimensions are both 4, and [infer]
    still fails with IncompatibleDimensions, on the batch prefixes 2 and
    5. *)
Lemma C3_contraction_counterexample :
  ~ ((exists e,
        infer (Some (known [2; 3; 4])) (Some (known [5; 4; 6])) false false false false
        = Failure e
        /\ error_kind e = IncompatibleDimensions)
     <-> (has_dim_value (contractionDimA (known [2; 3; 4]) false false) = true
          /\ has_dim_value (contractionDimB (known [5; 4; 6]) false false) = true
          /\ get_dim_value (contractionDimA (known [2; 3; 4]) false false)
             <> get_dim_value (contractionDimB (known [5; 4; 6]) false false))).
Proof.
  intros [Honly _].
  destruct Honly as (_ & _ & Hneq).
  - exists (ShapeInferenceError "Incompatible dimensions"). split; reflexivity.
  - apply Hneq. reflexivity.
Qed.

(** C4.  A rank-1 operand is promoted for the contraction and the broadcast
    only, A by a size-1 row axis in front and B by a size-1 column axis
    behind, and the synthetic axis is left out of the output: [k] times
    [k, n] gives [n], [m, k] times [k] gives [m], and [k] times [k] gives
    the empty (rank-0) shape. *)
Theorem C4_vector_promotion :
  (forall k : Dimension,
     promoteL [k] = [dim_value 1; k] /\ promoteR [k] = [k; dim_value 1])
  /\ (forall (k n : Dimension) (tA tbA tbB : bool),
        infer (Some [k]) (Some [k; n]) tA false tbA tbB = InferredShape [n])
  /\ (forall (m k : Dimension) (tB tbA tbB : bool),
        infer (Some [m; k]) (Some [k]) false tB tbA tbB = InferredShape [m])
  /\ (forall (k : Dimension) (tA tB tbA tbB : bool),
        infer (Some [k]) (Some [k]) tA tB tbA tbB = InferredShape []).
Proof.
  split; [|split; [|split]].
  - intros k. split; reflexivity.
  - intros k n tA tbA tbB. rewrite infer_fusedOutcome. unfold fusedOutcome.
    cbn [dim_size List.length Z.of_nat Z.eqb Pos.eqb Pos.of_succ_nat Pos.succ orb].
    rewrite transposedView_vector, transposedView_rank2.
    unfold matmulResultShape. cbn -[has_dim_value get_dim_value Z.eqb].
    unfold contractionMismatch. cbn -[has_dim_value get_dim_value Z.eqb].
    now rewrite self_contraction.
  - intros m k tB tbA tbB. rewrite infer_fusedOutcome. unfold fusedOutcome.
    cbn [dim_size List.length Z.of_nat Z.eqb Pos.eqb Pos.of_succ_nat Pos.succ orb].
    rewrite transposedView_vector, transposedView_rank2.
    unfold matmulResultShape. cbn -[has_dim_value get_dim_value Z.eqb].
    unfold contractionMismatch. cbn -[has_dim_value get_dim_value Z.eqb].
    now rewrite self_contraction.
  - intros k tA tB tbA tbB. rewrite infer_fusedOutcome. unfold fusedOutcome.
    cbn [dim_size List.length Z.of_nat Z.eqb Pos.eqb Pos.of_succ_nat Pos.succ orb].
    rewrite !transposedView_vector.
    unfold matmulResultShape. cbn -[has_dim_value get_dim_value Z.eqb].
    unfold contractionMismatch. cbn -[has_dim_value get_dim_value Z.eqb].
    now rewrite self_contraction.
Qed.

(** C5, as the code has it.  When both shapes are declared and at least
    one operand has rank 0, the call fails with the InvalidRank error "Input tensors of wrong
    rank (0).", whatever the other shape and the flags are; this holds for
    the fused-matmul inference and for the sparse-times-dense one. *)
Theorem C5_rank0_rejected :
  forall shapeA shapeB : TensorShapeProto,
    dim_size shapeA = 0 \/ dim_size shapeB = 0 ->
    let wrong_rank := ShapeInferenceError "Input tensors of wrong rank (0)." in
    (forall tA tB tbA tbB : bool,
       infer (Some shapeA) (Some shapeB) tA tB tbA tbB = Failure wrong_rank)
    /\ error_kind wrong_rank = InvalidRank
    /\ (forall ctx : InferenceContext,
          getInputShape ctx 0 = Some shapeA -> getInputShape ctx 1 = Some shapeB ->
          snd (FusedMatMulShapeInference ctx) = Thrown wrong_rank
          /\ snd (sparseCompatibleMatmulShapeInference ctx 0 1) = Thrown wrong_rank
          /\ snd (SparseToDenseMatMul_TypeAndShapeInference ctx) = Thrown wrong_rank).
Proof.
  intros shapeA shapeB Hrank wrong_rank.
  assert (Htest : (dim_size shapeA =? 0) || (dim_size shapeB =? 0) = true).
  { apply orb_true_iff. now rewrite !Z.eqb_eq. }
  split; [|split; [reflexivity|]].
  - intros tA tB tbA tbB. rewrite infer_fusedOutcome. unfold fusedOutcome.
    now rewrite Htest.
  - intros ctx H0 H1. repeat split.
    + unfold FusedMatMulShapeInference, propagateElemTypeFromInputToOutput.
      cbn [getInputType Z.eqb andThen].
      set (ctx1 := set_output0 ctx _).
      change (getInputShape ctx1 0) with (getInputShape ctx 0).
      change (getInputShape ctx1 1) with (getInputShape ctx 1).
      now rewrite H0, H1, Htest.
    + unfold sparseCompatibleMatmulShapeInference.
      now rewrite H0, H1, Htest.
    + unfold SparseToDenseMatMul_TypeAndShapeInference,
        propagateElemTypeFromInputToOutput.
      cbn [getInputType Z.eqb Pos.eqb andThen].
      set (ctx1 := set_output0 ctx _).
      unfold sparseCompatibleMatmulShapeInference.
      change (getInputShape ctx1 0) with (getInputShape ctx 0).
      change (getInputShape ctx1 1) with (getInputShape ctx 1).
      now rewrite H0, H1, Htest.
Qed.

Lemma C5_rank0_rejected_witness :
  infer (Some []) (Some (known [4; 6])) true false true false
  = Failure (ShapeInferenceError "Input tensors of wrong rank (0).")
  /\ snd (SparseToDenseMatMul_TypeAndShapeInference sparse_scalar_node)
     = Thrown (ShapeInferenceError "Input tensors of wrong rank (0).").
Proof.
  assert (H : dim_size [] = 0 \/ dim_size (known [4; 6]) = 0) by (left; reflexivity).
  split.
  - apply (proj1 (C5_rank0_rejected [] (known [4; 6]) H)).
  - apply (proj2 (proj2 (C5_rank0_rejected [] (known [4; 6]) H))); reflexivity.
Defined.

(** C5, as the specification words it, fails on an operand A of rank 0
    next to an operand B whose shape is not declared: the test for declared
    shapes (lines 291-293 and 403-405) comes before the rank test, so
    [infer] gives no result and no error, and the fused and the
    sparse-times-dense inference both return. *)
Lemma C5_rank0_counterexample :
  dim_size [] = 0
  /\ infer (Some []) None false false false false = NoResult
  /\ ~ (exists e,
          infer (Some []) None false false false false = Failure e
          /\ error_kind e = InvalidRank)
  /\ snd (FusedMatMulShapeInference
            (node_context (Some []) None false false false false)) = Returned
  /\ snd (sparseCompatibleMatmulShapeInference
            (node_context (Some []) None false false false false) 0 1) = Returned
  /\ snd (SparseToDenseMatMul_TypeAndShapeInference
            (node_context (Some []) None false false false false)) = Returned.
Proof.
  repeat split; try reflexivity.
  intros [e [H _]]. discriminate H.
Qed.

(** C6.  When either input shape is not declared, [infer] gives no output
    shape and raises no error: the call returns, leaves the shape of the
    output as it was, and its result is neither of the failures. *)
Theorem C6_unknown_shape_skips :
  forall (shapeA shapeB : option TensorShapeProto) (tA tB tbA tbB : bool),
    shapeA = None \/ shapeB = None ->
    infer shapeA shapeB tA tB tbA tbB = NoResult
    /\ (forall e, infer shapeA shapeB tA tB tbA tbB <> Failure e)
    /\ (forall ctx : InferenceContext,
          getInputShape ctx 0 = shapeA -> getInputShape ctx 1 = shapeB ->
          snd (FusedMatMulShapeInference ctx) = Returned
          /\ shape (output0 (fst (FusedMatMulShapeInference ctx)))
             = shape (output0 ctx)).
Proof.
  intros shapeA shapeB tA tB tbA tbB Hnone.
  assert (Hinfer : infer shapeA shapeB tA tB tbA tbB = NoResult).
  { rewrite infer_fusedOutcome. unfold fusedOutcome.
    destruct Hnone as [-> | ->]; [reflexivity|now destruct shapeA]. }
  split; [exact Hinfer|split].
  - intros e. rewrite Hinfer. discriminate.
  - intros ctx H0 H1.
    unfold FusedMatMulShapeInference, propagateElemTypeFromInputToOutput.
    cbn [getInputType Z.eqb andThen].
    set (ctx1 := set_output0 ctx _).
    change (getInputShape ctx1 0) with (getInputShape ctx 0).
    change (getInputShape ctx1 1) with (getInputShape ctx 1).
    rewrite H0, H1.
    destruct Hnone as [-> | ->]; [now split|destruct shapeA; now split].
Qed.

Lemma C6_unknown_shape_skips_witness :
  infer None (Some (known [4; 6])) true false false true = NoResult
  /\ snd (FusedMatMulShapeInference shapeless_node) = Returned.
Proof.
  assert (H : @None TensorShapeProto = None \/ Some (known [4; 6]) = None)
    by (left; reflexivity).
  split.
  - apply (proj1 (C6_unknown_shape_skips None (Some (known [4; 6]))
                    true false false true H)).
  - apply (proj2 (proj2 (C6_unknown_shape_skips None (Some (known [4; 6]))
                           true false false true H)) shapeless_node);
      reflexivity.
Defined.

(** C7.  The transpose flag of a rank-1 operand has no effect: [infer]
    gives the same result with the flag set and unset, for every shape of
    the other operand and every setting of the other flags. *)
Theorem C7_vector_transpose_ignored :
  (forall (a : Dimension) (shapeB : option TensorShapeProto) (tB tbA tbB : bool),
     infer (Some [a]) shapeB true tB tbA tbB = infer (Some [a]) shapeB false tB tbA tbB)
  /\ (forall (b : Dimension) (shapeA : option TensorShapeProto) (tA tbA tbB : bool),
        infer shapeA (Some [b]) tA true tbA tbB = infer shapeA (Some [b]) tA false tbA tbB).
Proof.
  split.
  - intros a shapeB tB tbA tbB. rewrite !infer_fusedOutcome. reflexivity.
  - intros b shapeA tA tbA tbB. rewrite !infer_fusedOutcome. reflexivity.
Qed.

(** ** The three registered operators *)

Section Operators.

Lemma matrix_decompose (s : TensorShapeProto) :
  dim_size s <> 0 -> dim_size s <> 1 ->
  exists b m k, s = b ++ [m; k].
Proof.
  intros H0 H1.
  destruct (exists_last (l := s)) as (s' & k & ->).
  { intros ->. now apply H0. }
  destruct (exists_last (l := s')) as (b & m & ->).
  { intros ->. now apply H1. }
  exists b, m, k. now rewrite <- app_assoc.
Qed.

(** Without any flag the view of an operand is the operand. *)
Lemma transposedView_identity (s : TensorShapeProto) :
  dim_size s <> 0 -> transposedView s false false = s.
Proof.
  intros H0. destruct (Z.eq_dec (dim_size s) 1) as [H1|H1].
  - unfold transposedView. now rewrite H1.
  - destruct (matrix_decompose s H0 H1) as (b & m & k & ->).
    apply transposedView_plain.
Qed.

Lemma fusedOutcome_plain (shape0 shape1 : TensorShapeProto) :
  fusedOutcome (Some shape0) (Some shape1) false false false false
  = if (dim_size shape0 =? 0) || (dim_size shape1 =? 0) then
      Failure (ShapeInferenceError "Input tensors of wrong rank (0).")
    else
      match matmulResultShape shape0 shape1 with
      | inl e => Failure e
      | inr resultShape => InferredShape resultShape
      end.
Proof.
  unfold fusedOutcome.
  destruct (Z.eqb_spec (dim_size shape0) 0); [reflexivity|].
  destruct (Z.eqb_spec (dim_size shape1) 0); [reflexivity|].
  cbn [orb].
  now rewrite !transposedView_flag_of_vector, !transposedView_identity.
Qed.





Lemma FusedMatMulShapeInference_elem_type (ctx : InferenceContext) :
  elem_type (output0 (fst (FusedMatMulShapeInference ctx)))
  = elem_type (input0 ctx).
Proof.
  unfold FusedMatMulShapeInference, propagateElemTypeFromInputToOutput.
  cbn [getInputType Z.eqb andThen].
  set (ctx1 := set_output0 ctx _).
  destruct (getInputShape ctx1 0) as [shape0|];
    [destruct (getInputShape ctx1 1) as [shape1|]|]; try reflexivity.
  destruct ((dim_size shape0 =? 0) || (dim_size shape1 =? 0)); [reflexivity|].
  destruct (matmulResultShape _ _); reflexivity.
Qed.

End Operators.




(** C9.  On the silent-skip path, when an input shape is not declared, the
    fused-matmul inference has still set the output element type from
    input 0 before it returns; the output shape is left as it was. *)
Theorem C9_skip_still_sets_element_type :
  forall ctx : InferenceContext,
    getInputShape ctx 0 = None \/ getInputShape ctx 1 = None ->
    snd (FusedMatMulShapeInference ctx) = Returned
    /\ elem_type (output0 (fst (FusedMatMulShapeInference ctx)))
       = elem_type (input0 ctx)
    /\ shape (output0 (fst (FusedMatMulShapeInference ctx))) = shape (output0 ctx).
Proof.
  intros ctx Hnone.
  split; [|split; [apply FusedMatMulShapeInference_elem_type|]];
    unfold FusedMatMulShapeInference, propagateElemTypeFromInputToOutput;
    cbn [getInputType Z.eqb andThen];
    set (ctx1 := set_output0 ctx _);
    change (getInputShape ctx1 0) with (getInputShape ctx 0);
    change (getInputShape ctx1 1) with (getInputShape ctx 1);
    destruct Hnone as [-> | ->]; try reflexivity;
    now destruct (getInputShape ctx 0).
Qed.

Lemma C9_skip_still_sets_element_type_witness :
  snd (FusedMatMulShapeInference shapeless_node) = Returned
  /\ elem_type (output0 (fst (FusedMatMulShapeInference shapeless_node))) = 10
  /\ shape (output0 (fst (FusedMatMulShapeInference shapeless_node))) = None.
Proof.
  apply (C9_skip_still_sets_element_type shapeless_node).
  left. reflexivity.
Defined.

(** C10.  For an operand of rank exactly 2 the transposeBatch flag alone
    changes nothing: the batch prefix is empty either way and the same two
    axes are the matrix axes, so [infer] gives the same result with the
    flag set and unset, for every shape of the other operand and every
    setting of the other flags. *)
Theorem C10_rank2_transposeBatch_ignored :
  (forall (a b : Dimension) (shapeB : option TensorShapeProto) (tA tB tbB : bool),
     infer (Some [a; b]) shapeB tA tB true tbB
     = infer (Some [a; b]) shapeB tA tB false tbB)
  /\ (forall (a b : Dimension) (shapeA : option TensorShapeProto) (tA tB tbA : bool),
        infer shapeA (Some [a; b]) tA tB tbA true
        = infer shapeA (Some [a; b]) tA tB tbA false)
  /\ (forall (a b : Dimension) (trans : bool),
        transposedView [a; b] trans true = transposedView [a; b] trans false).
Proof.
  split; [|split].
  - intros a b shapeB tA tB tbB. rewrite !infer_fusedOutcome. unfold fusedOutcome.
    destruct shapeB as [shapeB|]; [|reflexivity].
    now rewrite !transposedView_rank2.
  - intros a b shapeA tA tB tbA. rewrite !infer_fusedOutcome. unfold fusedOutcome.
    destruct shapeA as [shapeA|]; [|reflexivity].
    now rewrite !transposedView_rank2.
  - intros a b trans. now rewrite !transposedView_rank2.
Qed.

(** ** Further properties of the fused matmul inference *)

Section FusedMore.

Lemma ends_decompose (s : TensorShapeProto) :
  dim_size s <> 0 -> dim_size s <> 1 ->
  exists a mid z, s = a :: mid ++ [z].
Proof.
  intros H0 H1.
  destruct (matrix_decompose s H0 H1) as (b & m & k & ->).
  destruct b as [|a b].
  - exists m, [], k. reflexivity.
  - exists a, (b ++ [m]), k. cbn. now rewrite <- app_assoc.
Qed.

Lemma broadcastAligned_length (l r ds : TensorShapeProto) :
  List.length l = List.length r ->
  broadcastAligned l r = inr ds -> List.length ds = List.length l.
Proof.
  revert r ds. induction l as [|a l IH]; intros [|b r] ds Hlen; try discriminate;
    cbn [broadcastAligned].
  - now intros [= <-].
  - destruct (broadcastDim a b) as [e|d]; cbn [sum_bind]; [discriminate|].
    destruct (broadcastAligned l r) as [e|ds'] eqn:Hds; cbn [sum_bind]; [discriminate|].
    intros [= <-]. cbn [List.length]. f_equal.
    injection Hlen as Hlen. eauto.
Qed.

Lemma bidirectionalBroadcast_size (l r ds : TensorShapeProto) :
  bidirectionalBroadcastShapeInference l r = inr ds ->
  dim_size ds = Z.max (dim_size l) (dim_size r).
Proof.
  unfold bidirectionalBroadcastShapeInference. intros H.
  apply broadcastAligned_length in H; [|apply padLeft_same_length].
  rewrite padLeft_length in H by lia. unfold dim_size. lia.
Qed.

Lemma promoteL_size (s : TensorShapeProto) :
  dim_size s <> 0 -> dim_size (promoteL s) = Z.max (dim_size s) 2.
Proof.
  intros H0. pose proof (dim_size_nonneg s). unfold promoteL.
  destruct (Z.eqb_spec (dim_size s) 1) as [->|]; [reflexivity|lia].
Qed.

Lemma promoteR_size (s : TensorShapeProto) :
  dim_size s <> 0 -> dim_size (promoteR s) = Z.max (dim_size s) 2.
Proof.
  intros H0. pose proof (dim_size_nonneg s). unfold promoteR.
  destruct (Z.eqb_spec (dim_size s) 1) as [->|]; [reflexivity|lia].
Qed.

Lemma matmulResultShape_size (shape0 shape1 r : TensorShapeProto) :
  dim_size shape0 <> 0 -> dim_size shape1 <> 0 ->
  matmulResultShape shape0 shape1 = inr r ->
  dim_size r
  = Z.max (Z.max (dim_size shape0) 2) (Z.max (dim_size shape1) 2)
    - (if dim_size shape0 =? 1 then 1 else 0)
    - (if dim_size shape1 =? 1 then 1 else 0).
Proof.
  intros H0 H1. unfold matmulResultShape.
  destruct (contractionMismatch _ _); [discriminate|].
  destruct (bidirectionalBroadcastShapeInference _ _) as [e|ds] eqn:Hb;
    cbn [sum_bind]; [discriminate|].
  apply bidirectionalBroadcast_size in Hb.
  rewrite !dim_size_copy, promoteL_size, promoteR_size in Hb by assumption.
  intros [= <-].
  destruct (dim_size shape0 =? 1), (dim_size shape1 =? 1); cbn [negb];
    rewrite ?dim_size_app; change (dim_size [?d]) with 1; lia.
Qed.

End FusedMore.

(** X1.  The view that [FusedMatMulShapeInference] takes of an operand of
    rank at least 1 is a permutation of its axes, whatever the transpose
    and transposeBatch flags are: no axis is dropped or duplicated. *)
Theorem transposedView_permutation :
  forall (shape_raw : TensorShapeProto) (trans trans_batch : bool),
    dim_size shape_raw <> 0 ->
    Permutation shape_raw (transposedView shape_raw trans trans_batch).
Proof.
  intros s trans trans_batch H0.
  destruct (Z.eq_dec (dim_size s) 1) as [H1|H1].
  - unfold transposedView. rewrite H1. reflexivity.
  - destruct trans_batch.
    + destruct (ends_decompose s H0 H1) as (a & mid & z & ->).
      rewrite transposedView_batch.
      transitivity (mid ++ [a; z]).
      * apply (Permutation_middle mid [z] a).
      * apply Permutation_app_head. destruct trans; [apply perm_swap|reflexivity].
    + destruct (matrix_decompose s H0 H1) as (b & m & k & ->).
      rewrite transposedView_plain.
      apply Permutation_app_head. destruct trans; [apply perm_swap|reflexivity].
Qed.

Lemma transposedView_permutation_witness :
  Permutation (known [3; 4; 5]) (transposedView (known [3; 4; 5]) true true).
Proof.
  apply (transposedView_permutation (known [3; 4; 5]) true true).
  vm_compute. discriminate.
Defined.

(** X2.  The four flags only permute the operands: on operands of rank at
    least 1, [infer] with any flags equals [infer] without flags on the
    two views. *)
Theorem infer_flags_as_views :
  forall (shapeA shapeB : TensorShapeProto) (tA tB tbA tbB : bool),
    dim_size shapeA <> 0 -> dim_size shapeB <> 0 ->
    infer (Some shapeA) (Some shapeB) tA tB tbA tbB
    = infer (Some (transposedView shapeA tA tbA)) (Some (transposedView shapeB tB tbB))
        false false false false.
Proof.
  intros A B tA tB tbA tbB HA HB.
  rewrite !infer_fusedOutcome, fusedOutcome_plain. unfold fusedOutcome.
  rewrite !transposedView_size, !transposedView_flag_of_vector by assumption.
  reflexivity.
Qed.

Lemma infer_flags_as_views_witness :
  infer (Some (known [3; 4; 5])) (Some (known [6; 3])) true true true false
  = infer (Some (transposedView (known [3; 4; 5]) true true))
          (Some (transposedView (known [6; 3]) true false))
      false false false false.
Proof.
  apply (infer_flags_as_views (known [3; 4; 5]) (known [6; 3]) true true true false);
    vm_compute; discriminate.
Defined.

(** X3.  The rank of an inferred shape: with operand ranks rA and rB it is
    max(max(rA,2), max(rB,2)), less one for each operand of rank 1. *)
Theorem infer_result_rank :
  forall (shapeA shapeB r : TensorShapeProto) (tA tB tbA tbB : bool),
    infer (Some shapeA) (Some shapeB) tA tB tbA tbB = InferredShape r ->
    dim_size r
    = Z.max (Z.max (dim_size shapeA) 2) (Z.max (dim_size shapeB) 2)
      - (if dim_size shapeA =? 1 then 1 else 0)
      - (if dim_size shapeB =? 1 then 1 else 0).
Proof.
  intros A B r tA tB tbA tbB. rewrite infer_fusedOutcome. unfold fusedOutcome.
  destruct (Z.eqb_spec (dim_size A) 0) as [|HA]; [discriminate|].
  destruct (Z.eqb_spec (dim_size B) 0) as [|HB]; [discriminate|].
  cbn [orb]. rewrite !transposedView_flag_of_vector.
  destruct (matmulResultShape _ _) as [e|r'] eqn:Hm; [discriminate|].
  intros [= <-].
  apply matmulResultShape_size in Hm; rewrite ?transposedView_size in *; assumption.
Qed.

Lemma infer_result_rank_witness :
  dim_size (known [8; 1; 6]) = 3.
Proof.
  apply (infer_result_rank (known [4]) (known [8; 1; 4; 6]) (known [8; 1; 6])
           false false false false).
  reflexivity.
Defined.

(** X4.  Every failure of [infer] carries one of three messages, so it is
    an InvalidRank or an IncompatibleDimensions failure and never a type
    error. *)
Theorem infer_failure_kinds :
  forall (shapeA shapeB : option TensorShapeProto) (tA tB tbA tbB : bool)
         (e : InferenceError),
    infer shapeA shapeB tA tB tbA tbB = Failure e ->
    (e = ShapeInferenceError "Input tensors of wrong rank (0)."
     \/ e = ShapeInferenceError "Incompatible dimensions for matrix multiplication"
     \/ e = ShapeInferenceError "Incompatible dimensions")
    /\ (error_kind e = InvalidRank \/ error_kind e = IncompatibleDimensions).
Proof.
  intros A B tA tB tbA tbB e. rewrite infer_fusedOutcome. unfold fusedOutcome.
  destruct A as [A|]; [|discriminate]. destruct B as [B|]; [|discriminate].
  destruct ((dim_size A =? 0) || (dim_size B =? 0)).
  - intros [= <-]. split; [now left|now left].
  - destruct (matmulResultShape _ _) as [e'|r] eqn:Hm; [|discriminate].
    intros [= <-].
    apply matmulResultShape_error in Hm as [[_ ->]|[_ ->]];
      (split; [tauto|now right]).
Qed.

Lemma infer_failure_kinds_witness :
  error_kind (ShapeInferenceError "Incompatible dimensions") = InvalidRank
  \/ error_kind (ShapeInferenceError "Incompatible dimensions") = IncompatibleDimensions.
Proof.
  apply (infer_failure_kinds (Some (known [2; 3; 4])) (Some (known [5; 4; 6]))
           false false false false).
  reflexivity.
Defined.

(** X5.  [infer] gives no result exactly when an input shape is not
    declared: with both shapes declared it either infers a shape or
    fails. *)
Theorem infer_no_result_iff :
  forall (shapeA shapeB : option TensorShapeProto) (tA tB tbA tbB : bool),
    infer shapeA shapeB tA tB tbA tbB = NoResult
    <-> (shapeA = None \/ shapeB = None).
Proof.
  intros A B tA tB tbA tbB. rewrite infer_fusedOutcome. unfold fusedOutcome.
  destruct A as [A|], B as [B|]; try (split; [intros _; tauto|reflexivity]).
  split.
  - destruct ((dim_size A =? 0) || (dim_size B =? 0)); [discriminate|].
    destruct (matmulResultShape _ _); discriminate.
  - intros [H|H]; discriminate H.
Qed.

(** X6.  A flag attribute is read through [static_cast<int>]: it counts as
    unset exactly when the attribute is absent or its value is a multiple
    of 2^32.  So [FusedMatMulShapeInference] on a node whose transA is a
    multiple of 2^32 infers what it infers without the flag. *)
Theorem attributeFlag_low_32_bits :
  (forall (ctx : InferenceContext) (name : string),
     attributeFlag ctx name = false
     <-> (getAttribute ctx name = None
          \/ exists v, getAttribute ctx name = Some v /\ v mod 4294967296 = 0))
  /\ (forall (q : Z) (shapeA shapeB : option TensorShapeProto),
        result_of (FusedMatMulShapeInference
                     (dense_node [("transA", 4294967296 * q)] shapeA shapeB))
        = infer shapeA shapeB false false false false).
Proof.
  assert (Hcast : forall v, static_cast_int v = 0 <-> v mod 4294967296 = 0).
  { intros v. unfold static_cast_int.
    pose proof (Z.mod_pos_bound (v + 2147483648) 4294967296 eq_refl) as Hb.
    split; intros H.
    - assert (Hm : (v + 2147483648) mod 4294967296 = 2147483648) by lia.
      replace v with ((v + 2147483648) - 2147483648) by lia.
      rewrite Zminus_mod, Hm. reflexivity.
    - replace (v + 2147483648) with (2147483648 + v) by lia.
      rewrite Zplus_mod, H. reflexivity. }
  split.
  - intros ctx name. unfold attributeFlag.
    destruct (getAttribute ctx name) as [v|].
    + rewrite negb_false_iff, Z.eqb_eq, Hcast. split.
      * intros H. right. now exists v.
      * intros [H|(v' & [= <-] & H)]; [discriminate|exact H].
    + split; [now left|reflexivity].
  - intros q A B.
    rewrite FusedMatMulShapeInference_infer by reflexivity.
    assert (HtA : attributeFlag (dense_node [("transA", 4294967296 * q)] A B) "transA"
                  = false).
    { unfold attributeFlag. cbn -[Z.mul static_cast_int Z.eqb].
      apply negb_false_iff, Z.eqb_eq, Hcast.
      rewrite Z.mul_comm. apply Z_mod_mult. }
    rewrite HtA. reflexivity.
Qed.

(** X7.  The sparse-times-dense inference reads none of the node's
    attributes: replacing them changes neither the way the call ends nor
    the output it leaves.  With transA set, A = [3,4] and B = [3,6] it
    fails on the contraction 4 against 3, where the fused matmul infers
    [4,6]. *)
Theorem sparse_inference_ignores_attributes :
  (forall (ctx : InferenceContext) (attrs : list (string * Z)),
     let ctx' := mkInferenceContext attrs (input0 ctx) (input1 ctx) (output0 ctx) in
     snd (SparseToDenseMatMul_TypeAndShapeInference ctx')
       = snd (SparseToDenseMatMul_TypeAndShapeInference ctx)
     /\ output0 (fst (SparseToDenseMatMul_TypeAndShapeInference ctx'))
        = output0 (fst (SparseToDenseMatMul_TypeAndShapeInference ctx)))
  /\ result_of (SparseToDenseMatMul_TypeAndShapeInference
                  (dense_node [("transA", 1)] (Some (known [3; 4])) (Some (known [3; 6]))))
     = Failure (ShapeInferenceError "Incompatible dimensions for matrix multiplication")
  /\ result_of (FusedMatMulShapeInference
                  (dense_node [("transA", 1)] (Some (known [3; 4])) (Some (known [3; 6]))))
     = InferredShape (known [4; 6]).
Proof.
  split; [|split; reflexivity].
  intros ctx attrs ctx'.
  unfold SparseToDenseMatMul_TypeAndShapeInference, propagateElemTypeFromInputToOutput.
  cbn [getInputType Z.eqb Pos.eqb andThen].
  unfold sparseCompatibleMatmulShapeInference.
  set (c1 := set_output0 ctx _). set (c1' := set_output0 ctx' _).
  change (getInputShape c1' 0) with (getInputShape c1 0).
  change (getInputShape c1' 1) with (getInputShape c1 1).
  change (getInputType c1' 1) with (getInputType c1 1).
  destruct (getInputShape c1 0) as [s0|]; [destruct (getInputShape c1 1) as [s1|]|];
    try (split; reflexivity).
  destruct ((dim_size s0 =? 0) || (dim_size s1 =? 0)); [split; reflexivity|].
  destruct (matmulResultShape s0 s1); split; reflexivity.
Qed.

(** ** The FusedGemm and MurmurHash3 inference *)

Section Gemm.

Lemma hasNInputShapes_2 (ctx : InferenceContext) :
  hasNInputShapes ctx 2
  = match getInputShape ctx 0, getInputShape ctx 1 with
    | Some _, Some _ => true
    | _, _ => false
    end.
Proof.
  unfold hasNInputShapes, hasInputShape. change (for_range 0 2) with [0; 1].
  cbn [forallb].
  destruct (getInputShape ctx 0), (getInputShape ctx 1); reflexivity.
Qed.

Lemma FusedGemm_unfold (ctx : InferenceContext) (first second : TensorShapeProto) :
  getInputShape ctx 0 = Some first -> getInputShape ctx 1 = Some second ->
  exists ctx1,
    output0 ctx1
      = mkTypeProto
          (match value_case (output0 ctx) with
           | VALUE_NOT_SET => value_case (input0 ctx)
           | c => c
           end)
          (elem_type (input0 ctx)) (shape (output0 ctx))
    /\ FusedGemm_TypeAndShapeInference ctx
       = if negb (dim_size first =? 2) then
           (ctx1, Thrown (ShapeInferenceError "First input does not have rank 2"))
         else if negb (dim_size second =? 2) then
           (ctx1, Thrown (ShapeInferenceError "Second input does not have rank 2"))
         else
           (updateOutputShape ctx1
              [dim first (if attributeFlag ctx "transA" then 1 else 0);
               dim second (if attributeFlag ctx "transB" then 0 else 1)]
              kTensorType,
            Returned).
Proof.
  intros H0 H1.
  unfold FusedGemm_TypeAndShapeInference, propagateElemTypeFromInputToOutput.
  cbn [getInputType Z.eqb andThen].
  set (ctx1 := set_output0 ctx _).
  exists ctx1. split; [reflexivity|].
  rewrite hasNInputShapes_2.
  change (getInputShape ctx1 0) with (getInputShape ctx 0).
  change (getInputShape ctx1 1) with (getInputShape ctx 1).
  change (attributeFlag ctx1) with (attributeFlag ctx).
  now rewrite H0, H1.
Qed.

End Gemm.

(** X8.  On two inputs of rank 2 the FusedGemm inference always succeeds
    and writes [A.dim(transA ? 1 : 0), B.dim(transB ? 0 : 1)]: it never
    compares the two inner dimensions.  Whenever the fused matmul inference
    infers a shape on the same node, it is this shape. *)
Theorem FusedGemm_rank2_shape :
  forall (ctx : InferenceContext) (a0 a1 b0 b1 : Dimension),
    getInputShape ctx 0 = Some [a0; a1] ->
    getInputShape ctx 1 = Some [b0; b1] ->
    let y := [if attributeFlag ctx "transA" then a1 else a0;
              if attributeFlag ctx "transB" then b0 else b1] in
    snd (FusedGemm_TypeAndShapeInference ctx) = Returned
    /\ shape (output0 (fst (FusedGemm_TypeAndShapeInference ctx))) = Some y
    /\ (forall r,
          shape (output0 ctx) = None ->
          result_of (FusedMatMulShapeInference ctx) = InferredShape r -> r = y).
Proof.
  intros ctx a0 a1 b0 b1 H0 H1 y.
  destruct (FusedGemm_unfold ctx _ _ H0 H1) as (ctx1 & Hout & ->).
  cbn [dim_size List.length Z.of_nat Pos.of_succ_nat Pos.succ Z.eqb Pos.eqb negb].
  split; [reflexivity|split].
  - cbn [fst updateOutputShape set_output0 output0 shape]. unfold y.
    now destruct (attributeFlag ctx "transA"), (attributeFlag ctx "transB").
  - intros r Hfresh. rewrite FusedMatMulShapeInference_infer by assumption.
    rewrite H0, H1, infer_fusedOutcome. unfold fusedOutcome.
    cbn [dim_size List.length Z.of_nat Pos.of_succ_nat Pos.succ Z.eqb Pos.eqb orb].
    rewrite !transposedView_rank2.
    set (va := if attributeFlag ctx "transA" then [a1; a0] else [a0; a1]).
    set (vb := if attributeFlag ctx "transB" then [b1; b0] else [b0; b1]).
    assert (Hm : forall m k k' n,
               match matmulResultShape [m; k] [k'; n] with
               | inl e => Failure e
               | inr s => InferredShape s
               end = InferredShape r -> r = [m; n]).
    { intros m k k' n.
      change [m; k] with ([] ++ [m; k]). change [k'; n] with ([] ++ [k'; n]).
      rewrite (matmulResultShape_matrices [] [] m k k' n).
      destruct (has_dim_value k && has_dim_value k'
                && negb (get_dim_value k =? get_dim_value k')); [discriminate|].
      cbn. now intros [= <-]. }
    unfold va, vb, y.
    destruct (attributeFlag ctx "transA"), (attributeFlag ctx "transB");
      apply Hm.
Qed.

Lemma FusedGemm_rank2_shape_witness :
  snd (FusedGemm_TypeAndShapeInference
         (dense_node [("transB", 1)] (Some (known [3; 4])) (Some (known [5; 6]))))
  = Returned
  /\ shape (output0 (fst (FusedGemm_TypeAndShapeInference
         (dense_node [("transB", 1)] (Some (known [3; 4])) (Some (known [5; 6]))))))
     = Some (known [3; 5]).
Proof.
  pose proof (FusedGemm_rank2_shape
                (dense_node [("transB", 1)] (Some (known [3; 4])) (Some (known [5; 6])))
                (dim_value 3) (dim_value 4) (dim_value 5) (dim_value 6)
                eq_refl eq_refl) as (H1 & H2 & _).
  split; [exact H1|exact H2].
Defined.

(** X9.  With both shapes declared, the FusedGemm inference fails with
    "First input does not have rank 2" whenever the first input's rank is
    not 2, also when the second one's is wrong as well, and with "Second
    input does not have rank 2" when only the second is off; when a shape
    is not declared it returns without writing a shape. *)
Theorem FusedGemm_rank_errors :
  forall ctx : InferenceContext,
    (forall first second,
       getInputShape ctx 0 = Some first -> getInputShape ctx 1 = Some second ->
       (dim_size first <> 2 ->
        snd (FusedGemm_TypeAndShapeInference ctx)
        = Thrown (ShapeInferenceError "First input does not have rank 2"))
       /\ (dim_size first = 2 -> dim_size second <> 2 ->
           snd (FusedGemm_TypeAndShapeInference ctx)
           = Thrown (ShapeInferenceError "Second input does not have rank 2")))
    /\ (getInputShape ctx 0 = None \/ getInputShape ctx 1 = None ->
        snd (FusedGemm_TypeAndShapeInference ctx) = Returned
        /\ shape (output0 (fst (FusedGemm_TypeAndShapeInference ctx)))
           = shape (output0 ctx)).
Proof.
  intros ctx. split.
  - intros first second H0 H1.
    destruct (FusedGemm_unfold ctx _ _ H0 H1) as (ctx1 & _ & ->).
    split.
    + intros Hr. apply Z.eqb_neq in Hr. now rewrite Hr.
    + intros Hr Hs. apply Z.eqb_eq in Hr. apply Z.eqb_neq in Hs.
      now rewrite Hr, Hs.
  - intros Hnone.
    unfold FusedGemm_TypeAndShapeInference, propagateElemTypeFromInputToOutput.
    cbn [getInputType Z.eqb andThen].
    set (ctx1 := set_output0 ctx _).
    rewrite hasNInputShapes_2.
    change (getInputShape ctx1 0) with (getInputShape ctx 0).
    change (getInputShape ctx1 1) with (getInputShape ctx 1).
    destruct Hnone as [-> | ->]; [now split|].
    destruct (getInputShape ctx 0); now split.
Qed.

Lemma FusedGemm_rank_errors_witness :
  snd (FusedGemm_TypeAndShapeInference
         (dense_node [] (Some (known [3; 4; 5])) (Some (known [5]))))
  = Thrown (ShapeInferenceError "First input does not have rank 2").
Proof.
  apply (proj1 (FusedGemm_rank_errors
                  (dense_node [] (Some (known [3; 4; 5])) (Some (known [5]))))
           (known [3; 4; 5]) (known [5]) eq_refl eq_refl).
  vm_compute. discriminate.
Defined.

(** X10.  The MurmurHash3 inference never fails and never reads the input
    element type: the output element type is UINT32 when the attribute
    [positive] is absent or equals 1 as a 32-bit int, and INT32 for every
    other value; the declared input shape, if any, becomes the output
    shape. *)
Theorem MurmurHash3_output_type :
  forall ctx : InferenceContext,
    let r := MurmurHash3_TypeAndShapeInference ctx in
    snd r = Returned
    /\ elem_type (output0 (fst r))
       = match getAttribute ctx "positive" with
         | None => TensorProto_UINT32
         | Some i => if static_cast_int i =? 1 then TensorProto_UINT32
                     else TensorProto_INT32
         end
    /\ value_case (output0 (fst r)) = kTensorType
    /\ (forall s, getInputShape ctx 0 = Some s -> shape (output0 (fst r)) = Some s).
Proof.
  intros ctx r. unfold r, MurmurHash3_TypeAndShapeInference.
  set (is_positive := match getAttribute ctx "positive" with
                      | Some i => static_cast_int i =? 1
                      | None => true
                      end).
  set (ctx1 := set_output0 ctx _).
  change (getInputShape ctx1 0) with (getInputShape ctx 0).
  assert (Hty : (if is_positive then TensorProto_UINT32 else TensorProto_INT32)
                = match getAttribute ctx "positive" with
                  | None => TensorProto_UINT32
                  | Some i => if static_cast_int i =? 1 then TensorProto_UINT32
                              else TensorProto_INT32
                  end).
  { unfold is_positive. now destruct (getAttribute ctx "positive"). }
  assert (Hout : elem_type (output0 ctx1)
                 = (if is_positive then TensorProto_UINT32 else TensorProto_INT32)
                 /\ value_case (output0 ctx1) = kTensorType).
  { unfold ctx1, set_tensor_elem_type. cbn [output0 set_output0].
    destruct (value_case (output0 ctx)); split; reflexivity. }
  destruct Hout as [Het Hvc].
  destruct (getInputShape ctx 0) as [s|].
  - cbn [fst snd updateOutputShape set_output0 output0 elem_type value_case shape].
    rewrite Hvc, Het, Hty. repeat split. now intros s' [= <-].
  - cbn [fst snd]. rewrite Het, Hty, Hvc. repeat split. discriminate.
Qed.

(** ** Loops over a range of indices *)

Section Loops.

Lemma for_range_nil (a b : Z) : b <= a -> for_range a b = [].
Proof.
  intros H. unfold for_range. replace (Z.to_nat (b - a)) with 0%nat by lia.
  reflexivity.
Qed.

Lemma for_range_cons (a b : Z) : a < b -> for_range a b = a :: for_range (a + 1) b.
Proof.
  intros H. unfold for_range.
  replace (Z.to_nat (b - a)) with (S (Z.to_nat (b - (a + 1)))) by lia.
  cbn [seq map]. f_equal; [lia|].
  rewrite <- seq_shift, map_map. apply map_ext. intros k. lia.
Qed.

Lemma for_range_shift (g : Z -> Dimension) (a b : Z) :
  map (fun i => g (i - 1)) (for_range (a + 1) (b + 1)) = map g (for_range a b).
Proof.
  unfold for_range. rewrite !map_map.
  replace (b + 1 - (a + 1)) with (b - a) by lia.
  apply map_ext. intros k. f_equal. lia.
Qed.

Lemma copy_firstn (s : TensorShapeProto) (n : Z) :
  0 <= n <= dim_size s -> map (dim s) (for_range 0 n) = firstn (Z.to_nat n) s.
Proof.
  intros Hn.
  rewrite <- (firstn_skipn (Z.to_nat n) s) at 1.
  apply copy_prefix. unfold dim_size in *. rewrite length_firstn. lia.
Qed.

Lemma copy_skipn (s : TensorShapeProto) (n : Z) :
  0 <= n <= dim_size s ->
  map (dim s) (for_range n (dim_size s)) = skipn (Z.to_nat n) s.
Proof.
  intros Hn.
  pose proof (copy_range (firstn (Z.to_nat n) s) (skipn (Z.to_nat n) s) []) as H.
  rewrite app_nil_r, firstn_skipn in H.
  assert (Hp : dim_size (firstn (Z.to_nat n) s) = n).
  { unfold dim_size in *. rewrite length_firstn. lia. }
  assert (Hq : dim_size (skipn (Z.to_nat n) s) = dim_size s - n).
  { unfold dim_size in *. rewrite length_skipn. lia. }
  rewrite Hp, Hq in H. now replace (n + (dim_size s - n)) with (dim_size s) in H by lia.
Qed.

Lemma fold_left_indexed {A : Type} (f : A -> Dimension -> A) (g : Z -> Dimension)
    (l : list Z) (a : A) :
  fold_left (fun y i => f y (g i)) l a = fold_left f (map g l) a.
Proof.
  revert a. induction l as [|i l IH]; intros a; [reflexivity|]. cbn. apply IH.
Qed.

Lemma fold_add_output_dim (ds : list Dimension) (y : TypeProto) :
  value_case y = kTensorType ->
  fold_left add_output_dim ds y
  = match ds with
    | [] => y
    | _ => mkTypeProto kTensorType (elem_type y) (Some (held_shape y ++ ds))
    end.
Proof.
  revert y. induction ds as [|d ds IH]; intros y Hy; [reflexivity|].
  cbn [fold_left].
  assert (Hstep : add_output_dim y d
                  = mkTypeProto kTensorType (elem_type y) (Some (held_shape y ++ [d]))).
  { unfold add_output_dim, held_shape. now rewrite Hy. }
  rewrite Hstep, IH by reflexivity.
  destruct ds as [|d' ds]; [reflexivity|].
  cbn [elem_type held_shape shape]. now rewrite <- app_assoc.
Qed.

Lemma wrap_int64_small (v : Z) :
  - 9223372036854775808 <= v < 9223372036854775808 -> wrap_int64 v = v.
Proof.
  intros H. unfold wrap_int64. rewrite Z.mod_small; lia.
Qed.

Lemma static_cast_int_small (v : Z) :
  - 2147483648 <= v < 2147483648 -> static_cast_int v = v.
Proof.
  intros H. unfold static_cast_int. rewrite Z.mod_small; lia.
Qed.

End Loops.

(** ** The GatherND inference *)

Section CheckedLoops.

Lemma checked_dim_in_range (s : TensorShapeProto) (i : Z) :
  0 <= i < dim_size s -> checked_dim s i = Some (dim s i).
Proof.
  intros H. unfold checked_dim.
  destruct (Z.leb_spec 0 i); [|lia].
  destruct (Z.ltb_spec i (dim_size s)); [reflexivity|lia].
Qed.

Lemma checked_dim_negative (s : TensorShapeProto) (i : Z) :
  i < 0 -> checked_dim s i = None.
Proof.
  intros H. unfold checked_dim. destruct (Z.leb_spec 0 i); [lia|reflexivity].
Qed.

Lemma for_range_In (a b i : Z) : In i (for_range a b) -> a <= i < b.
Proof.
  unfold for_range. rewrite in_map_iff. intros [k [<- Hk]].
  apply in_seq in Hk. lia.
Qed.

Lemma append_dim_of_faulted (src : TensorShapeProto) (l : list Z) :
  fold_left (append_dim_of src) l None = None.
Proof.
  induction l as [|i l IH]; [reflexivity|exact IH].
Qed.

(** A loop whose reads are all inside the shape appends what it reads. *)
Lemma append_dim_of_in_range (src : TensorShapeProto) (l : list Z) :
  forall y : TypeProto,
    (forall i, In i l -> 0 <= i < dim_size src) ->
    fold_left (append_dim_of src) l (Some y)
    = Some (fold_left add_output_dim (map (dim src) l) y).
Proof.
  induction l as [|i l IH]; intros y Hin; [reflexivity|].
  cbn [fold_left map]. unfold append_dim_of at 2.
  rewrite checked_dim_in_range by (apply Hin; now left).
  apply IH. intros j Hj. apply Hin. now right.
Qed.

(** The run of GatherND once both input shapes are declared. *)
Lemma GatherND_run (ctx : InferenceContext) :
  hasNInputShapes ctx 2 = true ->
  let data_shape := tensor_type_shape (input0 ctx) in
  let indices_shape := tensor_type_shape (input1 ctx) in
  let L := get_dim_value (dim indices_shape (dim_size indices_shape - 1)) in
  let ctx1 := fst (propagateElemTypeFromInputToOutput ctx 0) in
  GatherND_TypeAndShapeInference ctx
  = if (dim_size data_shape <? 1) || (dim_size indices_shape <? 1) then
      Some (ctx1, Thrown (ShapeInferenceError
        "both data and indices tensor need to have rank larger than zero."))
    else if L >? dim_size data_shape then
      Some (ctx1, Thrown (ShapeInferenceError
        "last dimension of indices must not be larger and rank of data tensor"))
    else
      match fold_left (append_dim_of data_shape)
              (for_range (static_cast_int L) (dim_size data_shape))
              (Some (fold_left add_output_dim
                       (map (dim indices_shape)
                          (for_range 0 (dim_size indices_shape - 1)))
                       (output0 ctx1))) with
      | None => None
      | Some y_type => Some (set_output0 ctx1 y_type, Returned)
      end.
Proof.
  intros Hn data_shape indices_shape L ctx1.
  unfold GatherND_TypeAndShapeInference.
  unfold propagateElemTypeFromInputToOutput in *.
  cbn [getInputType Z.eqb andThenChecked fst] in *.
  fold ctx1.
  assert (Hn1 : hasNInputShapes ctx1 2 = true).
  { rewrite hasNInputShapes_2 in *. exact Hn. }
  rewrite Hn1. cbn [negb].
  change (input0 ctx1) with (input0 ctx). change (input1 ctx1) with (input1 ctx).
  fold data_shape. fold indices_shape.
  destruct (Z.ltb_spec (dim_size data_shape) 1); [reflexivity|].
  destruct (Z.ltb_spec (dim_size indices_shape) 1); [reflexivity|]. cbn [orb].
  rewrite checked_dim_in_range by lia. fold L.
  destruct (L >? dim_size data_shape); [reflexivity|].
  rewrite (append_dim_of_in_range indices_shape); [reflexivity|].
  intros i Hi. apply for_range_In in Hi. lia.
Qed.

End CheckedLoops.

(** X11.  GatherND on a dense data tensor of rank r >= 1 and dense indices
    [idx..., l], whose last dimension reads as L (0 when it is unknown)
    with 0 <= L <= r: the call returns, and the dimensions idx followed by
    data[L..r-1], q - 1 + r - L of them, are appended to the shape output
    0 already holds; when there are none to append (q = 1 and L = r) the
    output shape is left as it was, undeclared if it was undeclared. *)
Theorem GatherND_output_shape :
  forall (ctx : InferenceContext) (data idx : TensorShapeProto) (l : Dimension),
    value_case (input0 ctx) = kTensorType -> shape (input0 ctx) = Some data ->
    value_case (input1 ctx) = kTensorType -> shape (input1 ctx) = Some (idx ++ [l]) ->
    value_case (output0 ctx) <> kSparseTensorType ->
    1 <= dim_size data < 2147483648 ->
    0 <= get_dim_value l <= dim_size data ->
    let appended := idx ++ skipn (Z.to_nat (get_dim_value l)) data in
    exists run : Run,
      GatherND_TypeAndShapeInference ctx = Some run
      /\ snd run = Returned
      /\ shape (output0 (fst run))
         = match appended with
           | [] => shape (output0 ctx)
           | _ => Some (held_shape (output0 ctx) ++ appended)
           end
      /\ dim_size appended
         = dim_size (idx ++ [l]) - 1 + dim_size data - get_dim_value l.
Proof.
  intros ctx data idx l Hv0 Hs0 Hv1 Hs1 Hout Hr HL appended.
  assert (Hsize : dim_size appended
                  = dim_size (idx ++ [l]) - 1 + dim_size data - get_dim_value l).
  { unfold appended. rewrite !dim_size_app. unfold dim_size.
    rewrite length_skipn. cbn [List.length]. unfold dim_size in HL. lia. }
  assert (Hn : hasNInputShapes ctx 2 = true).
  { rewrite hasNInputShapes_2. unfold getInputShape.
    cbn [getInputType Z.eqb Pos.eqb]. now rewrite Hv0, Hv1, Hs0, Hs1. }
  rewrite (GatherND_run ctx Hn).
  unfold propagateElemTypeFromInputToOutput. cbn [getInputType Z.eqb fst].
  set (ctx1 := set_output0 ctx _).
  unfold tensor_type_shape. rewrite Hv0, Hv1, Hs0, Hs1.
  pose proof (dim_size_nonneg idx) as Hq.
  assert (Hqs : dim_size (idx ++ [l]) = dim_size idx + 1).
  { rewrite dim_size_app. reflexivity. }
  rewrite Hqs.
  destruct (Z.ltb_spec (dim_size data) 1); [lia|].
  destruct (Z.ltb_spec (dim_size idx + 1) 1); [lia|]. cbn [orb].
  replace (dim_size idx + 1 - 1) with (dim_size idx + 0) by lia.
  rewrite dim_app_r by lia. change (dim [l] 0) with l.
  destruct (Z.gtb_spec (get_dim_value l) (dim_size data)); [lia|].
  rewrite static_cast_int_small by lia.
  rewrite append_dim_of_in_range
    by (intros i Hi; apply for_range_In in Hi; lia).
  rewrite <- fold_left_app.
  rewrite Z.add_0_r, (copy_prefix idx [l]) by reflexivity.
  rewrite copy_skipn by lia. fold appended.
  assert (Hvc : value_case (output0 ctx1) = kTensorType).
  { unfold ctx1. cbn [output0 set_output0 value_case]. rewrite Hv0.
    destruct (value_case (output0 ctx)); [reflexivity|contradiction|reflexivity]. }
  rewrite fold_add_output_dim by exact Hvc.
  eexists. split; [reflexivity|].
  split; [reflexivity|split; [|rewrite Hsize, Hqs; lia]].
  destruct appended; reflexivity.
Qed.

Lemma GatherND_output_shape_witness :
  exists run : Run,
    GatherND_TypeAndShapeInference
      (dense_node [] (Some (known [2; 3; 4])) (Some (known [5; 6] ++ [dim_value 2])))
    = Some run
    /\ snd run = Returned
    /\ shape (output0 (fst run)) = Some (known [5; 6; 4]).
Proof.
  destruct (GatherND_output_shape
              (dense_node [] (Some (known [2; 3; 4])) (Some (known [5; 6] ++ [dim_value 2])))
              (known [2; 3; 4]) (known [5; 6]) (dim_value 2)
              eq_refl eq_refl eq_refl eq_refl) as [run [Hrun [Hret [Hshape _]]]].
  - discriminate.
  - vm_compute. split; [discriminate|reflexivity].
  - vm_compute. split; discriminate.
  - exists run. split; [exact Hrun|split; [exact Hret|exact Hshape]].
Defined.

(** X12.  GatherND with both input shapes declared, data rank r, indices
    rank q and last indices dimension L (0 when it is unknown).  A rank 0
    on either side is the first failure and L > r the second; an input of
    sparse tensor kind reads as rank 0 and so always fails.  A negative L
    passes both checks, and the second loop then reads the data shape at
    the index L, outside the shape.  So for r and L in the range of [int],
    the call returns exactly when 1 <= r, 1 <= q and 0 <= L <= r. *)
Theorem GatherND_failures :
  forall ctx : InferenceContext,
    hasNInputShapes ctx 2 = true ->
    let data_shape := tensor_type_shape (input0 ctx) in
    let indices_shape := tensor_type_shape (input1 ctx) in
    let L := get_dim_value (dim indices_shape (dim_size indices_shape - 1)) in
    let rank_error := ShapeInferenceError
      "both data and indices tensor need to have rank larger than zero." in
    let index_error := ShapeInferenceError
      "last dimension of indices must not be larger and rank of data tensor" in
    (dim_size data_shape < 2147483648 -> - 2147483648 <= L ->
     (option_map snd (GatherND_TypeAndShapeInference ctx) = Some Returned
      <-> (1 <= dim_size data_shape /\ 1 <= dim_size indices_shape
           /\ 0 <= L <= dim_size data_shape)))
    /\ (dim_size data_shape < 1 \/ dim_size indices_shape < 1 ->
        option_map snd (GatherND_TypeAndShapeInference ctx) = Some (Thrown rank_error))
    /\ (1 <= dim_size data_shape -> 1 <= dim_size indices_shape ->
        dim_size data_shape < L ->
        option_map snd (GatherND_TypeAndShapeInference ctx) = Some (Thrown index_error))
    /\ (value_case (input0 ctx) = kSparseTensorType
        \/ value_case (input1 ctx) = kSparseTensorType ->
        option_map snd (GatherND_TypeAndShapeInference ctx) = Some (Thrown rank_error))
    /\ (1 <= dim_size data_shape -> 1 <= dim_size indices_shape ->
        - 2147483648 <= L < 0 ->
        GatherND_TypeAndShapeInference ctx = None).
Proof.
  intros ctx Hn data_shape indices_shape L rank_error index_error.
  rewrite (GatherND_run ctx Hn).
  fold data_shape. fold indices_shape. fold L. fold rank_error. fold index_error.
  set (ctx1 := fst (propagateElemTypeFromInputToOutput ctx 0)).
  set (y1 := fold_left add_output_dim _ (output0 ctx1)).
  assert (Hsparse : value_case (input0 ctx) = kSparseTensorType
                    \/ value_case (input1 ctx) = kSparseTensorType ->
                    dim_size data_shape < 1 \/ dim_size indices_shape < 1).
  { unfold data_shape, indices_shape, tensor_type_shape.
    intros [H|H]; [left|right]; rewrite H; cbn; lia. }
  assert (Hrank : dim_size data_shape < 1 \/ dim_size indices_shape < 1 ->
                  (dim_size data_shape <? 1) || (dim_size indices_shape <? 1) = true).
  { intros H. apply orb_true_iff. rewrite !Z.ltb_lt. exact H. }
  assert (Hneg : - 2147483648 <= L < 0 -> 1 <= dim_size data_shape ->
                 fold_left (append_dim_of data_shape)
                   (for_range (static_cast_int L) (dim_size data_shape)) (Some y1)
                 = None).
  { intros HL Hd. rewrite static_cast_int_small by lia.
    rewrite for_range_cons by lia. cbn [fold_left].
    unfold append_dim_of at 2. rewrite checked_dim_negative by lia.
    apply append_dim_of_faulted. }
  assert (Hpos : 0 <= L <= dim_size data_shape -> dim_size data_shape < 2147483648 ->
                 exists y, fold_left (append_dim_of data_shape)
                             (for_range (static_cast_int L) (dim_size data_shape)) (Some y1)
                           = Some y).
  { intros HL Hd. rewrite static_cast_int_small by lia.
    rewrite append_dim_of_in_range
      by (intros i Hi; apply for_range_In in Hi; lia).
    eexists. reflexivity. }
  split; [|split; [|split; [|split]]].
  - intros Hint HL.
    destruct (Z.ltb_spec (dim_size data_shape) 1);
      destruct (Z.ltb_spec (dim_size indices_shape) 1); cbn [orb option_map snd];
      try (split; [discriminate|lia]).
    destruct (Z.gtb_spec L (dim_size data_shape));
      [cbn [option_map snd]; split; [discriminate|lia]|].
    destruct (Z.ltb_spec L 0) as [Hlt|Hge].
    + rewrite Hneg by lia. cbn [option_map]. split; [discriminate|lia].
    + destruct Hpos as [y Hy]; [lia|lia|]. rewrite Hy. cbn [option_map snd].
      split; [lia|reflexivity].
  - intros H. now rewrite (Hrank H).
  - intros Hd Hi HL.
    destruct (Z.ltb_spec (dim_size data_shape) 1); [lia|].
    destruct (Z.ltb_spec (dim_size indices_shape) 1); [lia|]. cbn [orb].
    destruct (Z.gtb_spec L (dim_size data_shape)); [reflexivity|lia].
  - intros H. now rewrite (Hrank (Hsparse H)).
  - intros Hd Hi HL.
    destruct (Z.ltb_spec (dim_size data_shape) 1); [lia|].
    destruct (Z.ltb_spec (dim_size indices_shape) 1); [lia|]. cbn [orb].
    destruct (Z.gtb_spec L (dim_size data_shape)); [lia|].
    now rewrite Hneg by lia.
Qed.

Lemma GatherND_failures_witness :
  GatherND_TypeAndShapeInference
    (dense_node [] (Some (known [2; 3])) (Some (known [5; -1])))
  = None.
Proof.
  apply (GatherND_failures
           (dense_node [] (Some (known [2; 3])) (Some (known [5; -1]))) eq_refl);
    vm_compute; [discriminate|discriminate|split; [discriminate|reflexivity]].
Defined.

(** ** The Tokenizer inference *)

Section TokenizerSize.

Let step_wrap (size : Z) (d : Dimension) : Z :=
  if has_dim_value d then wrap_int64 (size * get_dim_value d) else size.

Let step_exact (size : Z) (d : Dimension) : Z :=
  if has_dim_value d then size * get_dim_value d else size.

Lemma product_grows (dims : TensorShapeProto) (acc : Z) :
  0 < acc ->
  (forall d, In d dims -> has_dim_value d = true -> 0 < get_dim_value d) ->
  acc <= fold_left step_exact dims acc.
Proof.
  revert acc. induction dims as [|d dims IH]; intros acc Hacc Hpos; [cbn; lia|].
  cbn [fold_left]. unfold step_exact at 2.
  destruct (has_dim_value d) eqn:Hd.
  - assert (0 < get_dim_value d) by (apply Hpos; [now left|exact Hd]).
    etransitivity; [|apply IH; [nia|intros; apply Hpos; [now right|assumption]]].
    nia.
  - apply IH; [exact Hacc|intros; apply Hpos; [now right|assumption]].
Qed.

Lemma size_exact (dims : TensorShapeProto) (acc : Z) :
  0 < acc ->
  (forall d, In d dims -> has_dim_value d = true -> 0 < get_dim_value d) ->
  fold_left step_exact dims acc < 9223372036854775808 ->
  fold_left step_wrap dims acc = fold_left step_exact dims acc.
Proof.
  revert acc. induction dims as [|d dims IH]; intros acc Hacc Hpos Hbound;
    [reflexivity|].
  cbn [fold_left] in *. unfold step_wrap at 2. unfold step_exact at 2 in Hbound.
  unfold step_exact at 2.
  assert (Hpos' : forall d', In d' dims -> has_dim_value d' = true -> 0 < get_dim_value d').
  { intros; apply Hpos; [now right|assumption]. }
  destruct (has_dim_value d) eqn:Hd.
  - assert (0 < get_dim_value d) by (apply Hpos; [now left|exact Hd]).
    assert (0 < acc * get_dim_value d) by nia.
    pose proof (product_grows dims (acc * get_dim_value d) H0 Hpos').
    rewrite wrap_int64_small by lia.
    now apply IH.
  - now apply IH.
Qed.

Lemma known_size_exact (dims : TensorShapeProto) :
  (forall d, In d dims -> has_dim_value d = true -> 0 < get_dim_value d) ->
  known_product dims < 9223372036854775808 ->
  known_size dims = known_product dims /\ 0 < known_product dims.
Proof.
  intros Hpos Hbound. split.
  - apply (size_exact dims 1); [lia|exact Hpos|exact Hbound].
  - pose proof (product_grows dims 1 ltac:(lia) Hpos). unfold known_product.
    fold step_exact. lia.
Qed.

Lemma size_stays_zero (dims : TensorShapeProto) :
  fold_left step_wrap dims 0 = 0.
Proof.
  induction dims as [|d dims IH]; [reflexivity|].
  cbn [fold_left]. unfold step_wrap at 2.
  destruct (has_dim_value d); exact IH.
Qed.

Lemma known_size_empty (dims : TensorShapeProto) :
  In (dim_value 0) dims -> known_size dims = 0.
Proof.
  unfold known_size. fold step_wrap. generalize 1 as acc.
  induction dims as [|d dims IH]; intros acc Hin; [contradiction|].
  cbn [fold_left]. destruct Hin as [->|Hin].
  - unfold step_wrap at 2. cbn [has_dim_value get_dim_value].
    rewrite Z.mul_0_r. apply size_stays_zero.
  - now apply IH.
Qed.

End TokenizerSize.

Section TokenizerRun.

Lemma Tokenizer_unfold (ctx : InferenceContext) (dims : TensorShapeProto) :
  getInputShape ctx 0 = Some dims ->
  snd (Tokenizer_TypeAndShapeInference ctx)
    = (if (dim_size dims <? 1) || (dim_size dims >? 2) then
         Thrown (ShapeInferenceError
           "Input dimensions are either [C] or [N][C] allowed")
       else Returned)
  /\ ((dim_size dims <? 1) || (dim_size dims >? 2) = false ->
      shape (output0 (fst (Tokenizer_TypeAndShapeInference ctx)))
      = Some (if known_size dims >? 0 then dims ++ [dim_unset]
              else if known_size dims =? 0 then
                (if dim_size dims =? 2 then [dim dims 0] else []) ++ [dim_value 0]
              else [])).
Proof.
  intros H0.
  unfold Tokenizer_TypeAndShapeInference, propagateElemTypeFromInputToOutput.
  cbn [getInputType Z.eqb andThen].
  set (ctx1 := set_output0 ctx _).
  change (getInputShape ctx1 0) with (getInputShape ctx 0). rewrite H0.
  destruct ((dim_size dims <? 1) || (dim_size dims >? 2)).
  - split; [reflexivity|discriminate].
  - split; [reflexivity|]. intros _. reflexivity.
Qed.

End TokenizerRun.

(** X13.  The Tokenizer inference fails exactly when the declared input
    shape has a rank other than 1 or 2; without a declared shape it
    returns. *)
Theorem Tokenizer_rank_guard :
  forall ctx : InferenceContext,
    (forall dims,
       getInputShape ctx 0 = Some dims ->
       (snd (Tokenizer_TypeAndShapeInference ctx)
        = Thrown (ShapeInferenceError
            "Input dimensions are either [C] or [N][C] allowed")
        <-> (dim_size dims <> 1 /\ dim_size dims <> 2))
       /\ (snd (Tokenizer_TypeAndShapeInference ctx) = Returned
           <-> (dim_size dims = 1 \/ dim_size dims = 2)))
    /\ (getInputShape ctx 0 = None ->
        snd (Tokenizer_TypeAndShapeInference ctx) = Returned).
Proof.
  intros ctx. split.
  - intros dims H0. destruct (Tokenizer_unfold ctx dims H0) as [-> _].
    destruct (Z.ltb_spec (dim_size dims) 1); destruct (Z.gtb_spec (dim_size dims) 2);
      cbn [orb]; (split; split; intros; try discriminate; try reflexivity; lia).
  - intros H0.
    unfold Tokenizer_TypeAndShapeInference, propagateElemTypeFromInputToOutput.
    cbn [getInputType Z.eqb andThen].
    set (ctx1 := set_output0 ctx _).
    change (getInputShape ctx1 0) with (getInputShape ctx 0). now rewrite H0.
Qed.

(** X14.  For an input [C] or [N][C] whose known dimensions are all
    positive, with a product below 2^63, the Tokenizer output is the input
    shape followed by one unknown dimension. *)
Theorem Tokenizer_nonempty_input :
  forall (ctx : InferenceContext) (dims : TensorShapeProto),
    getInputShape ctx 0 = Some dims ->
    dim_size dims = 1 \/ dim_size dims = 2 ->
    (forall d, In d dims -> has_dim_value d = true -> 0 < get_dim_value d) ->
    known_product dims < 9223372036854775808 ->
    snd (Tokenizer_TypeAndShapeInference ctx) = Returned
    /\ shape (output0 (fst (Tokenizer_TypeAndShapeInference ctx)))
       = Some (dims ++ [dim_unset]).
Proof.
  intros ctx dims H0 Hrank Hpos Hbound.
  destruct (Tokenizer_unfold ctx dims H0) as [Hrun Hshape].
  assert (Hguard : (dim_size dims <? 1) || (dim_size dims >? 2) = false).
  { destruct (Z.ltb_spec (dim_size dims) 1); [lia|].
    destruct (Z.gtb_spec (dim_size dims) 2); [lia|reflexivity]. }
  destruct (known_size_exact dims Hpos Hbound) as [Hsize Hpositive].
  rewrite Hrun, (Hshape Hguard), Hguard, Hsize.
  destruct (Z.gtb_spec (known_product dims) 0); [now split|lia].
Qed.

Lemma Tokenizer_nonempty_input_witness :
  shape (output0 (fst (Tokenizer_TypeAndShapeInference
           (dense_node [] (Some [dim_param "N"; dim_value 7]) None))))
  = Some [dim_param "N"; dim_value 7; dim_unset].
Proof.
  apply (Tokenizer_nonempty_input
           (dense_node [] (Some [dim_param "N"; dim_value 7]) None)
           [dim_param "N"; dim_value 7] eq_refl).
  - right. reflexivity.
  - intros d [<-|[<-|[]]]; cbn; [discriminate|lia].
  - reflexivity.
Defined.

(** X15.  For an input [C] or [N][C] with a dimension known to be 0 the
    Tokenizer output keeps the rank: [0] for [C], and [N, 0] for [N][C],
    where N is the first input dimension, whichever dimension was 0. *)
Theorem Tokenizer_empty_input :
  forall (ctx : InferenceContext) (dims : TensorShapeProto),
    getInputShape ctx 0 = Some dims ->
    dim_size dims = 1 \/ dim_size dims = 2 ->
    In (dim_value 0) dims ->
    snd (Tokenizer_TypeAndShapeInference ctx) = Returned
    /\ shape (output0 (fst (Tokenizer_TypeAndShapeInference ctx)))
       = Some (if dim_size dims =? 2 then [dim dims 0; dim_value 0]
               else [dim_value 0]).
Proof.
  intros ctx dims H0 Hrank Hzero.
  destruct (Tokenizer_unfold ctx dims H0) as [Hrun Hshape].
  assert (Hguard : (dim_size dims <? 1) || (dim_size dims >? 2) = false).
  { destruct (Z.ltb_spec (dim_size dims) 1); [lia|].
    destruct (Z.gtb_spec (dim_size dims) 2); [lia|reflexivity]. }
  rewrite Hrun, (Hshape Hguard), Hguard, (known_size_empty dims Hzero).
  split; [reflexivity|]. cbn [Z.gtb Z.compare Z.eqb].
  now destruct (dim_size dims =? 2).
Qed.

Lemma Tokenizer_empty_input_witness :
  shape (output0 (fst (Tokenizer_TypeAndShapeInference
           (dense_node [] (Some [dim_value 0; dim_param "C"]) None))))
  = Some [dim_value 0; dim_value 0].
Proof.
  apply (Tokenizer_empty_input
           (dense_node [] (Some [dim_value 0; dim_param "C"]) None)
           [dim_value 0; dim_param "C"] eq_refl).
  - right. reflexivity.
  - left. reflexivity.
Defined.

Lemma Tokenizer_rank_guard_witness :
  snd (Tokenizer_TypeAndShapeInference (dense_node [] (Some (known [2; 3; 4])) None))
  = Thrown (ShapeInferenceError "Input dimensions are either [C] or [N][C] allowed").
Proof.
  apply (proj1 (Tokenizer_rank_guard (dense_node [] (Some (known [2; 3; 4])) None))
           (known [2; 3; 4]) eq_refl).
  vm_compute. split; discriminate.
Defined.

Lemma MurmurHash3_output_type_witness :
  shape (output0 (fst (MurmurHash3_TypeAndShapeInference
           (dense_node [("positive", 2)] (Some (known [3; 4])) None))))
  = Some (known [3; 4]).
Proof.
  apply (MurmurHash3_output_type
           (dense_node [("positive", 2)] (Some (known [3; 4])) None)).
  reflexivity.
Defined.

(** ** The ExpandDims and Inverse inference *)

Section ExpandDims.

Lemma set_nth_last (s : TensorShapeProto) (x d : Dimension) :
  set_nth (s ++ [x]) (List.length s) d = s ++ [d].
Proof.
  induction s as [|y s IH]; [reflexivity|]. cbn. now rewrite IH.
Qed.

Lemma set_dim_add_dim (s : TensorShapeProto) (i : Z) (d : Dimension) :
  i = dim_size s -> set_dim (add_dim s) i d = s ++ [d].
Proof.
  intros ->. unfold set_dim, add_dim, dim_size.
  destruct (Z.ltb_spec (Z.of_nat (List.length s)) 0); [lia|].
  rewrite Nat2Z.id. apply set_nth_last.
Qed.

(** Assigning the dimension that was just added is inside the shape. *)
Lemma checked_set_dim_add_dim (s : TensorShapeProto) (i : Z) (d : Dimension) :
  i = dim_size s -> checked_set_dim (add_dim s) i d = @Some TensorShapeProto (s ++ [d]).
Proof.
  intros Hi. unfold checked_set_dim.
  rewrite set_dim_add_dim by exact Hi. subst i.
  unfold add_dim. rewrite dim_size_app. change (dim_size [dim_unset]) with 1.
  pose proof (dim_size_nonneg s).
  destruct (Z.leb_spec 0 (dim_size s)); [|lia].
  destruct (Z.ltb_spec (dim_size s) (dim_size s + 1)); [reflexivity|lia].
Qed.

Lemma checked_set_dim_negative (s : TensorShapeProto) (i : Z) (d : Dimension) :
  i < 0 -> checked_set_dim s i d = None.
Proof.
  intros H. unfold checked_set_dim. destruct (Z.leb_spec 0 i); [lia|reflexivity].
Qed.

Lemma add_and_assign_faulted (read : Z -> option Dimension) (l : list Z) :
  fold_left (add_and_assign read) l None = None.
Proof.
  induction l as [|i l IH]; [reflexivity|exact IH].
Qed.

(** A loop that adds a dimension and assigns it, index after index,
    appends the assigned dimensions when every read is inside its shape. *)
Lemma append_loop (read : Z -> option Dimension) (g : Z -> Dimension) (n : nat) :
  forall (s : TensorShapeProto) (a b : Z),
    Z.to_nat (b - a) = n -> a = dim_size s ->
    (forall i, a <= i < b -> read i = Some (g i)) ->
    fold_left (add_and_assign read) (for_range a b) (Some s)
    = @Some TensorShapeProto (s ++ map g (for_range a b)).
Proof.
  induction n as [|n IH]; intros s a b Hn Ha Hread.
  - rewrite for_range_nil by lia. cbn. now rewrite app_nil_r.
  - rewrite for_range_cons by lia. cbn [fold_left map].
    unfold add_and_assign at 2. rewrite Hread by lia.
    rewrite checked_set_dim_add_dim by exact Ha.
    rewrite IH; [now rewrite <- app_assoc|lia| |intros i Hi; apply Hread; lia].
    rewrite dim_size_app. change (dim_size [g a]) with 1. lia.
Qed.

(** The run of ExpandDims on a declared shape and an initializer that holds
    an axis inside the accepted range. *)
Lemma ExpandDims_run (ctx : InferenceContext) (input_shape : TensorShapeProto)
    (initializer : TensorProto) (axis : Z) (rest : list Z) :
  getInputShape ctx 0 = Some input_shape ->
  int32_data initializer = axis :: rest ->
  let rank := dim_size input_shape in
  let pos := if axis >=? 0 then axis else rank + axis - 1 in
  - rank - 1 <= axis <= rank ->
  ExpandDims_TypeAndShapeInference ctx (Some initializer)
  = if pos <? 0 then None
    else Some (updateOutputShape (fst (propagateElemTypeFromInputToOutput ctx 0))
                 (firstn (Z.to_nat pos) input_shape ++ [dim_value 1]
                  ++ skipn (Z.to_nat pos) input_shape)
                 kTensorType,
               Returned).
Proof.
  intros H0 Hdata rank pos Haxis.
  assert (Hle : pos <= rank).
  { unfold pos in *. destruct (Z.geb_spec axis 0); lia. }
  unfold ExpandDims_TypeAndShapeInference, propagateElemTypeFromInputToOutput.
  cbn [getInputType Z.eqb andThenChecked fst].
  set (ctx1 := set_output0 ctx _).
  change (getInputShape ctx1 0) with (getInputShape ctx 0). rewrite H0, Hdata.
  fold rank.
  destruct (Z.gtb_spec axis rank); [lia|].
  destruct (Z.ltb_spec axis (- rank - 1)); [lia|]. cbn [orb]. fold pos.
  destruct (Z.ltb_spec pos 0) as [Hneg|Hpos].
  - rewrite (for_range_nil 0 pos) by lia. cbn [fold_left].
    rewrite checked_set_dim_negative by exact Hneg.
    now rewrite add_and_assign_faulted.
  - change (@Some (list Dimension) []) with (@Some TensorShapeProto []).
    rewrite (append_loop (checked_dim input_shape) (dim input_shape)
               (Z.to_nat (pos - 0)) [] 0 pos)
      by (try reflexivity; intros i Hi; apply checked_dim_in_range; fold rank; lia).
    cbn [app]. rewrite copy_firstn by (fold rank; lia).
    assert (Hfirst : dim_size (firstn (Z.to_nat pos) input_shape) = pos).
    { unfold dim_size. rewrite length_firstn. unfold rank, dim_size in Hle. lia. }
    rewrite checked_set_dim_add_dim by (symmetry; exact Hfirst).
    rewrite (append_loop (fun i => checked_dim input_shape (i - 1))
               (fun i => dim input_shape (i - 1))
               (Z.to_nat (rank + 1 - (pos + 1))))
      by first [reflexivity
               |rewrite dim_size_app, Hfirst; reflexivity
               |intros i Hi; apply checked_dim_in_range; fold rank; lia].
    rewrite for_range_shift. unfold rank. rewrite copy_skipn by (fold rank; lia).
    now rewrite <- app_assoc.
Qed.

End ExpandDims.

(** X16.  ExpandDims with a declared input shape of rank r and an
    initializer whose [int32_data] starts with an axis a, -r-1 <= a <= r,
    inserts a size-1 axis at position pos = a for a >= 0 and
    pos = r + a - 1 for a < 0, provided pos >= 0: the output is the first
    pos input dimensions, then 1, then the rest.  So a = -1 on rank r >= 2
    puts the new axis at position r - 2. *)
Theorem ExpandDims_inserts_axis :
  forall (ctx : InferenceContext) (input_shape : TensorShapeProto)
         (initializer : TensorProto) (axis : Z) (rest : list Z),
    getInputShape ctx 0 = Some input_shape ->
    int32_data initializer = axis :: rest ->
    let rank := dim_size input_shape in
    let pos := if axis >=? 0 then axis else rank + axis - 1 in
    - rank - 1 <= axis <= rank ->
    0 <= pos ->
    exists run : Run,
      ExpandDims_TypeAndShapeInference ctx (Some initializer) = Some run
      /\ snd run = Returned
      /\ shape (output0 (fst run))
         = Some (firstn (Z.to_nat pos) input_shape ++ [dim_value 1]
                 ++ skipn (Z.to_nat pos) input_shape).
Proof.
  intros ctx input_shape initializer axis rest H0 Hdata rank pos Haxis Hpos.
  rewrite (ExpandDims_run ctx input_shape initializer axis rest H0 Hdata Haxis).
  fold rank. fold pos.
  destruct (Z.ltb_spec pos 0); [lia|].
  eexists. split; [reflexivity|]. split; reflexivity.
Qed.

Lemma ExpandDims_inserts_axis_witness :
  exists run : Run,
    ExpandDims_TypeAndShapeInference
      (dense_node [] (Some (known [2; 3; 4])) None) (Some (int32_tensor [-1]))
    = Some run
    /\ snd run = Returned
    /\ shape (output0 (fst run)) = Some (known [2; 1; 3; 4]).
Proof.
  apply (ExpandDims_inserts_axis
           (dense_node [] (Some (known [2; 3; 4])) None)
           (known [2; 3; 4]) (int32_tensor [-1]) (-1) [] eq_refl eq_refl).
  - vm_compute. split; discriminate.
  - vm_compute. discriminate.
Defined.

(** X17.  ExpandDims with a declared input shape of rank r and an
    initializer whose [int32_data] starts with an axis a.  It fails with
    "Input axis is invalid: " followed by the axis exactly when a is above
    r or below -r-1.  An accepted axis gives the position pos = a for
    a >= 0 and pos = r + a - 1 for a < 0; the call returns when pos >= 0,
    and for the accepted axes with pos < 0 (a = -r-1, and a = -r when
    r >= 1) it assigns through [mutable_dim(pos)] outside the output shape.
    An initializer with an empty [int32_data] is read outside the field.
    Without a declared shape or without an initializer the call returns and
    leaves the output shape as it was. *)
Theorem ExpandDims_axis_range :
  forall (ctx : InferenceContext),
    (forall (input_shape : TensorShapeProto) (initializer : TensorProto)
            (axis : Z) (rest : list Z),
       getInputShape ctx 0 = Some input_shape ->
       int32_data initializer = axis :: rest ->
       let rank := dim_size input_shape in
       let pos := if axis >=? 0 then axis else rank + axis - 1 in
       let run := ExpandDims_TypeAndShapeInference ctx (Some initializer) in
       (rank < axis \/ axis < - rank - 1 ->
        option_map snd run
        = Some (Thrown (ShapeInferenceError ("Input axis is invalid: " ++ decimal axis))))
       /\ (- rank - 1 <= axis <= rank -> 0 <= pos ->
           option_map snd run = Some Returned)
       /\ (- rank - 1 <= axis <= rank -> pos < 0 -> run = None)
       /\ (pos < 0 <-> axis < 0 /\ axis <= - rank))
    /\ (forall (input_shape : TensorShapeProto) (initializer : TensorProto),
          getInputShape ctx 0 = Some input_shape ->
          int32_data initializer = [] ->
          ExpandDims_TypeAndShapeInference ctx (Some initializer) = None)
    /\ (forall axis_initializer,
          getInputShape ctx 0 = None \/ axis_initializer = None ->
          exists run : Run,
            ExpandDims_TypeAndShapeInference ctx axis_initializer = Some run
            /\ snd run = Returned
            /\ shape (output0 (fst run)) = shape (output0 ctx)).
Proof.
  intros ctx. split; [|split].
  - intros input_shape initializer axis rest H0 Hdata rank pos run.
    split; [|split; [|split]].
    + intros Hout. unfold run.
      unfold ExpandDims_TypeAndShapeInference, propagateElemTypeFromInputToOutput.
      cbn [getInputType Z.eqb andThenChecked].
      set (ctx1 := set_output0 ctx _).
      change (getInputShape ctx1 0) with (getInputShape ctx 0). rewrite H0, Hdata.
      fold rank.
      destruct (Z.gtb_spec axis rank); destruct (Z.ltb_spec axis (- rank - 1));
        cbn [orb]; try reflexivity; lia.
    + intros Haxis Hpos. unfold run.
      rewrite (ExpandDims_run ctx input_shape initializer axis rest H0 Hdata Haxis).
      fold rank. fold pos. destruct (Z.ltb_spec pos 0); [lia|reflexivity].
    + intros Haxis Hpos. unfold run.
      rewrite (ExpandDims_run ctx input_shape initializer axis rest H0 Hdata Haxis).
      fold rank. fold pos. destruct (Z.ltb_spec pos 0); [reflexivity|lia].
    + unfold pos. destruct (Z.geb_spec axis 0); lia.
  - intros input_shape initializer H0 Hdata.
    unfold ExpandDims_TypeAndShapeInference, propagateElemTypeFromInputToOutput.
    cbn [getInputType Z.eqb andThenChecked].
    set (ctx1 := set_output0 ctx _).
    change (getInputShape ctx1 0) with (getInputShape ctx 0).
    now rewrite H0, Hdata.
  - intros axis_initializer Hnone.
    unfold ExpandDims_TypeAndShapeInference, propagateElemTypeFromInputToOutput.
    cbn [getInputType Z.eqb andThenChecked].
    set (ctx1 := set_output0 ctx _).
    change (getInputShape ctx1 0) with (getInputShape ctx 0).
    destruct Hnone as [-> | ->].
    + eexists. split; [reflexivity|]. now split.
    + destruct (getInputShape ctx 0); eexists; (split; [reflexivity|]); now split.
Qed.

Lemma ExpandDims_axis_range_witness :
  ExpandDims_TypeAndShapeInference
    (dense_node [] (Some (known [2; 3; 4])) None) (Some (int32_tensor [-3]))
  = None.
Proof.
  apply (proj1 (proj2 (proj2 (proj1 (ExpandDims_axis_range
                                       (dense_node [] (Some (known [2; 3; 4])) None))
                                    (known [2; 3; 4]) (int32_tensor [-3]) (-3) []
                                    eq_refl eq_refl)))).
  - vm_compute. split; discriminate.
  - vm_compute. reflexivity.
Defined.

(** X18.  The Inverse inference, whatever the library's shape propagation
    does: an input that is a dense tensor with a declared shape of rank
    below 2 fails with "Input rank must be >= 2."; one whose last two
    dimensions are both known and unequal fails with a message that names
    both values; every other declared shape reaches the propagation of the
    input shape to the output, and an input without a shape returns. *)
Theorem Inverse_checks :
  forall (propagateShape : InferenceContext -> Z -> Z -> Run)
         (ctx : InferenceContext),
    (forall input_shape : TensorShapeProto,
       value_case (input0 ctx) = kTensorType ->
       shape (input0 ctx) = Some input_shape ->
       let rank := dim_size input_shape in
       let mat_w := dim input_shape (rank - 1) in
       let mat_h := dim input_shape (rank - 2) in
       (rank < 2 ->
        snd (Inverse_TypeAndShapeInference propagateShape ctx)
        = Thrown (ShapeInferenceError "Input rank must be >= 2."))
       /\ (forall w h : Z,
             2 <= rank -> mat_w = dim_value w -> mat_h = dim_value h -> w <> h ->
             snd (Inverse_TypeAndShapeInference propagateShape ctx)
             = Thrown (ShapeInferenceError
                 ("The inner-most 2 dimensions must have the same size (mat_w:"
                  ++ decimal w ++ " != mat_h:" ++ decimal h ++ ").")))
       /\ (2 <= rank ->
           has_dim_value mat_w = false \/ has_dim_value mat_h = false
           \/ get_dim_value mat_w = get_dim_value mat_h ->
           exists ctx1,
             Inverse_TypeAndShapeInference propagateShape ctx
             = propagateShape ctx1 0 0
             /\ elem_type (output0 ctx1) = elem_type (input0 ctx)
             /\ input0 ctx1 = input0 ctx))
    /\ (getInputShape ctx 0 = None ->
        snd (Inverse_TypeAndShapeInference propagateShape ctx) = Returned).
Proof.
  intros P ctx. split.
  - intros input_shape Hv Hs rank mat_w mat_h.
    unfold Inverse_TypeAndShapeInference, propagateElemTypeFromInputToOutput.
    cbn [getInputType Z.eqb andThen].
    set (ctx1 := set_output0 ctx _).
    assert (Hhas : hasInputShape ctx1 0 = true).
    { unfold hasInputShape, getInputShape. cbn [getInputType Z.eqb].
      change (input0 ctx1) with (input0 ctx). now rewrite Hv, Hs. }
    rewrite Hhas. change (input0 ctx1) with (input0 ctx).
    unfold tensor_type_shape. rewrite Hv, Hs. fold rank. fold mat_w. fold mat_h.
    split; [|split].
    + intros Hr. destruct (Z.ltb_spec rank 2); [reflexivity|lia].
    + intros w h Hr Hw Hh Hneq. destruct (Z.ltb_spec rank 2); [lia|].
      rewrite Hw, Hh. cbn [has_dim_value get_dim_value andb].
      apply Z.eqb_neq in Hneq. now rewrite Hneq.
    + intros Hr Hok. destruct (Z.ltb_spec rank 2); [lia|].
      assert (Hcheck : has_dim_value mat_w && has_dim_value mat_h
                       && negb (get_dim_value mat_w =? get_dim_value mat_h) = false).
      { destruct Hok as [Hok | [Hok | Hok]]; rewrite Hok;
          [reflexivity|now rewrite andb_false_r|].
        rewrite Z.eqb_refl. now rewrite andb_false_r. }
      rewrite Hcheck. exists ctx1. repeat split.
  - intros Hnone.
    unfold Inverse_TypeAndShapeInference, propagateElemTypeFromInputToOutput.
    cbn [getInputType Z.eqb andThen].
    set (ctx1 := set_output0 ctx _).
    unfold hasInputShape. change (getInputShape ctx1 0) with (getInputShape ctx 0).
    now rewrite Hnone.
Qed.

Lemma Inverse_checks_witness :
  snd (Inverse_TypeAndShapeInference (fun c _ _ => (c, Returned))
         (dense_node [] (Some (known [2; 3; 4])) None))
  = Thrown (ShapeInferenceError
      "The inner-most 2 dimensions must have the same size (mat_w:4 != mat_h:3).").
Proof.
  apply (proj1 (proj2 (proj1 (Inverse_checks (fun c _ _ => (c, Returned))
                                (dense_node [] (Some (known [2; 3; 4])) None))
                         (known [2; 3; 4]) eq_refl eq_refl)) 4 3);
    vm_compute; try reflexivity; discriminate.
Defined.

(** ** The Pad inference *)

Section PadLoops.

Lemma hasNInputShapes_1 (ctx : InferenceContext) :
  hasNInputShapes ctx 1 = hasInputShape ctx 0.
Proof.
  unfold hasNInputShapes. change (for_range 0 1) with [0]. cbn [forallb].
  apply andb_true_r.
Qed.

Lemma zip_by_index (input_shape : TensorShapeProto) :
  forall begins ends : list Z,
    List.length begins = List.length input_shape ->
    List.length ends = List.length input_shape ->
    map (fun k => pad_output_dim (nth k input_shape dim_unset)
                   (nth k begins 0) (nth k ends 0))
        (seq 0 (List.length input_shape))
    = pad_dims input_shape begins ends.
Proof.
  induction input_shape as [|d input_shape IH]; intros [|b begins] [|e ends] Hb He;
    try discriminate; [reflexivity|].
  cbn [List.length seq map]. unfold pad_dims. cbn [combine map fst snd nth].
  f_equal. rewrite <- seq_shift, map_map. cbn [nth].
  apply IH; [now injection Hb|now injection He].
Qed.

Lemma pad_loop (input_shape : TensorShapeProto) (begins ends : list Z) :
  List.length begins = List.length input_shape ->
  List.length ends = List.length input_shape ->
  map (fun i => pad_output_dim (dim input_shape i)
                  (nth (Z.to_nat i) (begins ++ ends) 0)
                  (nth (Z.to_nat (i + dim_size input_shape)) (begins ++ ends) 0))
      (for_range 0 (dim_size input_shape))
  = pad_dims input_shape begins ends.
Proof.
  intros Hb He. rewrite <- (zip_by_index input_shape begins ends Hb He).
  unfold for_range, dim_size. rewrite Z.sub_0_r, Nat2Z.id, map_map.
  apply map_ext_in. intros k Hk. apply in_seq in Hk.
  cbn [Z.add]. rewrite dim_of_nat. f_equal.
  - rewrite Nat2Z.id. apply app_nth1. lia.
  - replace (Z.to_nat (Z.of_nat k + Z.of_nat (List.length input_shape)))
      with (List.length begins + k)%nat by lia.
    apply app_nth2_plus.
Qed.

Lemma rank_only_loop (l : list Z) (y : TypeProto) :
  let y' := fold_left
              (fun y _ => mkTypeProto (value_case y) (elem_type y)
                            (Some (held_shape y ++ [dim_unset])))
              l y in
  held_shape y' = held_shape y ++ repeat dim_unset (List.length l)
  /\ (shape y <> None -> shape y' <> None).
Proof.
  cbv zeta. revert y. induction l as [|i l IH]; intros y.
  - cbn. rewrite app_nil_r. tauto.
  - cbn [fold_left List.length repeat].
    destruct (IH (mkTypeProto (value_case y) (elem_type y)
                    (Some (held_shape y ++ [dim_unset])))) as [Hh Hs].
    rewrite Hh. cbn [held_shape shape]. rewrite <- app_assoc. split; [reflexivity|].
    intros _. apply Hs. discriminate.
Qed.

End PadLoops.

(** X19.  Pad on a dense input with a declared shape and a 1-D int64
    initializer holding [begins..., ends...], one entry of each per axis:
    the call returns and appends one dimension per axis to the shape that
    output 0 holds: value + begin + end for a known dimension, the input
    dimension itself when it is unknown and begin + end = 0, and an unknown
    dimension otherwise. *)
Theorem Pad_output_dims :
  forall (ctx : InferenceContext) (input_shape : TensorShapeProto)
         (begins ends : list Z) (initializer : TensorProto),
    value_case (input0 ctx) = kTensorType ->
    shape (input0 ctx) = Some input_shape ->
    value_case (output0 ctx) <> kSparseTensorType ->
    List.length (dims initializer) = 1%nat ->
    data_type initializer = TensorProto_INT64 ->
    has_raw_data initializer = false ->
    int64_data initializer = begins ++ ends ->
    List.length begins = List.length input_shape ->
    List.length ends = List.length input_shape ->
    snd (Pad_TypeAndShapeInference ctx (Some initializer)) = Returned
    /\ shape (output0 (fst (Pad_TypeAndShapeInference ctx (Some initializer))))
       = Some (held_shape (output0 ctx) ++ pad_dims input_shape begins ends).
Proof.
  intros ctx input_shape begins ends initializer Hv Hs Hout Hdims Hty Hraw Hdata Hb He.
  unfold Pad_TypeAndShapeInference, propagateElemTypeFromInputToOutput.
  cbn [getInputType Z.eqb andThen].
  set (ctx1 := set_output0 ctx _).
  rewrite hasNInputShapes_1. unfold hasInputShape.
  change (getInputShape ctx1 0) with (getInputShape ctx 0).
  change (input0 ctx1) with (input0 ctx). change (input1 ctx1) with (input1 ctx).
  unfold getInputShape. cbn [getInputType Z.eqb].
  rewrite Hv, Hs. cbn [negb].
  replace (tensor_type_shape (input0 ctx)) with input_shape
    by (unfold tensor_type_shape; now rewrite Hv, Hs).
  rewrite Hdims, Hty, Hraw, Hdata.
  cbn [Z.of_nat Pos.of_succ_nat Z.eqb Pos.eqb negb andb orb].
  change (TensorProto_INT64 =? TensorProto_INT64) with true. cbn [negb].
  assert (Hlen : Z.of_nat (List.length (begins ++ ends)) = 2 * dim_size input_shape).
  { rewrite length_app. unfold dim_size. lia. }
  rewrite Hlen, Z.eqb_refl. cbn [negb].
  rewrite (fold_left_indexed add_output_dim
             (fun i => pad_output_dim (dim input_shape i)
                         (nth (Z.to_nat i) (begins ++ ends) 0)
                         (nth (Z.to_nat (i + dim_size input_shape)) (begins ++ ends) 0))).
  rewrite pad_loop by assumption.
  assert (Hvc : value_case (output0 ctx1) = kTensorType).
  { unfold ctx1. cbn [output0 set_output0 value_case]. rewrite Hv.
    destruct (value_case (output0 ctx)); [reflexivity|contradiction|reflexivity]. }
  assert (Hm : mutable_output_shape (output0 ctx1)
               = mkTypeProto kTensorType (elem_type (output0 ctx1))
                   (Some (held_shape (output0 ctx)))).
  { unfold mutable_output_shape. now rewrite Hvc. }
  rewrite Hm, fold_add_output_dim by reflexivity.
  split; [reflexivity|].
  destruct (pad_dims input_shape begins ends); cbn; [now rewrite app_nil_r|reflexivity].
Qed.

Lemma Pad_output_dims_witness :
  shape (output0 (fst (Pad_TypeAndShapeInference
           (dense_node [] (Some [dim_value 3; dim_param "W"; dim_param "C"]) None)
           (Some (int64_tensor ([0; 2; 0] ++ [1; 0; 0]))))))
  = Some [dim_value 4; dim_unset; dim_param "C"].
Proof.
  apply (Pad_output_dims
           (dense_node [] (Some [dim_value 3; dim_param "W"; dim_param "C"]) None)
           [dim_value 3; dim_param "W"; dim_param "C"] [0; 2; 0] [1; 0; 0]
           (int64_tensor ([0; 2; 0] ++ [1; 0; 0])));
    try reflexivity.
  discriminate.
Defined.

(** X20.  Pad without usable pads data, on an input with a declared shape:
    with no initializer it appends one unknown dimension per input axis, so
    the rank is still inferred; with an initializer that keeps its values
    as raw data it returns leaving the output shape as it was; with an
    initializer that is not of type int64, or neither 1-D nor 2-D, it
    fails. *)
Theorem Pad_without_pads_data :
  forall (ctx : InferenceContext) (input_shape : TensorShapeProto),
    value_case (input0 ctx) = kTensorType ->
    shape (input0 ctx) = Some input_shape ->
    (snd (Pad_TypeAndShapeInference ctx None) = Returned
     /\ shape (output0 (fst (Pad_TypeAndShapeInference ctx None)))
        = Some (held_shape (output0 ctx)
                ++ repeat dim_unset (List.length input_shape)))
    /\ (forall initializer,
          List.length (dims initializer) = 1%nat ->
          data_type initializer = TensorProto_INT64 ->
          has_raw_data initializer = true ->
          snd (Pad_TypeAndShapeInference ctx (Some initializer)) = Returned
          /\ shape (output0 (fst (Pad_TypeAndShapeInference ctx (Some initializer))))
             = shape (output0 ctx))
    /\ (forall initializer,
          data_type initializer <> TensorProto_INT64
          \/ (List.length (dims initializer) <> 1%nat
              /\ List.length (dims initializer) <> 2%nat) ->
          snd (Pad_TypeAndShapeInference ctx (Some initializer))
          = Thrown (ShapeInferenceError
              ("'pads' input must be a 1D (shape: [input_rank]) "
               ++ "or 2D tensor (shape: [1, input_rank]) of type int64"))).
Proof.
  intros ctx input_shape Hv Hs.
  assert (Hstart : forall init,
             Pad_TypeAndShapeInference ctx init
             = let ctx1 := set_output0 ctx
                 (mkTypeProto
                    (match value_case (output0 ctx) with
                     | VALUE_NOT_SET => value_case (input0 ctx)
                     | c => c
                     end) (elem_type (input0 ctx)) (shape (output0 ctx))) in
               match init with
               | Some initializer =>
                   let dims_size := Z.of_nat (List.length (dims initializer)) in
                   if (negb (dims_size =? 1) && negb (dims_size =? 2))
                      || ((dims_size =? 2)
                          && negb (get_dim_value
                                     (dim (tensor_type_shape (input1 ctx)) 0) =? 1))
                      || negb (data_type initializer =? TensorProto_INT64)
                   then
                     (ctx1, Thrown (ShapeInferenceError
                        ("'pads' input must be a 1D (shape: [input_rank]) "
                         ++ "or 2D tensor (shape: [1, input_rank]) of type int64")))
                   else if has_raw_data initializer then (ctx1, Returned)
                   else
                     let pads_data := int64_data initializer in
                     let pads_data :=
                       if negb (Z.of_nat (List.length pads_data)
                                =? 2 * dim_size input_shape)
                       then resize pads_data (Z.to_nat (2 * dim_size input_shape))
                       else pads_data in
                     (set_output0 ctx1
                        (fold_left
                           (fun y i =>
                              add_output_dim y
                                (pad_output_dim (dim input_shape i)
                                   (nth (Z.to_nat i) pads_data 0)
                                   (nth (Z.to_nat (i + dim_size input_shape))
                                      pads_data 0)))
                           (for_range 0 (dim_size input_shape))
                           (mutable_output_shape (output0 ctx1))),
                      Returned)
               | None =>
                   (set_output0 ctx1
                      (fold_left
                         (fun y _ => mkTypeProto (value_case y) (elem_type y)
                                       (Some (held_shape y ++ [dim_unset])))
                         (for_range 0 (dim_size input_shape))
                         (getOutputShape_mutable (output0 ctx1))),
                    Returned)
               end).
  { intros init.
    unfold Pad_TypeAndShapeInference, propagateElemTypeFromInputToOutput.
    cbn [getInputType Z.eqb andThen]. cbv zeta.
    set (ctx1 := set_output0 ctx _).
    rewrite hasNInputShapes_1. unfold hasInputShape.
    change (getInputShape ctx1 0) with (getInputShape ctx 0).
    change (input0 ctx1) with (input0 ctx). change (input1 ctx1) with (input1 ctx).
    unfold getInputShape. cbn [getInputType Z.eqb].
    rewrite Hv, Hs. cbn [negb].
    replace (tensor_type_shape (input0 ctx)) with input_shape
      by (unfold tensor_type_shape; now rewrite Hv, Hs).
    reflexivity. }
  split; [|split].
  - rewrite Hstart. cbv zeta. cbn [fst snd output0 set_output0].
    split; [reflexivity|].
    match goal with
    | |- shape (fold_left ?f ?l ?y) = _ =>
        destruct (rank_only_loop l y) as [Hh Hsome]
    end.
    cbv zeta in Hh, Hsome.
    match goal with
    | |- shape ?t = _ =>
        destruct (shape t) as [s|] eqn:Hshape;
          [|exfalso; apply Hsome; [discriminate|reflexivity]]
    end.
    unfold held_shape at 1 in Hh. rewrite Hshape in Hh. rewrite Hh.
    unfold for_range. rewrite length_map, length_seq, Z.sub_0_r.
    unfold dim_size. rewrite Nat2Z.id. reflexivity.
  - intros initializer Hdims Hty Hraw. rewrite Hstart. cbv zeta.
    rewrite Hdims, Hty, Hraw.
    cbn [Z.of_nat Pos.of_succ_nat Z.eqb Pos.eqb negb andb orb].
    change (TensorProto_INT64 =? TensorProto_INT64) with true. cbn [negb].
    split; reflexivity.
  - intros initializer Hbad. rewrite Hstart. cbv zeta.
    match goal with
    | |- snd (if ?c then _ else _) = _ => assert (Hc : c = true)
    end.
    { destruct Hbad as [Hty|[H1 H2]].
      - apply orb_true_iff. right. apply negb_true_iff, Z.eqb_neq. exact Hty.
      - apply orb_true_iff. left. apply orb_true_iff. left.
        apply andb_true_iff. split; apply negb_true_iff, Z.eqb_neq; lia. }
    now rewrite Hc.
Qed.

Lemma Pad_without_pads_data_witness :
  shape (output0 (fst (Pad_TypeAndShapeInference
           (dense_node [] (Some (known [3; 4])) None) None)))
  = Some [dim_unset; dim_unset].
Proof.
  apply (proj1 (Pad_without_pads_data (dense_node [] (Some (known [3; 4])) None)
                  (known [3; 4]) eq_refl eq_refl)).
Defined.

(** ** Nodes with several inputs and outputs *)

Section NodeState.

Lemma replace_nth_length {A : Type} (l : list A) (n : nat) (x : A) :
  List.length (replace_nth l n x) = List.length l.
Proof.
  revert n. induction l as [|y l IH]; intros [|n]; cbn; auto.
Qed.

Lemma nth_error_replace_same {A : Type} (l : list A) (n : nat) (x y : A) :
  nth_error l n = Some y -> nth_error (replace_nth l n x) n = Some x.
Proof.
  revert n. induction l as [|z l IH]; intros [|n]; cbn; try discriminate; auto.
Qed.

Lemma nth_error_replace_other {A : Type} (l : list A) (n m : nat) (x : A) :
  n <> m -> nth_error (replace_nth l n x) m = nth_error l m.
Proof.
  revert n m. induction l as [|z l IH]; intros [|n] [|m] H; cbn; try reflexivity.
  - contradiction.
  - apply IH. lia.
Qed.

Lemma getNumOutputs_set (ctx : NodeContext) (n : Z) (t : TypeProto) :
  getNumOutputs (node_set_output ctx n t) = getNumOutputs ctx.
Proof.
  unfold getNumOutputs, node_set_output. cbn [node_outputs].
  destruct (n <? 0); [reflexivity|]. now rewrite replace_nth_length.
Qed.

Lemma getOutputType_set_same (ctx : NodeContext) (n : Z) (t out : TypeProto) :
  node_getOutputType ctx n = Some out ->
  node_getOutputType (node_set_output ctx n t) n = Some t.
Proof.
  unfold node_getOutputType, node_set_output, lookup. cbn [node_outputs].
  destruct (n <? 0); [discriminate|]. apply nth_error_replace_same.
Qed.

Lemma getOutputType_set_other (ctx : NodeContext) (n m : Z) (t : TypeProto) :
  0 <= n -> 0 <= m -> n <> m ->
  node_getOutputType (node_set_output ctx n t) m = node_getOutputType ctx m.
Proof.
  intros Hn Hm Hneq.
  unfold node_getOutputType, node_set_output, lookup. cbn [node_outputs].
  destruct (Z.ltb_spec n 0); [lia|]. destruct (Z.ltb_spec m 0); [lia|].
  apply nth_error_replace_other. lia.
Qed.

Lemma node_propagate_run (ctx : NodeContext) (i o : Z) (t out : TypeProto) :
  node_getInputType ctx i = Some t ->
  node_getOutputType ctx o = Some out ->
  node_propagateElemTypeFromInputToOutput ctx i o
  = (node_set_output ctx o
       (mkTypeProto
          (match value_case out with VALUE_NOT_SET => value_case t | c => c end)
          (elem_type t) (shape out)),
     Returned).
Proof.
  intros Hi Ho. unfold node_propagateElemTypeFromInputToOutput. now rewrite Hi, Ho.
Qed.

Lemma node_update_run (ctx : NodeContext) (n : Z) (out : TypeProto)
    (s : TensorShapeProto) :
  node_getOutputType ctx n = Some out ->
  node_updateOutputShape ctx n s
  = (node_set_output ctx n
       (mkTypeProto
          (match value_case out with VALUE_NOT_SET => kTensorType | c => c end)
          (elem_type out) (Some s)),
     Returned).
Proof.
  intros Ho. unfold node_updateOutputShape. now rewrite Ho.
Qed.

Lemma input_shape_has_type (ctx : NodeContext) (n : Z) (s : TensorShapeProto) :
  node_getInputShape ctx n = Some s ->
  exists t, node_getInputType ctx n = Some t /\ shape t = Some s
            /\ value_case t <> VALUE_NOT_SET.
Proof.
  unfold node_getInputShape. destruct (node_getInputType ctx n) as [t|];
    [|discriminate].
  intros H. exists t. split; [reflexivity|].
  destruct (value_case t); [| |discriminate]; (split; [exact H|discriminate]).
Qed.

End NodeState.

(** In the inference functions the inputs, the initializers and the
    attributes of a node never change: reads of them after an output was
    written are reads of the original node. *)
Ltac node_frame :=
  repeat match goal with
  | |- context [node_getInputShape (node_set_output ?c ?n ?t) ?m] =>
      change (node_getInputShape (node_set_output c n t) m)
        with (node_getInputShape c m)
  | |- context [node_getInputType (node_set_output ?c ?n ?t) ?m] =>
      change (node_getInputType (node_set_output c n t) m)
        with (node_getInputType c m)
  | |- context [node_getInputData (node_set_output ?c ?n ?t) ?m] =>
      change (node_getInputData (node_set_output c n t) m)
        with (node_getInputData c m)
  | |- context [getRepeatedAttribute (node_set_output ?c ?n ?t) ?m] =>
      change (getRepeatedAttribute (node_set_output c n t) m)
        with (getRepeatedAttribute c m)
  | |- context [getNumOutputs (node_set_output ?c ?n ?t)] =>
      rewrite (getNumOutputs_set c n t)
  end.

(** X21.  Attention with a single output, an input [b, s, h] and a bias of
    rank 1: the call returns and output 0 gets the element type of input 2
    and the shape [b, s, hidden], where hidden is the third entry of
    [qkv_hidden_sizes] when that attribute has three entries, and otherwise
    the bias length divided by 3 rounding toward zero, which is 0 for a
    bias of unknown length. *)
Theorem Attention_output_shape :
  forall (ctx : NodeContext) (past_input_index : Z)
         (b s h bias : Dimension) (y0 : TypeProto) (qkv : list Z),
    node_getInputShape ctx 0 = Some [b; s; h] ->
    node_getInputShape ctx 2 = Some [bias] ->
    node_getOutputType ctx 0 = Some y0 ->
    getNumOutputs ctx = 1 ->
    qkv = match getRepeatedAttribute ctx "qkv_hidden_sizes" with
          | Some v => v
          | None => []
          end ->
    List.length qkv = 0%nat \/ List.length qkv = 3%nat ->
    let hidden := match qkv with
                  | [] => Z.quot (get_dim_value bias) 3
                  | _ => nth 2 qkv 0
                  end in
    exists t2,
      node_getInputType ctx 2 = Some t2
      /\ snd (AttentionTypeAndShapeInference ctx past_input_index) = Returned
      /\ node_getOutputType (fst (AttentionTypeAndShapeInference ctx past_input_index)) 0
         = Some (mkTypeProto
                   (match value_case y0 with
                    | VALUE_NOT_SET => value_case t2
                    | c => c
                    end)
                   (elem_type t2) (Some [b; s; dim_value hidden])).
Proof.
  intros ctx past b s h bias y0 qkv H0 H2 Hy0 Hn Hqkv Hlen hidden.
  destruct (input_shape_has_type ctx 2 _ H2) as (t2 & Ht2 & Hs2 & Hv2).
  exists t2. split; [exact Ht2|].
  unfold AttentionTypeAndShapeInference.
  rewrite (node_propagate_run ctx 2 0 t2 y0 Ht2 Hy0). cbn [nodeThen].
  node_frame. rewrite Hn. cbn [Z.gtb Z.compare Pos.compare Pos.compare_cont nodeThen].
  node_frame. rewrite H0, H2, <- Hqkv.
  cbn [dim_size List.length Z.of_nat Pos.of_succ_nat Pos.succ Z.eqb Pos.eqb negb].
  set (ctx1 := node_set_output ctx 0 _).
  assert (Hy1 : node_getOutputType ctx1 0
                = Some (mkTypeProto
                          (match value_case y0 with
                           | VALUE_NOT_SET => value_case t2
                           | c => c
                           end) (elem_type t2) (shape y0))).
  { unfold ctx1. eapply getOutputType_set_same. exact Hy0. }
  assert (Hsize : negb (Z.of_nat (List.length qkv) =? 0)
                  && negb (Z.of_nat (List.length qkv) =? 3) = false).
  { destruct Hlen as [-> | ->]; reflexivity. }
  rewrite Hsize.
  rewrite (node_update_run ctx1 0 _ _ Hy1). cbn [nodeThen].
  node_frame. replace (getNumOutputs ctx1) with 1
    by (unfold ctx1; now rewrite getNumOutputs_set).
  cbn [Z.gtb Z.compare Pos.compare Pos.compare_cont fst snd].
  split; [reflexivity|].
  erewrite getOutputType_set_same by exact Hy1.
  f_equal. cbn [value_case elem_type].
  assert (Hhid : (if negb (Z.of_nat (List.length qkv) =? 0) then nth 2 qkv 0
                  else Z.quot (get_dim_value (dim [bias] 0)) 3) = hidden).
  { unfold hidden. destruct qkv as [|q qkv]; [reflexivity|].
    destruct Hlen as [Hlen|Hlen]; [discriminate|]. now rewrite Hlen. }
  rewrite Hhid. f_equal.
  destruct (value_case y0), (value_case t2); try reflexivity; contradiction.
Qed.

Lemma Attention_output_shape_witness :
  exists t2,
    node_getInputType (attention_node [("qkv_hidden_sizes", [64; 64; 32])] [fresh_output]) 2
    = Some t2
    /\ snd (AttentionTypeAndShapeInference
              (attention_node [("qkv_hidden_sizes", [64; 64; 32])] [fresh_output]) 4)
       = Returned
    /\ node_getOutputType
         (fst (AttentionTypeAndShapeInference
                 (attention_node [("qkv_hidden_sizes", [64; 64; 32])] [fresh_output]) 4)) 0
       = Some (mkTypeProto
                 (match value_case fresh_output with
                  | VALUE_NOT_SET => value_case t2
                  | c => c
                  end)
                 (elem_type t2) (Some [dim_param "B"; dim_value 5; dim_value 32])).
Proof.
  apply (Attention_output_shape
           (attention_node [("qkv_hidden_sizes", [64; 64; 32])] [fresh_output]) 4
           (dim_param "B") (dim_value 5) (dim_value 768) (dim_value 2304)
           fresh_output [64; 64; 32]
           eq_refl eq_refl eq_refl eq_refl eq_refl (or_intror eq_refl)).
Defined.

(** X22.  Attention rejects, in this order, an input 0 whose rank is not
    3, a bias whose rank is not 1, and a [qkv_hidden_sizes] attribute that
    is neither empty nor of three entries; when input 0 or the bias has no
    declared shape it returns without writing a shape. *)
Theorem Attention_guards :
  forall (ctx : NodeContext) (past_input_index : Z) (y0 : TypeProto) (t2 : TypeProto),
    node_getInputType ctx 2 = Some t2 ->
    node_getOutputType ctx 0 = Some y0 ->
    getNumOutputs ctx = 1 ->
    let qkv := match getRepeatedAttribute ctx "qkv_hidden_sizes" with
               | Some v => v
               | None => []
               end in
    (forall input_shape bias_shape,
       node_getInputShape ctx 0 = Some input_shape ->
       node_getInputShape ctx 2 = Some bias_shape ->
       snd (AttentionTypeAndShapeInference ctx past_input_index)
       = if negb (dim_size input_shape =? 3) then
           Thrown (ShapeInferenceError "Inputs 0 shall be 3 dimensions")
         else if negb (dim_size bias_shape =? 1) then
           Thrown (ShapeInferenceError "Invalid bias shape")
         else if negb (List.length qkv =? 0)%nat && negb (List.length qkv =? 3)%nat then
           Thrown (ShapeInferenceError "qkv_hidden_sizes should have 3 elements")
         else Returned)
    /\ (node_getInputShape ctx 0 = None \/ node_getInputShape ctx 2 = None ->
        snd (AttentionTypeAndShapeInference ctx past_input_index) = Returned
        /\ (forall s y, node_getOutputType
                          (fst (AttentionTypeAndShapeInference ctx past_input_index)) 0
                        = Some y -> shape y = Some s -> shape y0 = Some s)).
Proof.
  intros ctx past y0 t2 Ht2 Hy0 Hn qkv.
  assert (Hy1 : forall ty, node_getOutputType (node_set_output ctx 0 ty) 0 = Some ty).
  { intros ty. eapply getOutputType_set_same. exact Hy0. }
  split.
  - intros input_shape bias_shape H0 H2.
    unfold AttentionTypeAndShapeInference.
    rewrite (node_propagate_run ctx 2 0 t2 y0 Ht2 Hy0). cbn [nodeThen].
    node_frame. rewrite Hn.
    cbn [Z.gtb Z.compare Pos.compare Pos.compare_cont nodeThen].
    node_frame. rewrite H0, H2. fold qkv.
    destruct (negb (dim_size input_shape =? 3)); [reflexivity|].
    destruct (negb (dim_size bias_shape =? 1)); [reflexivity|].
    assert (Hq : negb (Z.of_nat (List.length qkv) =? 0)
                 && negb (Z.of_nat (List.length qkv) =? 3)
                 = negb (List.length qkv =? 0)%nat && negb (List.length qkv =? 3)%nat).
    { f_equal; f_equal.
      - destruct (Z.eqb_spec (Z.of_nat (List.length qkv)) 0);
          destruct (Nat.eqb_spec (List.length qkv) 0); try reflexivity; lia.
      - destruct (Z.eqb_spec (Z.of_nat (List.length qkv)) 3);
          destruct (Nat.eqb_spec (List.length qkv) 3); try reflexivity; lia. }
    rewrite Hq.
    destruct (negb (List.length qkv =? 0)%nat && negb (List.length qkv =? 3)%nat);
      [reflexivity|].
    rewrite (node_update_run _ 0 _ _ (Hy1 _)). cbn [nodeThen].
    node_frame. rewrite Hn. reflexivity.
  - intros Hnone.
    unfold AttentionTypeAndShapeInference.
    rewrite (node_propagate_run ctx 2 0 t2 y0 Ht2 Hy0). cbn [nodeThen].
    node_frame. rewrite Hn.
    cbn [Z.gtb Z.compare Pos.compare Pos.compare_cont nodeThen].
    node_frame.
    assert (Hskip : match node_getInputShape ctx 0, node_getInputShape ctx 2 with
                    | Some _, Some _ => False
                    | _, _ => True
                    end).
    { destruct Hnone as [-> | ->]; [exact I|].
      destruct (node_getInputShape ctx 0); exact I. }
    destruct (node_getInputShape ctx 0); [destruct (node_getInputShape ctx 2)|];
      try contradiction; cbn [fst snd];
      (split; [reflexivity|]); intros s y; rewrite Hy1; now intros [= <-].
Qed.

(** X23.  Attention with two outputs and a past state
    [p0, p1, p2, p3, p4]: when the past sequence length p3 and the
    sequence length s of input 0 are both known, output 1 gets the element
    type of input 2 and the past shape with p3 replaced by p3 + s; when
    either is unknown, the shape of output 1 is not written at all, though
    the other four dimensions are at hand. *)
Theorem Attention_present_shape :
  forall (ctx : NodeContext) (past_input_index : Z)
         (b s h bias p0 p1 p2 p3 p4 : Dimension) (y0 y1 t2 : TypeProto),
    node_getInputShape ctx 0 = Some [b; s; h] ->
    node_getInputShape ctx 2 = Some [bias] ->
    node_getInputType ctx 2 = Some t2 ->
    node_getOutputType ctx 0 = Some y0 ->
    node_getOutputType ctx 1 = Some y1 ->
    getNumOutputs ctx = 2 ->
    getRepeatedAttribute ctx "qkv_hidden_sizes" = None ->
    node_getInputShape ctx past_input_index = Some [p0; p1; p2; p3; p4] ->
    let r := AttentionTypeAndShapeInference ctx past_input_index in
    snd r = Returned
    /\ (forall P S : Z,
          p3 = dim_value P -> s = dim_value S ->
          exists y, node_getOutputType (fst r) 1 = Some y
                    /\ shape y = Some [p0; p1; p2; dim_value (wrap_int64 (P + S)); p4]
                    /\ elem_type y = elem_type t2)
    /\ (has_dim_value p3 = false \/ has_dim_value s = false ->
        exists y, node_getOutputType (fst r) 1 = Some y /\ shape y = shape y1).
Proof.
  intros ctx past b s h bias p0 p1 p2 p3 p4 y0 y1 t2
         H0 H2 Ht2 Hy0 Hy1 Hn Hqkv Hpast r.
  assert (Hrun : exists ctx3 b1,
             node_getOutputType ctx3 1 = Some b1
             /\ shape b1 = shape y1 /\ elem_type b1 = elem_type t2
             /\ r = if has_dim_value p3 && has_dim_value s then
                      node_updateOutputShape ctx3 1
                        [p0; p1; p2;
                         dim_value (wrap_int64 (get_dim_value p3 + get_dim_value s));
                         p4]
                    else (ctx3, Returned)).
  { unfold r, AttentionTypeAndShapeInference.
    rewrite (node_propagate_run ctx 2 0 t2 y0 Ht2 Hy0). cbn [nodeThen].
    node_frame. rewrite Hn.
    cbn [Z.gtb Z.compare Pos.compare Pos.compare_cont].
    set (a := mkTypeProto _ (elem_type t2) (shape y0)).
    assert (H11 : node_getOutputType (node_set_output ctx 0 a) 1 = Some y1).
    { rewrite getOutputType_set_other by lia. exact Hy1. }
    rewrite (node_propagate_run (node_set_output ctx 0 a) 2 1 t2 y1 Ht2 H11).
    cbn [nodeThen].
    node_frame. rewrite H0, H2, Hqkv.
    cbn [dim_size List.length Z.of_nat Pos.of_succ_nat Pos.succ Z.eqb Pos.eqb negb andb].
    set (b1 := mkTypeProto _ (elem_type t2) (shape y1)).
    assert (H20 : node_getOutputType
                    (node_set_output (node_set_output ctx 0 a) 1 b1) 0 = Some a).
    { rewrite getOutputType_set_other by lia.
      eapply getOutputType_set_same. exact Hy0. }
    rewrite (node_update_run _ 0 a _ H20). cbn [nodeThen].
    node_frame. rewrite Hn, Hpast.
    cbn [Z.gtb Z.compare Pos.compare Pos.compare_cont].
    cbn [dim_size List.length Z.of_nat Pos.of_succ_nat Pos.succ Z.eqb Pos.eqb negb].
    set (c := mkTypeProto _ (elem_type a) _).
    change (dim [p0; p1; p2; p3; p4] 3) with p3. change (dim [b; s; h] 1) with s.
    exists (node_set_output (node_set_output (node_set_output ctx 0 a) 1 b1) 0 c), b1.
    split; [|split; [reflexivity|split; [reflexivity|reflexivity]]].
    rewrite getOutputType_set_other by lia.
    eapply getOutputType_set_same. exact H11. }
  destruct Hrun as (ctx3 & b1 & H31 & Hsb & Heb & ->).
  destruct (has_dim_value p3 && has_dim_value s) eqn:Hknown.
  - rewrite (node_update_run ctx3 1 b1 _ H31). cbn [fst snd].
    split; [reflexivity|split].
    + intros P S -> ->. eexists. split.
      * eapply getOutputType_set_same. exact H31.
      * split; [reflexivity|exact Heb].
    + apply andb_true_iff in Hknown as [Hp Hs].
      intros [H|H]; congruence.
  - cbn [fst snd]. split; [reflexivity|split].
    + intros P S -> ->. discriminate Hknown.
    + intros _. exists b1. split; [exact H31|exact Hsb].
Qed.

Ltac out_lookup :=
  lazymatch goal with
  | |- node_getOutputType (node_set_output ?c ?n ?t) ?n = _ =>
      eapply getOutputType_set_same; out_lookup
  | |- node_getOutputType (node_set_output ?c ?n ?t) ?m = _ =>
      rewrite (getOutputType_set_other c n m t) by lia; out_lookup
  | |- _ => eassumption
  end.

(** X24.  DecoderAttention with three outputs: output 0 gets the query
    shape.  When the key cache [c0, c1, c2, c3] has all four dimensions
    known, outputs 1 and 2 both get [c0, c1, unknown, c3], taken from the
    key cache alone: the value cache only has to declare a shape.  When a
    key-cache dimension is unknown, the shapes of outputs 1 and 2 are left
    as they were. *)
Theorem DecoderAttention_shapes :
  forall (ctx : NodeContext) (query_shape value_cache_shape : TensorShapeProto)
         (c0 c1 c2 c3 : Dimension) (t0 y0 y1 y2 : TypeProto),
    node_getInputType ctx 0 = Some t0 ->
    node_getInputShape ctx 0 = Some query_shape ->
    node_getInputShape ctx 6 = Some [c0; c1; c2; c3] ->
    node_getInputShape ctx 7 = Some value_cache_shape ->
    node_getOutputType ctx 0 = Some y0 ->
    node_getOutputType ctx 1 = Some y1 ->
    node_getOutputType ctx 2 = Some y2 ->
    getNumOutputs ctx = 3 ->
    let r := DecoderAttentionTypeAndShapeInference ctx in
    let all_known := has_dim_value c0 && has_dim_value c1
                     && has_dim_value c2 && has_dim_value c3 in
    snd r = Returned
    /\ (exists y, node_getOutputType (fst r) 0 = Some y
                  /\ shape y = Some query_shape /\ elem_type y = elem_type t0)
    /\ (exists y, node_getOutputType (fst r) 1 = Some y
                  /\ shape y = if all_known then Some [c0; c1; dim_unset; c3]
                               else shape y1)
    /\ (exists y, node_getOutputType (fst r) 2 = Some y
                  /\ shape y = if all_known then Some [c0; c1; dim_unset; c3]
                               else shape y2).
Proof.
  intros ctx q v c0 c1 c2 c3 t0 y0 y1 y2 Ht0 H0 H6 H7 Hy0 Hy1 Hy2 Hn r all_known.
  unfold r, DecoderAttentionTypeAndShapeInference.
  rewrite (node_propagate_run ctx 0 0 t0 y0 Ht0 Hy0). cbn [nodeThen].
  node_frame. rewrite Hn. cbn [Z.gtb Z.compare Pos.compare Pos.compare_cont].
  set (a0 := mkTypeProto _ (elem_type t0) (shape y0)).
  erewrite (node_propagate_run (node_set_output ctx 0 a0) 0 1 t0 y1 Ht0)
    by out_lookup.
  cbn [nodeThen]. set (a1 := mkTypeProto _ (elem_type t0) (shape y1)).
  erewrite (node_propagate_run (node_set_output (node_set_output ctx 0 a0) 1 a1)
              0 2 t0 y2 Ht0) by out_lookup.
  cbn [nodeThen]. set (a2 := mkTypeProto _ (elem_type t0) (shape y2)).
  node_frame. rewrite H0.
  erewrite (node_update_run _ 0 a0) by out_lookup. cbn [nodeThen].
  set (b0 := mkTypeProto _ (elem_type a0) (Some q)).
  node_frame. rewrite Hn, H6, H7.
  cbn [Z.gtb Z.compare Pos.compare Pos.compare_cont].
  cbn [dim_size List.length Z.of_nat Pos.of_succ_nat Pos.succ Z.eqb Pos.eqb negb].
  change (dim [c0; c1; c2; c3] 0) with c0. change (dim [c0; c1; c2; c3] 1) with c1.
  change (dim [c0; c1; c2; c3] 2) with c2. change (dim [c0; c1; c2; c3] 3) with c3.
  fold all_known. destruct all_known.
  - erewrite (node_update_run _ 1 a1) by out_lookup. cbn [nodeThen].
    erewrite (node_update_run _ 2 a2) by out_lookup. cbn [fst snd].
    split; [reflexivity|split; [|split]]; eexists; (split; [out_lookup|]);
      try reflexivity.
    split; reflexivity.
  - cbn [fst snd].
    split; [reflexivity|split; [|split]]; eexists; (split; [out_lookup|]);
      try reflexivity.
    split; reflexivity.
Qed.

(** X25.  BeamSearch with three outputs, known input ids [batch, seq] and
    INT32 initializers max_length, num_beams and num_return_sequences that
    each parse to one positive value writes: [batch, num_return_sequences,
    max_length] on output 0; the empty shape on output 1, because the two
    dimensions meant for it are added to the shape of output 0 after that
    one was stored; and [max_length - seq, batch, num_beams, unknown] on
    output 2. *)
Theorem BeamSearch_shapes :
  forall (ParseData : TensorProto -> list Z) (ctx : NodeContext)
         (batch seq ML NB NRS : Z) (t0 t5 y0 y1 y2 : TypeProto)
         (max_length num_beams num_return_sequences : TensorProto),
    node_getInputType ctx 0 = Some t0 ->
    node_getInputType ctx 5 = Some t5 ->
    node_getInputShape ctx 0 = Some [dim_value batch; dim_value seq] ->
    node_getOutputType ctx 0 = Some y0 ->
    node_getOutputType ctx 1 = Some y1 ->
    node_getOutputType ctx 2 = Some y2 ->
    getNumOutputs ctx = 3 ->
    node_getInputData ctx 1 = Some max_length ->
    node_getInputData ctx 3 = Some num_beams ->
    node_getInputData ctx 4 = Some num_return_sequences ->
    data_type max_length = TensorProto_INT32 -> ParseData max_length = [ML] -> 0 < ML ->
    data_type num_beams = TensorProto_INT32 -> ParseData num_beams = [NB] -> 0 < NB ->
    data_type num_return_sequences = TensorProto_INT32 ->
    ParseData num_return_sequences = [NRS] -> 0 < NRS ->
    let r := BeamSearchShapeInference ParseData ctx in
    snd r = Returned
    /\ (exists y, node_getOutputType (fst r) 0 = Some y
                  /\ shape y = Some [dim_value batch; dim_value NRS; dim_value ML]
                  /\ elem_type y = elem_type t0)
    /\ (exists y, node_getOutputType (fst r) 1 = Some y
                  /\ shape y = Some [] /\ elem_type y = elem_type t5)
    /\ (exists y, node_getOutputType (fst r) 2 = Some y
                  /\ shape y = Some [dim_value (wrap_int64 (ML - seq)); dim_value batch;
                                     dim_value NB; dim_unset]
                  /\ elem_type y = elem_type t5).
Proof.
  intros P ctx batch seq ML NB NRS t0 t5 y0 y1 y2 ml nb nrs
         Ht0 Ht5 H0 Hy0 Hy1 Hy2 Hn Hml Hnb Hnrs Tml Dml Pml Tnb Dnb Pnb Tnrs Dnrs Pnrs r.
  assert (Hpos : forall t v, data_type t = TensorProto_INT32 -> P t = [v] -> 0 < v ->
                             positive_scalar P t = Some v).
  { intros t v Ht Hd Hv. unfold positive_scalar, ParseScalar.
    rewrite Ht, Hd. cbn [List.length Z.of_nat Pos.of_succ_nat Z.eqb Pos.eqb nth].
    change (TensorProto_INT32 =? TensorProto_INT32) with true. cbn iota.
    destruct (Z.leb_spec v 0); [lia|reflexivity]. }
  unfold r, BeamSearchShapeInference.
  rewrite (node_propagate_run ctx 0 0 t0 y0 Ht0 Hy0). cbn [nodeThen].
  node_frame. rewrite Hn. cbn [Z.gtb Z.compare Pos.compare Pos.compare_cont].
  set (a0 := mkTypeProto _ (elem_type t0) (shape y0)).
  erewrite (node_propagate_run (node_set_output ctx 0 a0) 5 1 t5 y1 Ht5)
    by out_lookup.
  cbn [nodeThen]. set (a1 := mkTypeProto _ (elem_type t5) (shape y1)).
  node_frame. rewrite Hn. cbn [Z.gtb Z.compare Pos.compare Pos.compare_cont].
  erewrite (node_propagate_run (node_set_output (node_set_output ctx 0 a0) 1 a1)
              5 2 t5 y2 Ht5) by out_lookup.
  cbn [nodeThen]. set (a2 := mkTypeProto _ (elem_type t5) (shape y2)).
  node_frame. rewrite H0.
  cbn [dim_size List.length Z.of_nat Pos.of_succ_nat Pos.succ Z.eqb Pos.eqb negb].
  change (dim [dim_value batch; dim_value seq] 0) with (dim_value batch).
  change (dim [dim_value batch; dim_value seq] 1) with (dim_value seq).
  cbn [has_dim_value get_dim_value andb negb].
  rewrite Hml, Hnb, Hnrs.
  rewrite (Hpos ml ML Tml Dml Pml), (Hpos nb NB Tnb Dnb Pnb),
    (Hpos nrs NRS Tnrs Dnrs Pnrs).
  erewrite (node_update_run _ 0 a0) by out_lookup. cbn [nodeThen].
  node_frame. rewrite Hn. cbn [Z.gtb Z.compare Pos.compare Pos.compare_cont].
  erewrite (node_update_run _ 1 a1) by out_lookup. cbn [nodeThen].
  node_frame. rewrite Hn. cbn [Z.gtb Z.compare Pos.compare Pos.compare_cont].
  erewrite (node_update_run _ 2 a2) by out_lookup. cbn [fst snd].
  split; [reflexivity|split; [|split]]; eexists; (split; [out_lookup|]);
    split; reflexivity.
Qed.

(** X26.  The guards of BeamSearch, on a node with one output.
    [ParseScalar] yields a value exactly for an INT32 initializer that
    parses to a single element.  Input ids of a rank other than 2 fail;
    with known input ids [batch, seq], a missing max_length, num_beams or
    num_return_sequences initializer makes the call return without a
    shape, and the first of the three, in this order, that does not parse
    to one positive value fails the call with its own message. *)
Theorem BeamSearch_guards :
  forall (ParseData : TensorProto -> list Z) (ctx : NodeContext) (t0 y0 : TypeProto),
    node_getInputType ctx 0 = Some t0 ->
    node_getOutputType ctx 0 = Some y0 ->
    getNumOutputs ctx = 1 ->
    let r := BeamSearchShapeInference ParseData ctx in
    (forall t v, ParseScalar ParseData t = Some v
                 <-> (data_type t = TensorProto_INT32 /\ ParseData t = [v]))
    /\ (forall t v, positive_scalar ParseData t = Some v
                    <-> (ParseScalar ParseData t = Some v /\ 0 < v))
    /\ (forall ids, node_getInputShape ctx 0 = Some ids -> dim_size ids <> 2 ->
          snd r = Thrown (ShapeInferenceError "Inputs 0 shall be 2 dimensions"))
    /\ (forall batch seq,
          node_getInputShape ctx 0 = Some [dim_value batch; dim_value seq] ->
          (node_getInputData ctx 1 = None \/ node_getInputData ctx 3 = None
           \/ node_getInputData ctx 4 = None ->
           snd r = Returned
           /\ exists y, node_getOutputType (fst r) 0 = Some y /\ shape y = shape y0)
          /\ (forall max_length num_beams num_return_sequences,
                node_getInputData ctx 1 = Some max_length ->
                node_getInputData ctx 3 = Some num_beams ->
                node_getInputData ctx 4 = Some num_return_sequences ->
                (positive_scalar ParseData max_length = None ->
                 snd r = Thrown (ShapeInferenceError
                   "Failed to parse max_length or it is not positive integer scalar"))
                /\ (positive_scalar ParseData max_length <> None ->
                    positive_scalar ParseData num_beams = None ->
                    snd r = Thrown (ShapeInferenceError
                      "Failed to parse num_beams or it is not positive integer scalar"))
                /\ (positive_scalar ParseData max_length <> None ->
                    positive_scalar ParseData num_beams <> None ->
                    positive_scalar ParseData num_return_sequences = None ->
                    snd r = Thrown (ShapeInferenceError
                      "Failed to parse num_return_sequences or it is not positive integer scalar")))).
Proof.
  intros P ctx t0 y0 Ht0 Hy0 Hn r.
  split; [|split; [|split; [|]]].
  - intros t v. unfold ParseScalar.
    destruct (Z.eqb_spec (data_type t) TensorProto_INT32) as [Ht|Ht].
    + split.
      * destruct (Z.eqb_spec (Z.of_nat (List.length (P t))) 1) as [Hl|Hl];
          [|discriminate].
        intros [= <-]. split; [exact Ht|].
        destruct (P t) as [|x [|x' l]]; cbn [List.length] in Hl; try lia.
        reflexivity.
      * intros [_ Hd]. rewrite Hd. reflexivity.
    + split; [discriminate|]. intros [H _]. contradiction.
  - intros t v. unfold positive_scalar.
    destruct (ParseScalar P t) as [x|]; [|split; [discriminate|intros [H _]; discriminate H]].
    destruct (Z.leb_spec x 0); split; try discriminate.
    + intros [[= ->] Hv]. lia.
    + intros [= <-]. split; [reflexivity|assumption].
    + intros [[= ->] _]. reflexivity.
  - intros ids H0 Hrank. unfold r, BeamSearchShapeInference.
    rewrite (node_propagate_run ctx 0 0 t0 y0 Ht0 Hy0). cbn [nodeThen].
    node_frame. rewrite Hn. cbn [Z.gtb Z.compare Pos.compare Pos.compare_cont nodeThen].
    node_frame. rewrite H0. apply Z.eqb_neq in Hrank. now rewrite Hrank.
  - intros batch seq H0.
    assert (Hrun : r = let ctx1 := node_set_output ctx 0
                           (mkTypeProto
                              (match value_case y0 with
                               | VALUE_NOT_SET => value_case t0
                               | c => c
                               end) (elem_type t0) (shape y0)) in
                       match node_getInputData ctx 1, node_getInputData ctx 3,
                             node_getInputData ctx 4 with
                       | Some ml, Some nb, Some nrs =>
                           match positive_scalar P ml with
                           | None => (ctx1, Thrown (ShapeInferenceError
                               "Failed to parse max_length or it is not positive integer scalar"))
                           | Some ML =>
                           match positive_scalar P nb with
                           | None => (ctx1, Thrown (ShapeInferenceError
                               "Failed to parse num_beams or it is not positive integer scalar"))
                           | Some NB =>
                           match positive_scalar P nrs with
                           | None => (ctx1, Thrown (ShapeInferenceError
                               "Failed to parse num_return_sequences or it is not positive integer scalar"))
                           | Some NRS =>
                               nodeThen
                                 (node_updateOutputShape ctx1 0
                                    [dim_value batch; dim_value NRS; dim_value ML])
                                 (fun ctx2 => (ctx2, Returned))
                           end end end
                       | _, _, _ => (ctx1, Returned)
                       end).
    { unfold r, BeamSearchShapeInference.
      rewrite (node_propagate_run ctx 0 0 t0 y0 Ht0 Hy0). cbn [nodeThen].
      node_frame. rewrite Hn.
      cbn [Z.gtb Z.compare Pos.compare Pos.compare_cont nodeThen].
      node_frame. rewrite H0.
      cbn [dim_size List.length Z.of_nat Pos.of_succ_nat Pos.succ Z.eqb Pos.eqb negb].
      change (dim [dim_value batch; dim_value seq] 0) with (dim_value batch).
      change (dim [dim_value batch; dim_value seq] 1) with (dim_value seq).
      cbn [has_dim_value get_dim_value andb negb]. cbv zeta.
      destruct (node_getInputData ctx 1) as [ml|]; [|reflexivity].
      destruct (node_getInputData ctx 3) as [nb|]; [|reflexivity].
      destruct (node_getInputData ctx 4) as [nrs|]; [|reflexivity].
      destruct (positive_scalar P ml); [|reflexivity].
      destruct (positive_scalar P nb); [|reflexivity].
      destruct (positive_scalar P nrs); [|reflexivity].
      erewrite (node_update_run _ 0) by out_lookup. cbn [nodeThen].
      node_frame. rewrite Hn. reflexivity. }
    rewrite Hrun. cbv zeta. split.
    + intros Hnone.
      assert (Hskip : match node_getInputData ctx 1, node_getInputData ctx 3,
                            node_getInputData ctx 4 with
                      | Some _, Some _, Some _ => False
                      | _, _, _ => True
                      end).
      { destruct Hnone as [-> | [-> | ->]]; [exact I| |].
        - destruct (node_getInputData ctx 1); exact I.
        - destruct (node_getInputData ctx 1); [|exact I].
          destruct (node_getInputData ctx 3); exact I. }
      destruct (node_getInputData ctx 1); [destruct (node_getInputData ctx 3);
        [destruct (node_getInputData ctx 4)|]|]; try contradiction; cbn [fst snd];
        (split; [reflexivity|]); eexists; (split; [out_lookup|reflexivity]).
    + intros ml nb nrs -> -> ->. split; [|split].
      * intros ->. reflexivity.
      * intros Hml ->. destruct (positive_scalar P ml); [reflexivity|contradiction].
      * intros Hml Hnb ->. destruct (positive_scalar P ml); [|contradiction].
        destruct (positive_scalar P nb); [reflexivity|contradiction].
Qed.

Lemma BeamSearch_guards_witness :
  snd (BeamSearchShapeInference int32_data
         (mkNodeContext []
            [Some (mkTypeProto kTensorType 6 (Some (known [2; 5; 1])))] []
            [fresh_output]))
  = Thrown (ShapeInferenceError "Inputs 0 shall be 2 dimensions").
Proof.
  apply (proj1 (proj2 (proj2 (BeamSearch_guards int32_data
           (mkNodeContext []
              [Some (mkTypeProto kTensorType 6 (Some (known [2; 5; 1])))] []
              [fresh_output])
           (mkTypeProto kTensorType 6 (Some (known [2; 5; 1]))) fresh_output
           eq_refl eq_refl eq_refl))) (known [2; 5; 1]) eq_refl).
  vm_compute. discriminate.
Defined.

Lemma BeamSearch_shapes_witness :
  exists y,
    node_getOutputType (fst (BeamSearchShapeInference int32_data beam_node)) 1 = Some y
    /\ shape y = Some [] /\ elem_type y = 1.
Proof.
  apply (BeamSearch_shapes int32_data beam_node 2 5 20 4 3
           (mkTypeProto kTensorType 6 (Some (known [2; 5])))
           (mkTypeProto kTensorType 1 (Some (known [1])))
           fresh_output fresh_output fresh_output
           (int32_tensor [20]) (int32_tensor [4]) (int32_tensor [3]));
    try reflexivity.
Defined.

Lemma DecoderAttention_shapes_witness :
  exists y,
    node_getOutputType (fst (DecoderAttentionTypeAndShapeInference decoder_node)) 2 = Some y
    /\ shape y = Some [dim_value 2; dim_value 12; dim_unset; dim_value 64].
Proof.
  apply (DecoderAttention_shapes decoder_node
           [dim_param "S"; dim_param "B"; dim_value 768] [dim_param "any"]
           (dim_value 2) (dim_value 12) (dim_value 7) (dim_value 64)
           (mkTypeProto kTensorType 1 (Some [dim_param "S"; dim_param "B"; dim_value 768]))
           fresh_output fresh_output fresh_output);
    reflexivity.
Defined.

Lemma Attention_present_shape_witness :
  exists y,
    node_getOutputType
      (fst (AttentionTypeAndShapeInference
              (attention_node [] [fresh_output; fresh_output]) 4)) 1 = Some y
    /\ shape y = Some [dim_value 2; dim_param "B"; dim_value 12;
                       dim_value (wrap_int64 (7 + 5)); dim_value 64]
    /\ elem_type y = 1.
Proof.
  apply (proj1 (proj2 (Attention_present_shape
           (attention_node [] [fresh_output; fresh_output]) 4
           (dim_param "B") (dim_value 5) (dim_value 768) (dim_value 2304)
           (dim_value 2) (dim_param "B") (dim_value 12) (dim_value 7) (dim_value 64)
           fresh_output fresh_output (mkTypeProto kTensorType 1 (Some (known [2304])))
           eq_refl eq_refl eq_refl eq_refl eq_refl eq_refl eq_refl eq_refl))
           7 5 eq_refl eq_refl).
Defined.

Lemma Attention_guards_witness :
  snd (AttentionTypeAndShapeInference
         (attention_node [("qkv_hidden_sizes", [64; 64])] [fresh_output]) 4)
  = Thrown (ShapeInferenceError "qkv_hidden_sizes should have 3 elements").
Proof.
  apply (proj1 (Attention_guards
           (attention_node [("qkv_hidden_sizes", [64; 64])] [fresh_output]) 4
           fresh_output (mkTypeProto kTensorType 1 (Some (known [2304])))
           eq_refl eq_refl eq_refl)
           [dim_param "B"; dim_value 5; dim_value 768] (known [2304]) eq_refl eq_refl).
Defined.
